(** * Authorizer: the signup resolver and the Cassandra user provider

    A shallow embedding of
    - [server/db/models/model.go] (table names),
    - [server/db/providers/cassandradb/user.go] (AddUser, UpdateUser,
      DeleteUser, ListUsers, GetUserByEmail, GetUserByID), and
    - the two revisions of [resolvers.SignupResolver] (the one reading its
      flags from [memorystore], and the older one reading them from
      [envstore]),
    followed by the properties of the credential lifecycle proved over it.

    Conventions.  A Go [string] is a [string]; [int64] is a [Z] with the
    wrap-around of its arithmetic written out ([wrap64]); a nilable pointer
    ([*string], [*int64], [*AuthResponse]) is an [option]; an [error] is an
    [option error], [None] being [nil]; a function returning [(v, err)]
    returns a pair.  Calls that touch the database, the clock, the random
    source, the cookie jar or the session cache thread a [World]. *)

From Stdlib Require Import ZArith String Ascii List Lia Bool.
From Stdlib Require Import DecimalString DecimalZ.
From stdpp Require Import gmap strings list fin_maps.

Open Scope Z_scope.
Open Scope string_scope.
Open Scope list_scope.

(** ** Go's [error] and [int64] *)

Definition error := string.

Definition min_int64 : Z := - 2 ^ 63.
Definition max_int64 : Z := 2 ^ 63 - 1.

(** Two's-complement wrap-around of a 64-bit signed result. *)
Definition wrap64 (z : Z) : Z := (z + 2 ^ 63) mod 2 ^ 64 - 2 ^ 63.

Definition int64_add (a b : Z) : Z := wrap64 (a + b).
Definition int64_sub (a b : Z) : Z := wrap64 (a - b).

Definition in_int64 (z : Z) : Prop := min_int64 <= z <= max_int64.

(** ** The fragments of package [strings] and [fmt] the code uses *)

(** Package [unicode], which [strings.ToLower] goes through for a string
    with a byte outside ASCII: [strings.Map(unicode.ToLower, s)], the
    string with every letter replaced by its lower-case form.  Its tables
    are the standard library's and are taken as given. *)
Class Unicode := {
  Map_unicode_ToLower : string -> string;
}.

Module strings.

Definition is_upper (c : ascii) : bool :=
  (65 <=? nat_of_ascii c)%nat && (nat_of_ascii c <=? 90)%nat.

Definition lower_char (c : ascii) : ascii :=
  if is_upper c then ascii_of_nat (nat_of_ascii c + 32) else c.

(** Every byte is below [utf8.RuneSelf]. *)
Fixpoint is_ascii (s : string) : bool :=
  match s with
  | EmptyString => true
  | String c s' => (nat_of_ascii c <? 128)%nat && is_ascii s'
  end.

(** The bytes [A] to [Z] folded, the others kept. *)
Fixpoint lower_bytes (s : string) : string :=
  match s with
  | EmptyString => EmptyString
  | String c s' => String (lower_char c) (lower_bytes s')
  end.

(** [strings.ToLower]: an ASCII string has its bytes [A] to [Z] folded;
    any other string is mapped letter by letter with [unicode.ToLower]. *)
Definition ToLower `{Unicode} (s : string) : string :=
  if is_ascii s then lower_bytes s else Map_unicode_ToLower s.

#[global] Arguments ToLower : simpl never.

(** [strings.Split(s, sep)] for a one-byte separator: one more piece
    than there are separators, so [Split "" ","] is [[""]]. *)
Fixpoint Split (s : string) (sep : ascii) : list string :=
  match s with
  | EmptyString => [EmptyString]
  | String c s' =>
      if Ascii.eqb c sep then EmptyString :: Split s' sep
      else match Split s' sep with
           | [] => [String c EmptyString]
           | p :: ps => String c p :: ps
           end
  end.

(** [strings.Join(elems, sep)]. *)
Fixpoint Join (elems : list string) (sep : string) : string :=
  match elems with
  | [] => EmptyString
  | [e] => e
  | e :: es => e +:+ sep +:+ Join es sep
  end.

(** [s[:len(s)-1]] for a non-empty [s] (the empty string is kept: the
    callers only slice strings that start with an opening bracket). *)
Fixpoint drop_last (s : string) : string :=
  match s with
  | EmptyString => EmptyString
  | String c EmptyString => EmptyString
  | String c s' => String c (drop_last s')
  end.

Fixpoint rev_string (acc s : string) : string :=
  match s with
  | EmptyString => acc
  | String c s' => rev_string (String c acc) s'
  end.

Fixpoint trim_left (c : ascii) (s : string) : string :=
  match s with
  | EmptyString => EmptyString
  | String d s' => if Ascii.eqb d c then trim_left c s' else s
  end.

(** [strings.Trim(s, cutset)] for a one-byte cutset: the byte is removed
    from both ends. *)
Definition Trim (s : string) (c : ascii) : string :=
  rev_string EmptyString
    (trim_left c (rev_string EmptyString (trim_left c s))).

(** [strings.TrimSuffix(s, suffix)] for a one-byte suffix: removed once. *)
Definition TrimSuffix (s : string) (c : ascii) : string :=
  match rev_string EmptyString s with
  | String d r => if Ascii.eqb d c then rev_string EmptyString r else s
  | EmptyString => s
  end.

End strings.

(** [%d] and [%v] of an [int64], and the text [json.Marshal] writes for it:
    the decimal digits, with a leading minus sign when negative. *)
Definition format_int64 (z : Z) : string :=
  NilZero.string_of_int (Z.to_int z).

(** The reading of a decimal literal back into an integer. *)
Definition parse_int64 (s : string) : option Z :=
  option_map Z.of_int (NilZero.int_of_string s).

(** ** [server/db/models] *)

Module models.

(** [model.go]: the prefix and the table names. *)
Record CollectionList := {
  CL_User : string;
  CL_VerificationRequest : string;
  CL_Session : string;
  CL_Env : string;
  CL_Webhook : string;
  CL_WebhookLog : string;
  CL_EmailTemplate : string;
}.

Definition Prefix : string := "authorizer_".

Definition Collections : CollectionList := {|
  CL_User := Prefix +:+ "users";
  CL_VerificationRequest := Prefix +:+ "verification_requests";
  CL_Session := Prefix +:+ "sessions";
  CL_Env := Prefix +:+ "env";
  CL_Webhook := Prefix +:+ "webhooks";
  CL_WebhookLog := Prefix +:+ "webhook_logs";
  CL_EmailTemplate := Prefix +:+ "email_templates";
|}.

(** Modelled from the spec: the struct [models.User], which is declared in a
    file that is not embedded here.  Section 3 lists its attributes; the
    fields are the ones the provider scans and the resolver assigns, with
    the types those uses give them ([&user.EmailVerifiedAt] receives a
    [*int64], [user.Password = &password] a [*string], ...), plus the
    [_key] entry that [UpdateUser] skips. *)
Record User := {
  Key : string;
  ID : string;
  Email : string;
  EmailVerifiedAt : option Z;
  Password : option string;
  SignupMethods : string;
  GivenName : option string;
  FamilyName : option string;
  MiddleName : option string;
  Nickname : option string;
  Gender : option string;
  Birthdate : option string;
  PhoneNumber : option string;
  PhoneNumberVerifiedAt : option Z;
  Picture : option string;
  Roles : string;
  RevokedTimestamp : option Z;
  CreatedAt : Z;
  UpdatedAt : Z;
}.

(** [var user models.User]: every field at its zero value. *)
Definition zero_User : User := {|
  Key := ""; ID := ""; Email := ""; EmailVerifiedAt := None;
  Password := None; SignupMethods := ""; GivenName := None;
  FamilyName := None; MiddleName := None; Nickname := None;
  Gender := None; Birthdate := None; PhoneNumber := None;
  PhoneNumberVerifiedAt := None; Picture := None; Roles := "";
  RevokedTimestamp := None; CreatedAt := 0; UpdatedAt := 0;
|}.

Definition set_ID (u : User) (v : string) : User := {|
  Key := Key u; ID := v; Email := Email u;
  EmailVerifiedAt := EmailVerifiedAt u; Password := Password u;
  SignupMethods := SignupMethods u; GivenName := GivenName u;
  FamilyName := FamilyName u; MiddleName := MiddleName u;
  Nickname := Nickname u; Gender := Gender u; Birthdate := Birthdate u;
  PhoneNumber := PhoneNumber u;
  PhoneNumberVerifiedAt := PhoneNumberVerifiedAt u; Picture := Picture u;
  Roles := Roles u; RevokedTimestamp := RevokedTimestamp u;
  CreatedAt := CreatedAt u; UpdatedAt := UpdatedAt u;
|}.

Definition set_Roles (u : User) (v : string) : User := {|
  Key := Key u; ID := ID u; Email := Email u;
  EmailVerifiedAt := EmailVerifiedAt u; Password := Password u;
  SignupMethods := SignupMethods u; GivenName := GivenName u;
  FamilyName := FamilyName u; MiddleName := MiddleName u;
  Nickname := Nickname u; Gender := Gender u; Birthdate := Birthdate u;
  PhoneNumber := PhoneNumber u;
  PhoneNumberVerifiedAt := PhoneNumberVerifiedAt u; Picture := Picture u;
  Roles := v; RevokedTimestamp := RevokedTimestamp u;
  CreatedAt := CreatedAt u; UpdatedAt := UpdatedAt u;
|}.

Definition set_CreatedAt (u : User) (v : Z) : User := {|
  Key := Key u; ID := ID u; Email := Email u;
  EmailVerifiedAt := EmailVerifiedAt u; Password := Password u;
  SignupMethods := SignupMethods u; GivenName := GivenName u;
  FamilyName := FamilyName u; MiddleName := MiddleName u;
  Nickname := Nickname u; Gender := Gender u; Birthdate := Birthdate u;
  PhoneNumber := PhoneNumber u;
  PhoneNumberVerifiedAt := PhoneNumberVerifiedAt u; Picture := Picture u;
  Roles := Roles u; RevokedTimestamp := RevokedTimestamp u;
  CreatedAt := v; UpdatedAt := UpdatedAt u;
|}.

Definition set_UpdatedAt (u : User) (v : Z) : User := {|
  Key := Key u; ID := ID u; Email := Email u;
  EmailVerifiedAt := EmailVerifiedAt u; Password := Password u;
  SignupMethods := SignupMethods u; GivenName := GivenName u;
  FamilyName := FamilyName u; MiddleName := MiddleName u;
  Nickname := Nickname u; Gender := Gender u; Birthdate := Birthdate u;
  PhoneNumber := PhoneNumber u;
  PhoneNumberVerifiedAt := PhoneNumberVerifiedAt u; Picture := Picture u;
  Roles := Roles u; RevokedTimestamp := RevokedTimestamp u;
  CreatedAt := CreatedAt u; UpdatedAt := v;
|}.

(** Modelled from the spec: the struct [models.Session] (section 3: owning
    user ID, user agent, source IP), with the ID that [DeleteUser] selects
    and the fields the resolver fills in. *)
Record Session := {
  S_ID : string;
  S_UserID : string;
  S_UserAgent : string;
  S_IP : string;
}.

(** Modelled from the spec: the struct [models.VerificationRequest]
    (section 3: token, identifier, expiry, email, nonce hash, redirect URI),
    with the fields the resolver fills in. *)
Record VerificationRequest := {
  VR_Token : string;
  VR_Identifier : string;
  VR_ExpiresAt : Z;
  VR_Email : string;
  VR_Nonce : string;
  VR_RedirectURI : string;
}.

End models.

(** ** [server/graph/model]: the types of the GraphQL surface *)

Module model.

(** Modelled from the spec: the public projection of a user (section 4.4,
    step 6: the profile with the password and other sensitive fields
    stripped; section 8: it shows the email and the roles as a list).  The
    struct is declared in a file that is not embedded here. *)
Record User := {
  ID : string;
  Email : string;
  EmailVerified : bool;
  SignupMethods : string;
  GivenName : option string;
  FamilyName : option string;
  MiddleName : option string;
  Nickname : option string;
  Gender : option string;
  Birthdate : option string;
  PhoneNumber : option string;
  PhoneNumberVerified : bool;
  Picture : option string;
  Roles : list string;
  RevokedTimestamp : option Z;
  CreatedAt : Z;
  UpdatedAt : Z;
}.

(** Modelled from the spec: the struct [model.SignUpInput] (section 8 shows
    the email and the two passwords), with the fields the resolver reads.
    [Scope] is a slice the resolver compares with [nil]; [Roles] is a slice
    it only measures. *)
Record SignUpInput := {
  SI_Email : string;
  SI_GivenName : option string;
  SI_FamilyName : option string;
  SI_MiddleName : option string;
  SI_Nickname : option string;
  SI_Gender : option string;
  SI_Birthdate : option string;
  SI_PhoneNumber : option string;
  SI_Picture : option string;
  SI_Password : string;
  SI_ConfirmPassword : string;
  SI_Roles : list string;
  SI_Scope : option (list string);
  SI_RedirectURI : option string;
}.

(** [params.Email = strings.ToLower(params.Email)] assigns one field. *)
Definition set_Email (p : SignUpInput) (v : string) : SignUpInput := {|
  SI_Email := v; SI_GivenName := SI_GivenName p;
  SI_FamilyName := SI_FamilyName p; SI_MiddleName := SI_MiddleName p;
  SI_Nickname := SI_Nickname p; SI_Gender := SI_Gender p;
  SI_Birthdate := SI_Birthdate p; SI_PhoneNumber := SI_PhoneNumber p;
  SI_Picture := SI_Picture p; SI_Password := SI_Password p;
  SI_ConfirmPassword := SI_ConfirmPassword p; SI_Roles := SI_Roles p;
  SI_Scope := SI_Scope p; SI_RedirectURI := SI_RedirectURI p;
|}.

(** Modelled from the spec: the struct [model.AuthResponse] (section 6:
    message, optional access token, optional refresh token, optional
    expiresIn, public user projection). *)
Record AuthResponse := {
  Message : string;
  AccessToken : option string;
  RefreshToken : option string;
  ExpiresIn : option Z;
  AR_User : option User;
}.

(** Modelled from the spec: the struct [model.Pagination] (section 4.1:
    limit and offset, and the total count the page comes with), with the
    fields [ListUsers] reads and writes. *)
Record Pagination := {
  Limit : Z;
  Offset : Z;
  Total : Z;
}.

Definition set_Total (p : Pagination) (v : Z) : Pagination :=
  {| Limit := Limit p; Offset := Offset p; Total := v |}.

(** Modelled from the spec: the struct [model.Users] (section 4.1: a page
    plus the total count). *)
Record Users := {
  Us_Users : list User;
  Us_Pagination : Pagination;
}.

End model.

(** Modelled from the spec: [models.User.AsAPIUser], the projection handed
    to the caller (section 4.4, step 6).  The password is dropped, the two
    verification stamps become booleans, and the comma-joined roles are split
    into the list of section 8's scenario. *)
Definition AsAPIUser (u : models.User) : model.User := {|
  model.ID := models.ID u;
  model.Email := models.Email u;
  model.EmailVerified :=
    match models.EmailVerifiedAt u with Some _ => true | None => false end;
  model.SignupMethods := models.SignupMethods u;
  model.GivenName := models.GivenName u;
  model.FamilyName := models.FamilyName u;
  model.MiddleName := models.MiddleName u;
  model.Nickname := models.Nickname u;
  model.Gender := models.Gender u;
  model.Birthdate := models.Birthdate u;
  model.PhoneNumber := models.PhoneNumber u;
  model.PhoneNumberVerified :=
    match models.PhoneNumberVerifiedAt u with Some _ => true | None => false end;
  model.Picture := models.Picture u;
  model.Roles := strings.Split (models.Roles u) ",";
  model.RevokedTimestamp := models.RevokedTimestamp u;
  model.CreatedAt := models.CreatedAt u;
  model.UpdatedAt := models.UpdatedAt u;
|}.

(** ** The loosely-typed map of a user and the statements built from it *)

(** What [decoder.Decode(&userMap)] stores under a key once
    [decoder.UseNumber()] is set: [nil] for a JSON null, a Go [string] for a
    JSON string, and for a JSON number a [json.Number], which is the
    number's literal text (no [float64] is produced). *)
Inductive value :=
| VNil
| VString (s : string)
| VNumber (digits : string).

Definition value_of_int64 (z : Z) : value := VNumber (format_int64 z).

Definition value_of_opt_int64 (o : option Z) : value :=
  match o with Some z => value_of_int64 z | None => VNil end.

Definition value_of_opt_string (o : option string) : value :=
  match o with Some s => VString s | None => VNil end.

(** The entries [json.Marshal(user)] writes, in the struct's order.  The
    names are the column names of the provider's statements, [_id] for
    the ID, and [_key], left out when empty. *)
Definition user_entries (u : models.User) : list (string * value) :=
  (if String.eqb (models.Key u) "" then [] else [("_key", VString (models.Key u))]) ++
  [ ("_id", VString (models.ID u));
    ("email", VString (models.Email u));
    ("email_verified_at", value_of_opt_int64 (models.EmailVerifiedAt u));
    ("password", value_of_opt_string (models.Password u));
    ("signup_methods", VString (models.SignupMethods u));
    ("given_name", value_of_opt_string (models.GivenName u));
    ("family_name", value_of_opt_string (models.FamilyName u));
    ("middle_name", value_of_opt_string (models.MiddleName u));
    ("nickname", value_of_opt_string (models.Nickname u));
    ("gender", value_of_opt_string (models.Gender u));
    ("birthdate", value_of_opt_string (models.Birthdate u));
    ("phone_number", value_of_opt_string (models.PhoneNumber u));
    ("phone_number_verified_at", value_of_opt_int64 (models.PhoneNumberVerifiedAt u));
    ("picture", value_of_opt_string (models.Picture u));
    ("roles", VString (models.Roles u));
    ("revoked_timestamp", value_of_opt_int64 (models.RevokedTimestamp u));
    ("updated_at", value_of_int64 (models.UpdatedAt u));
    ("created_at", value_of_int64 (models.CreatedAt u)) ].

(** [userMap := map[string]interface{}{}] after the decode. *)
Definition userMap (u : models.User) : gmap string value :=
  list_to_map (user_entries u).

(** [for key, value := range userMap] visits the entries in an order Go does
    not fix: any arrangement of the map's entries is a possible visit. *)
Definition range_of (m : gmap string value) (visit : list (string * value)) : Prop :=
  visit ≡ₚ map_to_list m.

Section Statements.

(** The package variable [KeySpace] of [cassandradb]. *)
Variable KeySpace : string.

Definition users_table : string :=
  KeySpace +:+ "." +:+ models.CL_User models.Collections.

Definition sessions_table : string :=
  KeySpace +:+ "." +:+ models.CL_Session models.Collections.

(** One turn of [AddUser]'s loop over the map. *)
Definition AddUser_step (acc : string * string) (kv : string * value)
  : string * string :=
  let '(fields, values) := acc in
  let '(key, v) := kv in
  match v with
  | VNil => (fields, values)
  | VString s =>
      ((if String.eqb key "_id" then fields +:+ "id," else fields +:+ key +:+ ","),
       values +:+ "'" +:+ s +:+ "',")
  | VNumber n =>
      ((if String.eqb key "_id" then fields +:+ "id," else fields +:+ key +:+ ","),
       values +:+ n +:+ ",")
  end.

(** The text [AddUser] executes, for a given visit of the map. *)
Definition AddUser_query (visit : list (string * value)) : string :=
  let '(fields, values) := fold_left AddUser_step visit ("(", "(") in
  let fields := strings.drop_last fields +:+ ")" in
  let values := strings.drop_last values +:+ ")" in
  "INSERT INTO " +:+ users_table +:+ " " +:+ fields +:+ " VALUES " +:+ values
    +:+ " IF NOT EXISTS".

(** One turn of [UpdateUser]'s loop over the map. *)
Definition UpdateUser_step (updateFields : string) (kv : string * value)
  : string :=
  let '(key, v) := kv in
  if String.eqb key "_id" then updateFields
  else if String.eqb key "_key" then updateFields
  else match v with
       | VNil => updateFields +:+ key +:+ " = null,"
       | VString s => updateFields +:+ key +:+ " = '" +:+ s +:+ "', "
       | VNumber n => updateFields +:+ key +:+ " = " +:+ n +:+ ", "
       end.

(** The text [UpdateUser] executes. *)
Definition UpdateUser_query (id : string) (visit : list (string * value))
  : string :=
  let updateFields := fold_left UpdateUser_step visit "" in
  let updateFields := strings.Trim updateFields " " in
  let updateFields := strings.TrimSuffix updateFields "," in
  "UPDATE " +:+ users_table +:+ " SET " +:+ updateFields
    +:+ " WHERE id = '" +:+ id +:+ "'".

Definition user_columns : string :=
  "id, email, email_verified_at, password, signup_methods, given_name, family_name, middle_name, nickname, birthdate, phone_number, phone_number_verified_at, picture, roles, revoked_timestamp, created_at, updated_at".

(** The text [GetUserByEmail] executes. *)
Definition GetUserByEmail_query (email : string) : string :=
  "SELECT " +:+ user_columns +:+ " FROM " +:+ users_table
    +:+ " WHERE email = '" +:+ email +:+ "' LIMIT 1 ALLOW FILTERING".

(** The three texts of [DeleteUser]. *)
Definition DeleteUser_query (id : string) : string :=
  "DELETE FROM " +:+ users_table +:+ " WHERE id = '" +:+ id +:+ "'".

Definition getSessionsQuery (id : string) : string :=
  "SELECT id FROM " +:+ sessions_table +:+ " WHERE user_id = '" +:+ id
    +:+ "' ALLOW FILTERING".

Definition deleteSessionQuery (sessionIDs : string) : string :=
  "DELETE FROM " +:+ sessions_table +:+ " WHERE id IN ("
    +:+ strings.TrimSuffix sessionIDs "," +:+ ")".

(** The two texts of [ListUsers]. *)
Definition totalCountQuery : string :=
  "SELECT COUNT(" +:+ String "*" ") FROM " +:+ users_table.

Definition ListUsers_query (p : model.Pagination) : string :=
  "SELECT " +:+ user_columns +:+ " FROM " +:+ users_table +:+ " LIMIT "
    +:+ format_int64 (int64_add (model.Limit p) (model.Offset p)).

End Statements.

(** ** How the database reads a statement's text

    A CQL string literal opens and closes with a single quote; inside it a
    quote is written twice.  Everything else is statement text.  [cql_lex]
    cuts a text into the characters of the statement and the literals it
    carries, and fails on a literal left open. *)

Inductive token :=
| TChar (c : ascii)
| TLit (s : string).

Inductive lex_mode :=
| Outside
| InLiteral (acc : string)
| QuoteSeen (acc : string).

Definition quote : ascii := "'"%char.

Definition lex_step (st : lex_mode * list token) (c : ascii)
  : lex_mode * list token :=
  let '(m, toks) := st in
  match m with
  | Outside =>
      if Ascii.eqb c quote then (InLiteral "", toks)
      else (Outside, toks ++ [TChar c])
  | InLiteral acc =>
      if Ascii.eqb c quote then (QuoteSeen acc, toks)
      else (InLiteral (acc +:+ String c ""), toks)
  | QuoteSeen acc =>
      if Ascii.eqb c quote then (InLiteral (acc +:+ String quote ""), toks)
      else (Outside, toks ++ [TLit acc; TChar c])
  end.

Fixpoint lex_run (st : lex_mode * list token) (s : string)
  : lex_mode * list token :=
  match s with
  | EmptyString => st
  | String c s' => lex_run (lex_step st c) s'
  end.

Definition cql_lex (s : string) : option (list token) :=
  match lex_run (Outside, []) s with
  | (Outside, toks) => Some toks
  | (QuoteSeen acc, toks) => Some (toks ++ [TLit acc])
  | (InLiteral _, _) => None
  end.

(** The statement with the contents of its literals blanked: what is left
    is the statement's structure. *)
Definition erase (t : token) : option ascii :=
  match t with TChar c => Some c | TLit _ => None end.

Definition structure (s : string) : option (list (option ascii)) :=
  option_map (map erase) (cql_lex s).

Fixpoint chars (s : string) : list token :=
  match s with
  | EmptyString => []
  | String c s' => TChar c :: chars s'
  end.

Fixpoint quote_free (s : string) : bool :=
  match s with
  | EmptyString => true
  | String c s' => negb (Ascii.eqb c quote) && quote_free s'
  end.

(** A piece of text that the lexer, met outside a literal, reads as [toks]
    and leaves outside a literal. *)
Definition reads_as (p : string) (toks : list token) : Prop :=
  forall acc, lex_run (Outside, acc) p = (Outside, acc ++ toks).

(** What the loops of [AddUser] and [UpdateUser] write for an entry. *)
Definition is_present (kv : string * value) : bool :=
  match snd kv with VNil => false | _ => true end.

Definition column (kv : string * value) : string :=
  if String.eqb (fst kv) "_id" then "id" else fst kv.

Definition literal (v : value) : string :=
  match v with
  | VNil => ""
  | VString s => "'" +:+ s +:+ "'"
  | VNumber n => n
  end.

(** What the lexer reads where a value was written: one literal holding
    the string, or the characters of the number. *)
Definition literal_tokens (v : value) : list token :=
  match v with
  | VNil => []
  | VString s => [TLit s]
  | VNumber n => chars n
  end.

(** Pieces written one after the other, a comma after each but the last,
    which is followed by [final]. *)
Fixpoint terminated (pieces : list string) (final : string) : string :=
  match pieces with
  | [] => ""
  | [p] => p +:+ final
  | p :: ps => p +:+ "," +:+ terminated ps final
  end.

Fixpoint value_tokens (vs : list value) (final : ascii) : list token :=
  match vs with
  | [] => []
  | [v] => literal_tokens v ++ [TChar final]
  | v :: vs' => literal_tokens v ++ [TChar ","%char] ++ value_tokens vs' final
  end.

(** The entries [UpdateUser] writes: all but [_id] and [_key]. *)
Definition is_updated (kv : string * value) : bool :=
  negb (String.eqb (fst kv) "_id") && negb (String.eqb (fst kv) "_key").

Definition assignment (kv : string * value) : string :=
  match snd kv with
  | VNil => fst kv +:+ " = null"
  | v => fst kv +:+ " = " +:+ literal v
  end.

Definition assignment_tokens (kv : string * value) : list token :=
  match snd kv with
  | VNil => chars (fst kv +:+ " = null")
  | v => chars (fst kv +:+ " = ") ++ literal_tokens v
  end.

(** After a [nil] the loop writes a comma, after a value a comma and a
    space. *)
Definition separator (kv : string * value) : string :=
  match snd kv with VNil => "," | _ => ", " end.

Fixpoint assignments (kvs : list (string * value)) : string :=
  match kvs with
  | [] => ""
  | [kv] => assignment kv
  | kv :: rest => assignment kv +:+ separator kv +:+ assignments rest
  end.

Fixpoint assignments_tokens (kvs : list (string * value)) : list token :=
  match kvs with
  | [] => []
  | [kv] => assignment_tokens kv
  | kv :: rest =>
      assignment_tokens kv ++ chars (separator kv) ++ assignments_tokens rest
  end.

(** An entry whose key and value cannot open or close a literal, and whose
    key is a name (not empty, no leading space). *)
Definition clean_value (v : value) : bool :=
  match v with
  | VNil => true
  | VString s => quote_free s
  | VNumber n => quote_free n
  end.

Definition is_name (k : string) : bool :=
  match k with
  | EmptyString => false
  | String c _ => negb (Ascii.eqb c " "%char) && quote_free k
  end.

Definition clean_entry (kv : string * value) : bool :=
  is_name (fst kv) && clean_value (snd kv).

(** The strings of a user that end up between quotes. *)
Definition opt_quote_free (o : option string) : bool :=
  match o with Some s => quote_free s | None => true end.

Definition inert_user (u : models.User) : bool :=
  quote_free (models.Key u) && quote_free (models.ID u)
  && quote_free (models.Email u) && opt_quote_free (models.Password u)
  && quote_free (models.SignupMethods u)
  && opt_quote_free (models.GivenName u) && opt_quote_free (models.FamilyName u)
  && opt_quote_free (models.MiddleName u) && opt_quote_free (models.Nickname u)
  && opt_quote_free (models.Gender u) && opt_quote_free (models.Birthdate u)
  && opt_quote_free (models.PhoneNumber u) && opt_quote_free (models.Picture u)
  && quote_free (models.Roles u).

(** Pieces written one after the other, a comma after each: what the loop
    of [AddUser] has built when it ends. *)
Fixpoint comma_ended (pieces : list string) : string :=
  match pieces with
  | [] => ""
  | p :: ps => p +:+ "," +:+ comma_ended ps
  end.

(** Assignments, each with its separator: what the loop of [UpdateUser]
    has built when it ends. *)
Fixpoint separated (kvs : list (string * value)) : string :=
  match kvs with
  | [] => ""
  | kv :: rest => assignment kv +:+ separator kv +:+ separated rest
  end.

(** The tokens of the three statements, for the entries visited. *)
Definition AddUser_tokens (KeySpace : string) (visit : list (string * value))
  : list token :=
  let present := List.filter is_present visit in
  chars ("INSERT INTO " +:+ users_table KeySpace +:+ " ("
         +:+ terminated (map column present) ")" +:+ " VALUES (")
  ++ value_tokens (map snd present) ")"
  ++ chars " IF NOT EXISTS".

Definition UpdateUser_tokens (KeySpace id : string) (visit : list (string * value))
  : list token :=
  chars ("UPDATE " +:+ users_table KeySpace +:+ " SET ")
  ++ assignments_tokens (List.filter is_updated visit)
  ++ chars " WHERE id = " ++ [TLit id].

Definition GetUserByEmail_tokens (KeySpace email : string) : list token :=
  chars ("SELECT " +:+ user_columns +:+ " FROM " +:+ users_table KeySpace
         +:+ " WHERE email = ")
  ++ [TLit email] ++ chars " LIMIT 1 ALLOW FILTERING".

(** The [int64] fields of a user, by the name of their entry. *)
Definition int64_field (u : models.User) (key : string) : option Z :=
  if String.eqb key "email_verified_at" then models.EmailVerifiedAt u
  else if String.eqb key "phone_number_verified_at" then models.PhoneNumberVerifiedAt u
  else if String.eqb key "revoked_timestamp" then models.RevokedTimestamp u
  else if String.eqb key "updated_at" then Some (models.UpdatedAt u)
  else if String.eqb key "created_at" then Some (models.CreatedAt u)
  else None.

(** ** The world a request runs in *)

(** What a goroutine started by the resolver will do; the resolver does not
    wait for it. *)
Inductive Action :=
| SendVerificationMail (toEmail token hostname : string)
| RegisterEvent (eventName authRecipe : string) (user : models.User)
| AddSession (session : models.Session).

(** The Cassandra keyspace behind the provider: the rows of each table in
    the order they were written, and the outcomes the coming calls of the
    driver will have ([Some err] for a call that fails; past the end of the
    list every call succeeds). *)
Record CassDB := {
  tbl_users : list models.User;
  tbl_sessions : list models.Session;
  tbl_verification_requests : list models.VerificationRequest;
  faults : list (option error);
}.

Record World := {
  db : CassDB;
  ticks : nat;                                    (* reads of the clock so far *)
  draws : nat;                                    (* draws of randomness so far *)
  cookies : list string;                          (* [cookie.SetSession] *)
  user_sessions : gmap string (gmap string string); (* [memorystore] sessions *)
  session_state : gmap string string;             (* [sessionstore.SetState] *)
  spawned : list (list Action);                   (* goroutines started *)
}.

Definition with_db (w : World) (d : CassDB) : World :=
  {| db := d; ticks := ticks w; draws := draws w; cookies := cookies w;
     user_sessions := user_sessions w; session_state := session_state w;
     spawned := spawned w |}.

Definition with_users (d : CassDB) (rows : list models.User) : CassDB :=
  {| tbl_users := rows; tbl_sessions := tbl_sessions d;
     tbl_verification_requests := tbl_verification_requests d;
     faults := faults d |}.

Definition with_sessions (d : CassDB) (rows : list models.Session) : CassDB :=
  {| tbl_users := tbl_users d; tbl_sessions := rows;
     tbl_verification_requests := tbl_verification_requests d;
     faults := faults d |}.

Definition with_verification_requests (d : CassDB)
    (rows : list models.VerificationRequest) : CassDB :=
  {| tbl_users := tbl_users d; tbl_sessions := tbl_sessions d;
     tbl_verification_requests := rows; faults := faults d |}.

Definition with_faults (d : CassDB) (fs : list (option error)) : CassDB :=
  {| tbl_users := tbl_users d; tbl_sessions := tbl_sessions d;
     tbl_verification_requests := tbl_verification_requests d;
     faults := fs |}.

(** State passing, with its notation. *)
Definition M (A : Type) : Type := World -> A * World.

Definition ret {A} (a : A) : M A := fun w => (a, w).

Definition bind {A B} (m : M A) (k : A -> M B) : M B :=
  fun w => let (a, w') := m w in k a w'.

Notation "'let*' x ':=' m 'in' k" := (bind m (fun x => k))
  (at level 10, x name, m at level 100, k at level 200).

Notation "m ';;' k" := (bind m (fun _ => k))
  (at level 100, k at level 200, right associativity).

Definition modify_db (f : CassDB -> CassDB) : M unit :=
  fun w => (tt, with_db w (f (db w))).

Definition get_db : M CassDB := fun w => (db w, w).

(** One call of the driver ([Exec], [Scan], opening an iterator, scanning a
    row): it takes the next outcome. *)
Definition db_call : M (option error) :=
  fun w =>
    match faults (db w) with
    | [] => (None, w)
    | f :: fs => (f, with_db w (with_faults (db w) fs))
    end.

(** One read of the clock and one draw of randomness: the count is what
    the oracle of the run is asked with. *)
Definition tick : M nat :=
  fun w => (ticks w,
    {| db := db w; ticks := S (ticks w); draws := draws w;
       cookies := cookies w; user_sessions := user_sessions w;
       session_state := session_state w; spawned := spawned w |}).

Definition draw : M nat :=
  fun w => (draws w,
    {| db := db w; ticks := ticks w; draws := S (draws w);
       cookies := cookies w; user_sessions := user_sessions w;
       session_state := session_state w; spawned := spawned w |}).

(** [go func() { ... }()]. *)
Definition go (body : list Action) : M unit :=
  fun w => (tt,
    {| db := db w; ticks := ticks w; draws := draws w;
       cookies := cookies w; user_sessions := user_sessions w;
       session_state := session_state w; spawned := spawned w ++ [body] |}).

(** [cookie.SetSession(gc, sessionID)]. *)
Definition cookie_SetSession (sessionID : string) : M unit :=
  fun w => (tt,
    {| db := db w; ticks := ticks w; draws := draws w;
       cookies := cookies w ++ [sessionID];
       user_sessions := user_sessions w;
       session_state := session_state w; spawned := spawned w |}).

(** [memorystore.Provider.SetUserSession(userId, key, token)]: the entry
    [key] of the user's sessions. *)
Definition SetUserSession (userId key tok : string) : M unit :=
  fun w => (tt,
    {| db := db w; ticks := ticks w; draws := draws w;
       cookies := cookies w;
       user_sessions :=
         <[userId := <[key := tok]> (default ∅ (user_sessions w !! userId))]>
           (user_sessions w);
       session_state := session_state w; spawned := spawned w |}).

(** [sessionstore.SetState(key, value)]. *)
Definition sessionstore_SetState (key v : string) : M unit :=
  fun w => (tt,
    {| db := db w; ticks := ticks w; draws := draws w;
       cookies := cookies w; user_sessions := user_sessions w;
       session_state := <[key := v]> (session_state w);
       spawned := spawned w |}).

(** ** Time *)

Module time.
  (** An instant is a count of nanoseconds since the epoch. *)
Definition Second : Z := 1000000000.
Definition Minute : Z := 60 * Second.
Definition Add (t d : Z) : Z := t + d.
Definition Unix (t : Z) : Z := t / Second.
End time.

(** ** The tokens of package [token] *)

(** Modelled from the spec: the structs [token.JWTToken] and [token.Token]
    (section 4.3: an access token with its expiry, an optional refresh
    token, a session fingerprint and its hash), with the fields the
    resolver reads. *)
Record JWTToken := {
  JT_Token : string;
  JT_ExpiresAt : Z;
}.

(** [authToken.AccessToken] is dereferenced without a test, so it is a
    token; [authToken.RefreshToken] is tested against [nil]. *)
Record Token := {
  FingerPrint : string;
  FingerPrintHash : string;
  RefreshToken : option JWTToken;
  AccessToken : JWTToken;
}.

(** ** What the code calls and the embedded files do not define

    The case tables of package [unicode], the constants of package
    [constants], the request context, the flag stores, the validators, the
    password hash, the nonce and token makers, the UUID source, the clock,
    and the order of a table scan.  Each is a function of its arguments;
    those that draw randomness or read the clock also take the number of the
    draw or of the read. *)
Class Collaborators := {
  Collaborators_Unicode :: Unicode;
  KeySpace : string;
  EnvKeyDisableSignUp : string;
  EnvKeyDisableBasicAuthentication : string;
  EnvKeyRoles : string;
  EnvKeyDefaultRoles : string;
  EnvKeyDisableEmailVerification : string;
  AuthRecipeMethodBasicAuth : string;
  SignupMethodBasicAuth : string;
  VerificationTypeBasicAuthSignup : string;
  TokenTypeSessionToken : string;
  TokenTypeAccessToken : string;
  TokenTypeRefreshToken : string;
  UserCreatedWebhookEvent : string;
  UserSignUpWebhookEvent : string;
  (* the request *)
  context_Context : Type;
  GinContext : Type;
  GinContextFromContext : context_Context -> GinContext * option error;
  GetHost : GinContext -> string;
  GetAppURL : GinContext -> string;
  GetUserAgent : GinContext -> string;
  GetIP : GinContext -> string;
  (* memorystore.Provider *)
  GetBoolStoreEnvVariable : string -> bool * option error;
  GetStringStoreEnvVariable : string -> string * option error;
  (* envstore.EnvStoreObj, of the older resolver *)
  envstore_GetBoolStoreEnvVariable : string -> bool;
  envstore_GetSliceStoreEnvVariable : string -> list string;
  (* validators, and their older forms in utils *)
  IsValidPassword : string -> option error;
  IsValidEmail : string -> bool;
  IsValidRoles : list string -> list string -> bool;
  utils_IsValidPassword : string -> bool;
  utils_IsValidRoles : list string -> list string -> bool;
  (* crypto, utils, token *)
  EncryptPassword : string -> string * option error;
  GenerateNonce : nat -> (string * string) * option error;
  CreateVerificationToken :
    string -> string -> string -> string -> string -> string * option error;
  CreateAuthToken :
    GinContext -> models.User -> list string -> list string -> string ->
    nat -> Token * option error;
  utils_CreateAuthToken :
    GinContext -> models.User -> list string -> list string ->
    nat -> Token * option error;
  uuid_New : nat -> string;
  clock : nat -> Z;
  (* the node: the order in which a scan of the users table returns its
     rows, which is that of the tokens of their keys *)
  scan_order : list models.User -> list models.User;
  scan_order_rows : forall rows, Permutation (scan_order rows) rows;
}.

(** [time.Now()]. *)
Definition time_Now `{Collaborators} : M Z :=
  let* n := tick in ret (clock n).

(** [gocql.ErrNotFound], returned by [Scan] when no row matches. *)
Definition ErrNotFound : error := "not found".

(** ** [cassandradb]: the user operations of the provider *)

(** What [Scan] leaves in [user] for a row: the seventeen columns of the
    SELECT list.  The list has no [gender] and no [_key], so these two
    fields keep the zero value of [var user models.User]. *)
Definition scanned (row : models.User) : models.User := {|
  models.Key := "";
  models.ID := models.ID row;
  models.Email := models.Email row;
  models.EmailVerifiedAt := models.EmailVerifiedAt row;
  models.Password := models.Password row;
  models.SignupMethods := models.SignupMethods row;
  models.GivenName := models.GivenName row;
  models.FamilyName := models.FamilyName row;
  models.MiddleName := models.MiddleName row;
  models.Nickname := models.Nickname row;
  models.Gender := None;
  models.Birthdate := models.Birthdate row;
  models.PhoneNumber := models.PhoneNumber row;
  models.PhoneNumberVerifiedAt := models.PhoneNumberVerifiedAt row;
  models.Picture := models.Picture row;
  models.Roles := models.Roles row;
  models.RevokedTimestamp := models.RevokedTimestamp row;
  models.CreatedAt := models.CreatedAt row;
  models.UpdatedAt := models.UpdatedAt row;
|}.

Section Provider.

Context `{Collaborators}.

Definition same_id (id : string) (u : models.User) : bool :=
  String.eqb (models.ID u) id.

(** [INSERT ... IF NOT EXISTS]: a row whose key is taken is left alone,
    and the statement still succeeds. *)
Definition insert_if_not_exists (u : models.User) (rows : list models.User)
  : list models.User :=
  if existsb (same_id (models.ID u)) rows then rows else rows ++ [u].

(** AddUser to save user information in database *)
Definition AddUser (user : models.User) : M (models.User * option error) :=
  let* user :=
    (if String.eqb (models.ID user) ""
     then let* n := draw in ret (models.set_ID user (uuid_New n))
     else ret user) in
  let continue (user : models.User) : M (models.User * option error) :=
    let* now1 := time_Now in
    let user := models.set_CreatedAt user (time.Unix now1) in
    let* now2 := time_Now in
    let user := models.set_UpdatedAt user (time.Unix now2) in
    (* the statement is [AddUser_query KeySpace visit] for a visit
       of [userMap user]; it spells the values of [user] when they hold
       no single quote, and the row stored is then [user] *)
    let* err := db_call in
    match err with
    | Some e => ret (user, Some e)
    | None =>
        modify_db (fun d => with_users d (insert_if_not_exists user (tbl_users d)));;
        ret (user, None)
    end in
  if String.eqb (models.Roles user) "" then
    match GetStringStoreEnvVariable EnvKeyDefaultRoles with
    | (_, Some e) => ret (user, Some e)
    | (defaultRoles, None) => continue (models.set_Roles user defaultRoles)
    end
  else continue user.

(** The row an UPDATE leaves where [stored] was: every column as in [u]
    but [_key], which the statement does not name. *)
Definition updated (stored u : models.User) : models.User := {|
  models.Key := models.Key stored;
  models.ID := models.ID u;
  models.Email := models.Email u;
  models.EmailVerifiedAt := models.EmailVerifiedAt u;
  models.Password := models.Password u;
  models.SignupMethods := models.SignupMethods u;
  models.GivenName := models.GivenName u;
  models.FamilyName := models.FamilyName u;
  models.MiddleName := models.MiddleName u;
  models.Nickname := models.Nickname u;
  models.Gender := models.Gender u;
  models.Birthdate := models.Birthdate u;
  models.PhoneNumber := models.PhoneNumber u;
  models.PhoneNumberVerifiedAt := models.PhoneNumberVerifiedAt u;
  models.Picture := models.Picture u;
  models.Roles := models.Roles u;
  models.RevokedTimestamp := models.RevokedTimestamp u;
  models.CreatedAt := models.CreatedAt u;
  models.UpdatedAt := models.UpdatedAt u;
|}.

(** [UPDATE ... SET ... WHERE id = ...] writes every column it names of
    the row with that key, and makes the row when there is none. *)
Definition upsert (u : models.User) (rows : list models.User)
  : list models.User :=
  if existsb (same_id (models.ID u)) rows
  then map (fun r => if same_id (models.ID u) r then updated r u else r) rows
  else rows ++ [updated models.zero_User u].

(** UpdateUser to update user information in database *)
Definition UpdateUser (user : models.User) : M (models.User * option error) :=
  let* now := time_Now in
  let user := models.set_UpdatedAt user (time.Unix now) in
  (* the statement is [UpdateUser_query KeySpace (ID user) visit] for a
     visit of [userMap user]; it spells the values of [user] when they
     hold no single quote, and the columns written are then those of
     [user] *)
  let* err := db_call in
  match err with
  | Some e => ret (user, Some e)
  | None =>
      modify_db (fun d => with_users d (upsert user (tbl_users d)));;
      ret (user, None)
  end.

(** The loop over [scanner.Next()] in [DeleteUser]: each row is scanned,
    which may fail, and its id is added to the text and to the list. *)
Fixpoint scan_session_ids (rows : list models.Session)
    (sessionIDs : string) (ids : list string)
  : M ((string * list string) * option error) :=
  match rows with
  | [] => ret ((sessionIDs, ids), None)
  | r :: rows' =>
      let* err := db_call in
      match err with
      | Some e => ret ((sessionIDs, ids), Some e)
      | None =>
          let wlID := models.S_ID r in
          scan_session_ids rows' (sessionIDs +:+ "'" +:+ wlID +:+ "',")
            (ids ++ [wlID])
      end
  end.

Definition session_of (userID : string) (s : models.Session) : bool :=
  String.eqb (models.S_UserID s) userID.

Definition id_in (ids : list string) (s : models.Session) : bool :=
  existsb (String.eqb (models.S_ID s)) ids.

(** DeleteUser to delete user information from database *)
Definition DeleteUser (user : models.User) : M (option error) :=
  let* err := db_call in
  match err with
  | Some e => ret (Some e)
  | None =>
      modify_db (fun d =>
        with_users d (List.filter (fun u => negb (same_id (models.ID user) u)) (tbl_users d)));;
      (* [Iter()]: a query that fails yields an iterator without rows,
         and [scanner.Next()] is false at once; the order in which the
         sessions are scanned shows in the order of the IDs in the text
         and in nothing else, and is taken to be that of writing *)
      let* iterErr := db_call in
      let* d := get_db in
      let rows :=
        match iterErr with
        | Some _ => []
        | None => List.filter (session_of (models.ID user)) (tbl_sessions d)
        end in
      let* scanned := scan_session_ids rows "" [] in
      match scanned with
      | (_, Some e) => ret (Some e)
      | ((sessionIDs, ids), None) =>
          let* err := db_call in
          match err with
          | Some e => ret (Some e)
          | None =>
              modify_db (fun d =>
                with_sessions d (List.filter (fun s => negb (id_in ids s)) (tbl_sessions d)));;
              ret None
          end
      end
  end.

(** The loop over [scanner.Next()] in [ListUsers]: from [offset] on, each
    row is scanned into a fresh [var user models.User] and projected. *)
Fixpoint scan_users (rows : list models.User) (offset counter : Z)
    (responseUsers : list model.User)
  : M (list model.User * option error) :=
  match rows with
  | [] => ret (responseUsers, None)
  | r :: rows' =>
      if counter >=? offset then
        let* err := db_call in
        match err with
        | Some e => ret (responseUsers, Some e)
        | None =>
            scan_users rows' offset (int64_add counter 1)
              (responseUsers ++ [AsAPIUser (scanned r)])
        end
      else scan_users rows' offset (int64_add counter 1) responseUsers
  end.

(** ListUsers to get list of users from database *)
Definition ListUsers (pagination : model.Pagination)
  : M (option model.Users * option error) :=
  let paginationClone := pagination in
  let* err := db_call in
  match err with
  | Some e => ret (None, Some e)
  | None =>
      let* d := get_db in
      let paginationClone :=
        model.set_Total paginationClone (Z.of_nat (length (tbl_users d))) in
      (* there is no offset in cassandra: fetch till limit + offset *)
      let limit := int64_add (model.Limit pagination) (model.Offset pagination) in
      let* iterErr := db_call in
      let rows :=
        match iterErr with
        | Some _ => []
        | None => firstn (Z.to_nat limit) (scan_order (tbl_users d))
        end in
      let* scanned := scan_users rows (model.Offset pagination) 0 [] in
      match scanned with
      | (_, Some e) => ret (None, Some e)
      | (responseUsers, None) =>
          ret (Some {| model.Us_Users := responseUsers;
                       model.Us_Pagination := paginationClone |}, None)
      end
  end.

(** GetUserByEmail to get user information from database using email
    address *)
Definition GetUserByEmail (email : string) : M (models.User * option error) :=
  let user := models.zero_User in
  let* err := db_call in
  match err with
  | Some e => ret (user, Some e)
  | None =>
      let* d := get_db in
      match find (fun u => String.eqb (models.Email u) email)
              (scan_order (tbl_users d)) with
      | Some row => ret (scanned row, None)
      | None => ret (user, Some ErrNotFound)
      end
  end.

Definition same_request (email identifier : string)
    (r : models.VerificationRequest) : bool :=
  String.eqb (models.VR_Email r) email
  && String.eqb (models.VR_Identifier r) identifier.

(** Modelled from the spec: [AddVerificationRequest], which the provider
    defines in a file that is not embedded here.  Sections 3 and 4.2: the row is
    persisted, superseding any prior request of the same (email, type). *)
Definition AddVerificationRequest (vr : models.VerificationRequest)
  : M (models.VerificationRequest * option error) :=
  let* err := db_call in
  match err with
  | Some e => ret (vr, Some e)
  | None =>
      modify_db (fun d =>
        with_verification_requests d
          (List.filter (fun r => negb (same_request (models.VR_Email vr) (models.VR_Identifier vr) r))
             (tbl_verification_requests d) ++ [vr]));;
      ret (vr, None)
  end.

End Provider.

(** ** [resolvers.SignupResolver] *)

Definition is_nil {A} (o : option A) : bool :=
  match o with Some _ => false | None => true end.

Definition ErrSignupDisabled : error := "signup is disabled for this instance".

Definition ErrBasicAuthDisabled : error :=
  "basic authentication is disabled for this instance".

Definition ErrPasswordMismatch : error :=
  "password and confirm password does not match".

Definition ErrInvalidEmail : error := "invalid email address".

Definition ErrInvalidRoles : error := "invalid roles".

(** [fmt.Errorf(`%s has already signed up`, params.Email)] *)
Definition ErrAlreadySignedUp (email : string) : error :=
  email +:+ " has already signed up".

Definition ErrVerificationPending (email : string) : error :=
  email +:+ " has already signed up. please complete the email verification process or reset the password".

Definition MsgVerificationSent : string :=
  "Verification email has been sent. Please check your inbox".

Definition MsgSignedUp : string := "Signed up successfully.".

Definition default_scope : list string := ["openid"; "email"; "profile"].

(** The user the resolver assembles before [AddUser].  The code starts from
    [models.User{Email: params.Email}] and assigns the fields one by one;
    each [if params.X != nil { user.X = params.X }] leaves [nil] where the
    parameter is [nil], so the field is the parameter. *)
Definition new_user (params : model.SignUpInput) (roles password signupMethods : string)
    (emailVerifiedAt : option Z) : models.User := {|
  models.Key := "";
  models.ID := "";
  models.Email := model.SI_Email params;
  models.EmailVerifiedAt := emailVerifiedAt;
  models.Password := Some password;
  models.SignupMethods := signupMethods;
  models.GivenName := model.SI_GivenName params;
  models.FamilyName := model.SI_FamilyName params;
  models.MiddleName := model.SI_MiddleName params;
  models.Nickname := model.SI_Nickname params;
  models.Gender := model.SI_Gender params;
  models.Birthdate := model.SI_Birthdate params;
  models.PhoneNumber := model.SI_PhoneNumber params;
  models.PhoneNumberVerifiedAt := None;
  models.Picture := model.SI_Picture params;
  models.Roles := roles;
  models.RevokedTimestamp := None;
  models.CreatedAt := 0;
  models.UpdatedAt := 0;
|}.

(** [expiresIn := authToken.AccessToken.ExpiresAt - time.Now().Unix()],
    then [if expiresIn <= 0 { expiresIn = 1 }]. *)
Definition expires_in (expiresAt now : Z) : Z :=
  let expiresIn := int64_sub expiresAt now in
  if (expiresIn <=? 0)%Z then 1 else expiresIn.

Definition Result : Type := option model.AuthResponse * option error.

Section Resolver.

Context `{Collaborators}.

(** The flag reads of the resolver: a failed read counts as [true]. *)
Definition flag_or_true (key : string) : bool :=
  match GetBoolStoreEnvVariable key with
  | (_, Some _) => true
  | (b, None) => b
  end.

(** The branch taken when the email has to be verified. *)
Definition verification_branch (gc : GinContext) (params : model.SignUpInput)
    (user : models.User) (userToReturn : model.User) (hostname : string)
    (res : option model.AuthResponse) : M Result :=
  let* n := draw in
  match GenerateNonce n with
  | (_, Some err) => ret (res, Some err)
  | ((_, nonceHash), None) =>
      let verificationType := VerificationTypeBasicAuthSignup in
      let redirectURL :=
        match model.SI_RedirectURI params with
        | Some uri => uri
        | None => GetAppURL gc
        end in
      match CreateVerificationToken (model.SI_Email params) verificationType
              hostname nonceHash redirectURL with
      | (_, Some err) => ret (res, Some err)
      | (verificationToken, None) =>
          let* now := time_Now in
          let* added := AddVerificationRequest {|
            models.VR_Token := verificationToken;
            models.VR_Identifier := verificationType;
            models.VR_ExpiresAt := time.Unix (time.Add now (time.Minute * 30));
            models.VR_Email := model.SI_Email params;
            models.VR_Nonce := nonceHash;
            models.VR_RedirectURI := redirectURL |} in
          match snd added with
          | Some err => ret (res, Some err)
          | None =>
              go [ SendVerificationMail (model.SI_Email params) verificationToken hostname;
                   RegisterEvent UserCreatedWebhookEvent AuthRecipeMethodBasicAuth user ];;
              ret (Some {| model.Message := MsgVerificationSent;
                           model.AccessToken := None;
                           model.RefreshToken := None;
                           model.ExpiresIn := None;
                           model.AR_User := Some userToReturn |}, None)
          end
      end
  end.

(** The branch taken when the user is logged in at once. *)
Definition login_branch (gc : GinContext) (params : model.SignUpInput)
    (user : models.User) (roles : list string) (userToReturn : model.User)
    (res : option model.AuthResponse) : M Result :=
  let scope := default_scope in
  let scope :=
    match model.SI_Scope params with
    | Some s => if (0 <? length scope)%nat then s else scope
    | None => scope
    end in
  let* n := draw in
  match CreateAuthToken gc user roles scope AuthRecipeMethodBasicAuth n with
  | (_, Some err) => ret (res, Some err)
  | (authToken, None) =>
      let* now := time_Now in
      let expiresIn := expires_in (JT_ExpiresAt (AccessToken authToken)) (time.Unix now) in
      let sessionKey := AuthRecipeMethodBasicAuth +:+ ":" +:+ models.ID user in
      cookie_SetSession (FingerPrintHash authToken);;
      SetUserSession sessionKey
        (TokenTypeSessionToken +:+ "_" +:+ FingerPrint authToken)
        (FingerPrintHash authToken);;
      SetUserSession sessionKey
        (TokenTypeAccessToken +:+ "_" +:+ FingerPrint authToken)
        (JT_Token (AccessToken authToken));;
      let* refresh :=
        match RefreshToken authToken with
        | Some rt =>
            SetUserSession sessionKey
              (TokenTypeRefreshToken +:+ "_" +:+ FingerPrint authToken)
              (JT_Token rt);;
            ret (Some (JT_Token rt))
        | None => ret None
        end in
      go [ RegisterEvent UserSignUpWebhookEvent AuthRecipeMethodBasicAuth user;
           AddSession {| models.S_ID := "";
                         models.S_UserID := models.ID user;
                         models.S_UserAgent := GetUserAgent gc;
                         models.S_IP := GetIP gc |} ];;
      ret (Some {| model.Message := MsgSignedUp;
                   model.AccessToken := Some (JT_Token (AccessToken authToken));
                   model.RefreshToken := refresh;
                   model.ExpiresIn := Some expiresIn;
                   model.AR_User := Some userToReturn |}, None)
  end.

(** From the resolved roles on: assemble the user, store it, branch. *)
Definition persist_and_branch (gc : GinContext) (params : model.SignUpInput)
    (inputRoles : list string) (res : option model.AuthResponse) : M Result :=
  let password := fst (EncryptPassword (model.SI_Password params)) in
  let isEmailVerificationDisabled := flag_or_true EnvKeyDisableEmailVerification in
  let* emailVerifiedAt :=
    (if isEmailVerificationDisabled
     then let* now := time_Now in ret (Some (time.Unix now))
     else ret None) in
  let user :=
    new_user params (strings.Join inputRoles ",") password
      AuthRecipeMethodBasicAuth emailVerifiedAt in
  let* added := AddUser user in
  match added with
  | (_, Some err) => ret (res, Some err)
  | (user, None) =>
      let roles := strings.Split (models.Roles user) "," in
      let userToReturn := AsAPIUser user in
      let hostname := GetHost gc in
      if negb isEmailVerificationDisabled
      then verification_branch gc params user userToReturn hostname res
      else login_branch gc params user roles userToReturn res
  end.

(** SignupResolver is a resolver for signup mutation *)
Definition SignupResolver (ctx : context_Context) (params : model.SignUpInput)
  : M Result :=
  let res : option model.AuthResponse := None in
  match GinContextFromContext ctx with
  | (_, Some err) => ret (res, Some err)
  | (gc, None) =>
  if flag_or_true EnvKeyDisableSignUp then ret (res, Some ErrSignupDisabled) else
  if flag_or_true EnvKeyDisableBasicAuthentication
  then ret (res, Some ErrBasicAuthDisabled) else
  if negb (String.eqb (model.SI_ConfirmPassword params) (model.SI_Password params))
  then ret (res, Some ErrPasswordMismatch) else
  match IsValidPassword (model.SI_Password params) with
  | Some err => ret (res, Some err)
  | None =>
  let params := model.set_Email params (strings.ToLower (model.SI_Email params)) in
  if negb (IsValidEmail (model.SI_Email params))
  then ret (res, Some ErrInvalidEmail) else
  (* find user with email; a failed lookup is only logged *)
  let* found := GetUserByEmail (model.SI_Email params) in
  let existingUser := fst found in
  if negb (is_nil (models.EmailVerifiedAt existingUser))
  then ret (res, Some (ErrAlreadySignedUp (model.SI_Email params)))
  else if negb (String.eqb (models.ID existingUser) "")
          && is_nil (models.EmailVerifiedAt existingUser)
  then ret (res, Some (ErrVerificationPending (model.SI_Email params)))
  else
  if (0 <? length (model.SI_Roles params))%nat then
    (* check if roles exists *)
    match GetStringStoreEnvVariable EnvKeyRoles with
    | (_, Some err) => ret (res, Some err)
    | (rolesString, None) =>
        let roles := strings.Split rolesString "," in
        if negb (IsValidRoles (model.SI_Roles params) roles)
        then ret (res, Some ErrInvalidRoles)
        else persist_and_branch gc params (model.SI_Roles params) res
    end
  else
    match GetStringStoreEnvVariable EnvKeyDefaultRoles with
    | (_, Some err) => ret (res, Some err)
    | (inputRolesString, None) =>
        persist_and_branch gc params (strings.Split inputRolesString ",") res
    end
  end
  end.

End Resolver.

(** ** The older [resolvers.SignupResolver], reading its flags from
    [envstore] *)

Module Older.

Definition ErrInvalidPassword : error :=
  "password is not valid. It needs to be at least 6 characters long and contain at least one number, one uppercase letter, one lowercase letter and one special character".

Section Resolver.

Context `{Collaborators}.

Definition verification_branch (gc : GinContext) (params : model.SignUpInput)
    (userToReturn : model.User) (hostname : string)
    (res : option model.AuthResponse) : M Result :=
  let* n := draw in
  match GenerateNonce n with
  | (_, Some err) => ret (res, Some err)
  | ((_, nonceHash), None) =>
      let verificationType := VerificationTypeBasicAuthSignup in
      let redirectURL :=
        match model.SI_RedirectURI params with
        | Some uri => uri
        | None => GetAppURL gc
        end in
      match CreateVerificationToken (model.SI_Email params) verificationType
              hostname nonceHash redirectURL with
      | (_, Some err) => ret (res, Some err)
      | (verificationToken, None) =>
          let* now := time_Now in
          let* added := AddVerificationRequest {|
            models.VR_Token := verificationToken;
            models.VR_Identifier := verificationType;
            models.VR_ExpiresAt := time.Unix (time.Add now (time.Minute * 30));
            models.VR_Email := model.SI_Email params;
            models.VR_Nonce := nonceHash;
            models.VR_RedirectURI := redirectURL |} in
          match snd added with
          | Some err => ret (res, Some err)
          | None =>
              go [ SendVerificationMail (model.SI_Email params) verificationToken hostname ];;
              ret (Some {| model.Message := MsgVerificationSent;
                           model.AccessToken := None;
                           model.RefreshToken := None;
                           model.ExpiresIn := None;
                           model.AR_User := Some userToReturn |}, None)
          end
      end
  end.

Definition login_branch (gc : GinContext) (params : model.SignUpInput)
    (user : models.User) (roles : list string) (userToReturn : model.User)
    (res : option model.AuthResponse) : M Result :=
  let scope := default_scope in
  let scope :=
    match model.SI_Scope params with
    | Some s => if (0 <? length scope)%nat then s else scope
    | None => scope
    end in
  let* n := draw in
  match utils_CreateAuthToken gc user roles scope n with
  | (_, Some err) => ret (res, Some err)
  | (authToken, None) =>
      sessionstore_SetState (FingerPrintHash authToken)
        (FingerPrint authToken +:+ "@" +:+ models.ID user);;
      cookie_SetSession (FingerPrintHash authToken);;
      go [ AddSession {| models.S_ID := "";
                         models.S_UserID := models.ID user;
                         models.S_UserAgent := GetUserAgent gc;
                         models.S_IP := GetIP gc |} ];;
      let* now := time_Now in
      let expiresIn := expires_in (JT_ExpiresAt (AccessToken authToken)) (time.Unix now) in
      ret (Some {| model.Message := MsgSignedUp;
                   model.AccessToken := Some (JT_Token (AccessToken authToken));
                   model.RefreshToken := None;
                   model.ExpiresIn := Some expiresIn;
                   model.AR_User := Some userToReturn |}, None)
  end.

Definition persist_and_branch (gc : GinContext) (params : model.SignUpInput)
    (inputRoles : list string) (res : option model.AuthResponse) : M Result :=
  let password := fst (EncryptPassword (model.SI_Password params)) in
  let* emailVerifiedAt :=
    (if envstore_GetBoolStoreEnvVariable EnvKeyDisableEmailVerification
     then let* now := time_Now in ret (Some (time.Unix now))
     else ret None) in
  let user :=
    new_user params (strings.Join inputRoles ",") password
      SignupMethodBasicAuth emailVerifiedAt in
  let* added := AddUser user in
  match added with
  | (_, Some err) => ret (res, Some err)
  | (user, None) =>
      let roles := strings.Split (models.Roles user) "," in
      let userToReturn := AsAPIUser user in
      let hostname := GetHost gc in
      if negb (envstore_GetBoolStoreEnvVariable EnvKeyDisableEmailVerification)
      then verification_branch gc params userToReturn hostname res
      else login_branch gc params user roles userToReturn res
  end.

(** SignupResolver is a resolver for signup mutation *)
Definition SignupResolver (ctx : context_Context) (params : model.SignUpInput)
  : M Result :=
  let res : option model.AuthResponse := None in
  match GinContextFromContext ctx with
  | (_, Some err) => ret (res, Some err)
  | (gc, None) =>
  if envstore_GetBoolStoreEnvVariable EnvKeyDisableSignUp
  then ret (res, Some ErrSignupDisabled) else
  if envstore_GetBoolStoreEnvVariable EnvKeyDisableBasicAuthentication
  then ret (res, Some ErrBasicAuthDisabled) else
  if negb (String.eqb (model.SI_ConfirmPassword params) (model.SI_Password params))
  then ret (res, Some ErrPasswordMismatch) else
  if negb (utils_IsValidPassword (model.SI_Password params))
  then ret (res, Some ErrInvalidPassword) else
  let params := model.set_Email params (strings.ToLower (model.SI_Email params)) in
  if negb (IsValidEmail (model.SI_Email params))
  then ret (res, Some ErrInvalidEmail) else
  let* found := GetUserByEmail (model.SI_Email params) in
  let existingUser := fst found in
  if negb (is_nil (models.EmailVerifiedAt existingUser))
  then ret (res, Some (ErrAlreadySignedUp (model.SI_Email params)))
  else if negb (String.eqb (models.ID existingUser) "")
          && is_nil (models.EmailVerifiedAt existingUser)
  then ret (res, Some (ErrVerificationPending (model.SI_Email params)))
  else
  if (0 <? length (model.SI_Roles params))%nat then
    if negb (utils_IsValidRoles (envstore_GetSliceStoreEnvVariable EnvKeyRoles)
               (model.SI_Roles params))
    then ret (res, Some ErrInvalidRoles)
    else persist_and_branch gc params (model.SI_Roles params) res
  else
    persist_and_branch gc params
      (envstore_GetSliceStoreEnvVariable EnvKeyDefaultRoles) res
  end.

End Resolver.

End Older.

(** ** A run to try the definitions on

    A request context that is present, every flag read succeeding with
    [false] except where a test says otherwise, validators in the spirit of
    the messages the resolver prints, and makers of tokens that return fixed
    texts. *)

Module Demo.

Definition has (p : ascii -> bool) (s : string) : bool :=
  existsb p (list_ascii_of_string s).

Definition is_digit (c : ascii) : bool :=
  (48 <=? nat_of_ascii c)%nat && (nat_of_ascii c <=? 57)%nat.

Definition is_lower (c : ascii) : bool :=
  (97 <=? nat_of_ascii c)%nat && (nat_of_ascii c <=? 122)%nat.

Definition is_special (c : ascii) : bool :=
  negb (is_digit c || is_lower c || strings.is_upper c).

(** At least 6 characters, a number, an upper-case letter, a lower-case
    letter and a special character. *)
Definition valid_password (s : string) : bool :=
  (6 <=? String.length s)%nat && has is_digit s && has strings.is_upper s
  && has is_lower s && has is_special s.

(** One [@], with something on both sides. *)
Definition valid_email (s : string) : bool :=
  match strings.Split s "@" with
  | [l; d] => negb (String.eqb l "") && negb (String.eqb d "")
  | _ => false
  end.

Definition subset_of (requested allowed : list string) : bool :=
  forallb (fun r => existsb (String.eqb r) allowed) requested.

(** Enough of [unicode.ToLower] to run the examples: the ASCII letters and
    the capital letters of Latin-1 (U+00C0 to U+00DE but U+00D7), whose
    UTF-8 bytes are C3 80 to C3 9E. *)
Fixpoint fold_latin1 (after_C3 : bool) (s : string) : string :=
  match s with
  | EmptyString => EmptyString
  | String c s' =>
      let n := nat_of_ascii c in
      if after_C3 && (128 <=? n)%nat && (n <=? 158)%nat && negb (n =? 151)%nat
      then String (ascii_of_nat (n + 32)) (fold_latin1 false s')
      else String (strings.lower_char c) (fold_latin1 (n =? 195)%nat s')
  end.

Definition latin1 : Unicode := {| Map_unicode_ToLower := fold_latin1 false |}.

Definition token_at (expiresAt : Z) : Token := {|
  FingerPrint := "fp";
  FingerPrintHash := "fp-hash";
  RefreshToken := None;
  AccessToken := {| JT_Token := "access.jwt"; JT_ExpiresAt := expiresAt |};
|}.

(** The run: [verification_disabled] is the email-verification flag,
    [flags_fail] makes every read of a boolean flag fail, [hash_fails]
    makes the password hash return an error with an empty digest, and the
    access token expires at [expiresAt]. *)
Definition run (verification_disabled flags_fail hash_fails : bool)
    (expiresAt : Z) : Collaborators := {|
  Collaborators_Unicode := latin1;
  KeySpace := "authorizer";
  EnvKeyDisableSignUp := "DISABLE_SIGN_UP";
  EnvKeyDisableBasicAuthentication := "DISABLE_BASIC_AUTHENTICATION";
  EnvKeyRoles := "ROLES";
  EnvKeyDefaultRoles := "DEFAULT_ROLES";
  EnvKeyDisableEmailVerification := "DISABLE_EMAIL_VERIFICATION";
  AuthRecipeMethodBasicAuth := "basic_auth";
  SignupMethodBasicAuth := "basic_auth";
  VerificationTypeBasicAuthSignup := "basic_auth_signup";
  TokenTypeSessionToken := "session_token";
  TokenTypeAccessToken := "access_token";
  TokenTypeRefreshToken := "refresh_token";
  UserCreatedWebhookEvent := "user.created";
  UserSignUpWebhookEvent := "user.signup";
  context_Context := unit;
  GinContext := unit;
  GinContextFromContext := fun _ => (tt, None);
  GetHost := fun _ => "https://auth.example";
  GetAppURL := fun _ => "https://auth.example/app";
  GetUserAgent := fun _ => "agent";
  GetIP := fun _ => "127.0.0.1";
  GetBoolStoreEnvVariable := fun key =>
    if flags_fail then (false, Some "store unreachable")
    else if String.eqb key "DISABLE_EMAIL_VERIFICATION"
         then (verification_disabled, None)
         else (false, None);
  GetStringStoreEnvVariable := fun key =>
    if String.eqb key "DEFAULT_ROLES" then ("user", None)
    else if String.eqb key "ROLES" then ("user,admin", None)
    else ("", Some "no such key");
  envstore_GetBoolStoreEnvVariable := fun key =>
    String.eqb key "DISABLE_EMAIL_VERIFICATION" && verification_disabled;
  envstore_GetSliceStoreEnvVariable := fun key =>
    if String.eqb key "DEFAULT_ROLES" then ["user"]
    else if String.eqb key "ROLES" then ["user"; "admin"]
    else [];
  IsValidPassword := fun s =>
    if valid_password s then None else Some Older.ErrInvalidPassword;
  IsValidEmail := valid_email;
  IsValidRoles := subset_of;
  utils_IsValidPassword := valid_password;
  utils_IsValidRoles := fun allowed requested => subset_of requested allowed;
  EncryptPassword := fun s =>
    if hash_fails then ("", Some "hash failed") else ("hash:" +:+ s, None);
  GenerateNonce := fun n => (("nonce", "nonce-hash"), None);
  CreateVerificationToken := fun email typ host nonce redirect =>
    ("verify.jwt", None);
  CreateAuthToken := fun _ _ _ _ _ _ => (token_at expiresAt, None);
  utils_CreateAuthToken := fun _ _ _ _ _ => (token_at expiresAt, None);
  uuid_New := fun n => "uuid-" +:+ format_int64 (Z.of_nat n);
  clock := fun n => 1700000000 * time.Second + Z.of_nat n;
  scan_order := fun rows => rows;
  scan_order_rows := fun rows => Permutation_refl rows;
|}.

Definition empty_db : CassDB := {|
  tbl_users := []; tbl_sessions := [];
  tbl_verification_requests := []; faults := [];
|}.

Definition world_of (d : CassDB) : World := {|
  db := d; ticks := 0; draws := 0; cookies := [];
  user_sessions := ∅; session_state := ∅; spawned := [];
|}.

Definition scenario_input : model.SignUpInput := {|
  model.SI_Email := "A@B.com";
  model.SI_GivenName := None; model.SI_FamilyName := None;
  model.SI_MiddleName := None; model.SI_Nickname := None;
  model.SI_Gender := None; model.SI_Birthdate := None;
  model.SI_PhoneNumber := None; model.SI_Picture := None;
  model.SI_Password := "Abc123!@";
  model.SI_ConfirmPassword := "Abc123!@";
  model.SI_Roles := [];
  model.SI_Scope := None;
  model.SI_RedirectURI := None;
|}.

(** A verified and a pending row for the email of the scenario. *)
Definition verified_row : models.User := {|
  models.Key := ""; models.ID := "u-1"; models.Email := "a@b.com";
  models.EmailVerifiedAt := Some 1690000000; models.Password := Some "hash:x";
  models.SignupMethods := "basic_auth"; models.GivenName := None;
  models.FamilyName := None; models.MiddleName := None;
  models.Nickname := None; models.Gender := None; models.Birthdate := None;
  models.PhoneNumber := None; models.PhoneNumberVerifiedAt := None;
  models.Picture := None; models.Roles := "user";
  models.RevokedTimestamp := None; models.CreatedAt := 1690000000;
  models.UpdatedAt := 1690000000;
|}.

Definition one_user_db (u : models.User) : CassDB :=
  with_users empty_db [u].

(** A user with two sessions and a stranger's session. *)
Definition session_1 : models.Session :=
  {| models.S_ID := "s-1"; models.S_UserID := "u-1";
     models.S_UserAgent := "agent"; models.S_IP := "10.0.0.1" |}.

Definition session_2 : models.Session :=
  {| models.S_ID := "s-2"; models.S_UserID := "u-1";
     models.S_UserAgent := "agent"; models.S_IP := "10.0.0.2" |}.

Definition session_3 : models.Session :=
  {| models.S_ID := "s-3"; models.S_UserID := "u-2";
     models.S_UserAgent := "agent"; models.S_IP := "10.0.0.3" |}.

(** The database with [verified_row] and the three sessions, whose coming
    calls have the outcomes [fs]. *)
Definition sessions_db (fs : list (option error)) : CassDB := {|
  tbl_users := [verified_row];
  tbl_sessions := [session_1; session_2; session_3];
  tbl_verification_requests := [];
  faults := fs;
|}.

(** Five users, inserted one after the other into the empty table. *)
Definition numbered_user (id : string) : models.User :=
  models.set_ID
    (new_user (model.set_Email scenario_input (id +:+ "@b.com")) "user" "hash:x"
       "basic_auth" None) id.

Definition five_inserts : M unit :=
  @AddUser (run false false false 0) (numbered_user "1");;
  @AddUser (run false false false 0) (numbered_user "2");;
  @AddUser (run false false false 0) (numbered_user "3");;
  @AddUser (run false false false 0) (numbered_user "4");;
  @AddUser (run false false false 0) (numbered_user "5");;
  ret tt.

(** The world in which the deletion of the sessions will fail. *)
Definition failing_session_delete : World :=
  world_of (sessions_db [None; None; None; None; Some "write timeout"]).

(** A given name with an apostrophe, on an otherwise plain user. *)
Definition oneil : models.User := {|
  models.Key := ""; models.ID := "u-7"; models.Email := "o@neil.ie";
  models.EmailVerifiedAt := None; models.Password := Some "hash:x";
  models.SignupMethods := "basic_auth"; models.GivenName := Some "O'Neil";
  models.FamilyName := None; models.MiddleName := None;
  models.Nickname := None; models.Gender := None; models.Birthdate := None;
  models.PhoneNumber := None; models.PhoneNumberVerifiedAt := None;
  models.Picture := None; models.Roles := "user";
  models.RevokedTimestamp := None; models.CreatedAt := 1690000000;
  models.UpdatedAt := 1690000000;
|}.

(** A user whose stamps are above 2^53. *)
Definition far_future : models.User := {|
  models.Key := ""; models.ID := "u-9"; models.Email := "z@b.com";
  models.EmailVerifiedAt := Some (2 ^ 53 + 1); models.Password := None;
  models.SignupMethods := "basic_auth"; models.GivenName := None;
  models.FamilyName := None; models.MiddleName := None;
  models.Nickname := None; models.Gender := None; models.Birthdate := None;
  models.PhoneNumber := None; models.PhoneNumberVerifiedAt := None;
  models.Picture := None; models.Roles := "user";
  models.RevokedTimestamp := Some (2 ^ 62 + 3); models.CreatedAt := 2 ^ 53 + 1;
  models.UpdatedAt := 2 ^ 63 - 1;
|}.

End Demo.

(** ** What the properties are stated with *)

(** A call of the driver changes nothing but the list of coming outcomes. *)
Definition same_but_faults (w w' : World) : Prop :=
  tbl_users (db w') = tbl_users (db w)
  /\ tbl_sessions (db w') = tbl_sessions (db w)
  /\ tbl_verification_requests (db w') = tbl_verification_requests (db w)
  /\ ticks w' = ticks w /\ draws w' = draws w /\ cookies w' = cookies w
  /\ user_sessions w' = user_sessions w /\ session_state w' = session_state w
  /\ spawned w' = spawned w.

Section Conditions.

Context `{Collaborators}.

(** The gates are open: the request context is there and neither flag
    (a failed read counting as set) disables the signup. *)
Definition gates_open (ctx : context_Context) (gc : GinContext) : Prop :=
  GinContextFromContext ctx = (gc, None)
  /\ flag_or_true EnvKeyDisableSignUp = false
  /\ flag_or_true EnvKeyDisableBasicAuthentication = false.

(** The input passes the checks on the passwords and on the lower-cased
    email. *)
Definition well_formed (params : model.SignUpInput) : Prop :=
  model.SI_ConfirmPassword params = model.SI_Password params
  /\ IsValidPassword (model.SI_Password params) = None
  /\ IsValidEmail (strings.ToLower (model.SI_Email params)) = true.

(** The input after [params.Email = strings.ToLower(params.Email)]. *)
Definition folded (params : model.SignUpInput) : model.SignUpInput :=
  model.set_Email params (strings.ToLower (model.SI_Email params)).

(** The roles the resolver settles on: the default roles when none are
    asked for, the requested ones when they are among the allowed ones. *)
Definition resolved_roles (params : model.SignUpInput) (inputRoles : list string)
  : Prop :=
  (model.SI_Roles params = []
   /\ exists s, GetStringStoreEnvVariable EnvKeyDefaultRoles = (s, None)
                /\ inputRoles = strings.Split s ",")
  \/ (model.SI_Roles params <> []
      /\ exists rs, GetStringStoreEnvVariable EnvKeyRoles = (rs, None)
                    /\ IsValidRoles (model.SI_Roles params) (strings.Split rs ",") = true
                    /\ inputRoles = model.SI_Roles params).

(** A valid signup: the gates are open, the input passes the checks, no row
    has the lower-cased email, the roles are settled, and the stores answer
    (the default roles can be read, the database calls succeed). *)
Definition valid_signup (ctx : context_Context) (gc : GinContext)
    (params : model.SignUpInput) (inputRoles : list string) (w : World) : Prop :=
  gates_open ctx gc
  /\ well_formed params
  /\ resolved_roles params inputRoles
  /\ snd (GetStringStoreEnvVariable EnvKeyDefaultRoles) = None
  /\ faults (db w) = []
  /\ find (fun u => String.eqb (models.Email u) (strings.ToLower (model.SI_Email params)))
          (tbl_users (db w)) = None.

(** The makers of nonces and tokens succeed. *)
Definition makers_succeed : Prop :=
  (forall n, snd (GenerateNonce n) = None)
  /\ (forall e t h n r, snd (CreateVerificationToken e t h n r) = None)
  /\ (forall gc u r s m n, snd (CreateAuthToken gc u r s m n) = None).

(** The row [AddUser] stores for [user] when its reads and its statement
    succeed, [n] draws of randomness and [t] reads of the clock having been
    made before. *)
Definition AddUser_row (user : models.User) (n t : nat) : models.User :=
  let user :=
    if String.eqb (models.ID user) ""
    then models.set_ID user (uuid_New n) else user in
  let user :=
    if String.eqb (models.Roles user) ""
    then models.set_Roles user (fst (GetStringStoreEnvVariable EnvKeyDefaultRoles))
    else user in
  models.set_UpdatedAt
    (models.set_CreatedAt user (time.Unix (clock t)))
    (time.Unix (clock (S t))).

(** The scope handed to the token maker. *)
Definition scope_of (params : model.SignUpInput) : list string :=
  match model.SI_Scope params with Some s => s | None => default_scope end.

(** The verification request the resolver builds at the instant [now]. *)
Definition signup_request (gc : GinContext) (params : model.SignUpInput)
    (n : nat) (now : Z) : models.VerificationRequest :=
  let nonceHash := snd (fst (GenerateNonce n)) in
  let redirectURL :=
    match model.SI_RedirectURI params with
    | Some uri => uri
    | None => GetAppURL gc
    end in
  {| models.VR_Token :=
       fst (CreateVerificationToken (model.SI_Email params)
              VerificationTypeBasicAuthSignup (GetHost gc) nonceHash redirectURL);
     models.VR_Identifier := VerificationTypeBasicAuthSignup;
     models.VR_ExpiresAt := time.Unix (time.Add now (time.Minute * 30));
     models.VR_Email := model.SI_Email params;
     models.VR_Nonce := nonceHash;
     models.VR_RedirectURI := redirectURL |}.

(** What [AddUser] leaves behind when nothing fails. *)
Definition after_AddUser (user row : models.User) (w w' : World) : Prop :=
  tbl_users (db w') = insert_if_not_exists row (tbl_users (db w))
  /\ tbl_sessions (db w') = tbl_sessions (db w)
  /\ tbl_verification_requests (db w') = tbl_verification_requests (db w)
  /\ faults (db w') = []
  /\ ticks w' = S (S (ticks w))
  /\ draws w' = (if String.eqb (models.ID user) "" then S (draws w) else draws w)
  /\ cookies w' = cookies w /\ user_sessions w' = user_sessions w
  /\ session_state w' = session_state w /\ spawned w' = spawned w.

(** What the verification branch leaves behind: one more request, which
    supersedes those of the same email and type, and one more goroutine. *)
Definition after_verification (vr : models.VerificationRequest) (w w' : World)
  : Prop :=
  tbl_users (db w') = tbl_users (db w)
  /\ tbl_sessions (db w') = tbl_sessions (db w)
  /\ tbl_verification_requests (db w')
     = List.filter (fun r => negb (same_request (models.VR_Email vr) (models.VR_Identifier vr) r))
         (tbl_verification_requests (db w)) ++ [vr]
  /\ cookies w' = cookies w /\ user_sessions w' = user_sessions w
  /\ session_state w' = session_state w
  /\ exists body, spawned w' = spawned w ++ [body].

(** The response of the login branch for the token [authToken] read at
    [now]. *)
Definition login_response (authToken : Token) (now : Z) (userToReturn : model.User)
  : model.AuthResponse :=
  {| model.Message := MsgSignedUp;
     model.AccessToken := Some (JT_Token (AccessToken authToken));
     model.RefreshToken := option_map JT_Token (RefreshToken authToken);
     model.ExpiresIn := Some (expires_in (JT_ExpiresAt (AccessToken authToken)) now);
     model.AR_User := Some userToReturn |}.

Definition verification_response (userToReturn : model.User) : model.AuthResponse :=
  {| model.Message := MsgVerificationSent;
     model.AccessToken := None;
     model.RefreshToken := None;
     model.ExpiresIn := None;
     model.AR_User := Some userToReturn |}.

(** The row a valid signup stores, the request it files and the response
    it returns, read off the resolver for a world [w] in which nothing
    fails. *)
Definition signup_row (params : model.SignUpInput) (inputRoles : list string)
    (w : World) : models.User :=
  let evd := flag_or_true EnvKeyDisableEmailVerification in
  AddUser_row
    (new_user (folded params) (strings.Join inputRoles ",")
       (fst (EncryptPassword (model.SI_Password params)))
       AuthRecipeMethodBasicAuth
       (if evd then Some (time.Unix (clock (ticks w))) else None))
    (draws w) (if evd then S (ticks w) else ticks w).

Definition signup_verification (gc : GinContext) (params : model.SignUpInput)
    (w : World) : models.VerificationRequest :=
  signup_request gc (folded params) (S (draws w)) (clock (S (S (ticks w)))).

Definition signup_token (gc : GinContext) (params : model.SignUpInput)
    (inputRoles : list string) (w : World) : Token :=
  let row := signup_row params inputRoles w in
  fst (CreateAuthToken gc row (strings.Split (models.Roles row) ",")
         (scope_of params) AuthRecipeMethodBasicAuth (S (draws w))).

Definition signup_response (gc : GinContext) (params : model.SignUpInput)
    (inputRoles : list string) (w : World) : model.AuthResponse :=
  let row := signup_row params inputRoles w in
  if flag_or_true EnvKeyDisableEmailVerification
  then login_response (signup_token gc params inputRoles w)
         (time.Unix (clock (S (S (S (ticks w)))))) (AsAPIUser row)
  else verification_response (AsAPIUser row).

(** The same for the older resolver: its flags and allowed roles come from
    [envstore], whose reads cannot fail. *)
Definition older_valid_signup (ctx : context_Context) (gc : GinContext)
    (params : model.SignUpInput) (inputRoles : list string) (w : World) : Prop :=
  GinContextFromContext ctx = (gc, None)
  /\ envstore_GetBoolStoreEnvVariable EnvKeyDisableSignUp = false
  /\ envstore_GetBoolStoreEnvVariable EnvKeyDisableBasicAuthentication = false
  /\ model.SI_ConfirmPassword params = model.SI_Password params
  /\ utils_IsValidPassword (model.SI_Password params) = true
  /\ IsValidEmail (strings.ToLower (model.SI_Email params)) = true
  /\ ((model.SI_Roles params = []
       /\ inputRoles = envstore_GetSliceStoreEnvVariable EnvKeyDefaultRoles)
      \/ (model.SI_Roles params <> []
          /\ utils_IsValidRoles (envstore_GetSliceStoreEnvVariable EnvKeyRoles)
               (model.SI_Roles params) = true
          /\ inputRoles = model.SI_Roles params))
  /\ snd (GetStringStoreEnvVariable EnvKeyDefaultRoles) = None
  /\ faults (db w) = []
  /\ find (fun u => String.eqb (models.Email u) (strings.ToLower (model.SI_Email params)))
          (tbl_users (db w)) = None.

Definition older_makers_succeed : Prop :=
  (forall n, snd (GenerateNonce n) = None)
  /\ (forall e t h n r, snd (CreateVerificationToken e t h n r) = None)
  /\ (forall gc u r s n, snd (utils_CreateAuthToken gc u r s n) = None).

Definition older_signup_row (params : model.SignUpInput) (inputRoles : list string)
    (w : World) : models.User :=
  let evd := envstore_GetBoolStoreEnvVariable EnvKeyDisableEmailVerification in
  AddUser_row
    (new_user (folded params) (strings.Join inputRoles ",")
       (fst (EncryptPassword (model.SI_Password params)))
       SignupMethodBasicAuth
       (if evd then Some (time.Unix (clock (ticks w))) else None))
    (draws w) (if evd then S (ticks w) else ticks w).

Definition older_signup_token (gc : GinContext) (params : model.SignUpInput)
    (inputRoles : list string) (w : World) : Token :=
  let row := older_signup_row params inputRoles w in
  fst (utils_CreateAuthToken gc row (strings.Split (models.Roles row) ",")
         (scope_of params) (S (draws w))).

Definition older_signup_response (gc : GinContext) (params : model.SignUpInput)
    (inputRoles : list string) (w : World) : model.AuthResponse :=
  let row := older_signup_row params inputRoles w in
  if envstore_GetBoolStoreEnvVariable EnvKeyDisableEmailVerification
  then
    let authToken := older_signup_token gc params inputRoles w in
    {| model.Message := MsgSignedUp;
       model.AccessToken := Some (JT_Token (AccessToken authToken));
       model.RefreshToken := None;
       model.ExpiresIn :=
         Some (expires_in (JT_ExpiresAt (AccessToken authToken))
                 (time.Unix (clock (S (S (S (ticks w)))))));
       model.AR_User := Some (AsAPIUser row) |}
  else verification_response (AsAPIUser row).

End Conditions.

(** ** More of [cassandradb]: the lookup by ID *)

(** The text [GetUserByID] executes. *)
Definition GetUserByID_query (KeySpace id : string) : string :=
  "SELECT " +:+ user_columns +:+ " FROM " +:+ users_table KeySpace
    +:+ " WHERE id = '" +:+ id +:+ "' LIMIT 1".

(** GetUserByID to get user information from database using user ID *)
Definition GetUserByID (id : string) : M (models.User * option error) :=
  let user := models.zero_User in
  let* err := db_call in
  match err with
  | Some e => ret (user, Some e)
  | None =>
      let* d := get_db in
      match find (same_id id) (tbl_users d) with
      | Some row => ret (scanned row, None)
      | None => ret (user, Some ErrNotFound)
      end
  end.

(** The tokens of the statements that carry an ID. *)
Definition GetUserByID_tokens (KeySpace id : string) : list token :=
  chars ("SELECT " +:+ user_columns +:+ " FROM " +:+ users_table KeySpace
         +:+ " WHERE id = ")
  ++ [TLit id] ++ chars " LIMIT 1".

Definition DeleteUser_tokens (KeySpace id : string) : list token :=
  chars ("DELETE FROM " +:+ users_table KeySpace +:+ " WHERE id = ") ++ [TLit id].

Definition getSessions_tokens (KeySpace id : string) : list token :=
  chars ("SELECT id FROM " +:+ sessions_table KeySpace +:+ " WHERE user_id = ")
  ++ [TLit id] ++ chars " ALLOW FILTERING".

(** The tokens of the statement that deletes the sessions with the IDs
    [ids]: the fixed text around one literal per ID. *)
Definition deleteSession_tokens (KeySpace : string) (ids : list string)
  : list token :=
  match ids with
  | [] => chars ("DELETE FROM " +:+ sessions_table KeySpace +:+ " WHERE id IN ()")
  | _ =>
      chars ("DELETE FROM " +:+ sessions_table KeySpace +:+ " WHERE id IN (")
      ++ value_tokens (map VString ids) ")"
  end.

(** The text the loop of [DeleteUser] has built for the IDs [ids]. *)
Definition quoted_ids (ids : list string) : string :=
  comma_ended (map (fun id => "'" +:+ id +:+ "'") ids).

(** Two users that agree on everything but the ID, the roles and the two
    stamps of creation and update. *)
Definition same_but_id_roles_stamps (a b : models.User) : Prop :=
  models.Key a = models.Key b
  /\ models.Email a = models.Email b
  /\ models.EmailVerifiedAt a = models.EmailVerifiedAt b
  /\ models.Password a = models.Password b
  /\ models.SignupMethods a = models.SignupMethods b
  /\ models.GivenName a = models.GivenName b
  /\ models.FamilyName a = models.FamilyName b
  /\ models.MiddleName a = models.MiddleName b
  /\ models.Nickname a = models.Nickname b
  /\ models.Gender a = models.Gender b
  /\ models.Birthdate a = models.Birthdate b
  /\ models.PhoneNumber a = models.PhoneNumber b
  /\ models.PhoneNumberVerifiedAt a = models.PhoneNumberVerifiedAt b
  /\ models.Picture a = models.Picture b
  /\ models.RevokedTimestamp a = models.RevokedTimestamp b.

(** A user with a gender, to be stored and read back. *)
Definition with_gender : models.User := {|
  models.Key := ""; models.ID := ""; models.Email := "g@b.com";
  models.EmailVerifiedAt := None; models.Password := Some "hash:x";
  models.SignupMethods := "basic_auth"; models.GivenName := Some "Gil";
  models.FamilyName := None; models.MiddleName := None;
  models.Nickname := None; models.Gender := Some "male"; models.Birthdate := None;
  models.PhoneNumber := None; models.PhoneNumberVerifiedAt := None;
  models.Picture := None; models.Roles := "";
  models.RevokedTimestamp := None; models.CreatedAt := 0;
  models.UpdatedAt := 0;
|}.

(** The default run of the collaborators, and a world whose coming calls
    have the outcomes [fs]. *)
Definition plain_run : Collaborators := Demo.run false false false 1700000900.

Definition world_with (rows : list models.User) (fs : list (option error)) : World :=
  Demo.world_of {| tbl_users := rows; tbl_sessions := [];
                   tbl_verification_requests := []; faults := fs |}.

(** A table whose scan returns five users, the second with a gender. *)
Definition five_users : World :=
  world_with [ Demo.numbered_user "1"; models.set_ID with_gender "2";
               Demo.numbered_user "3"; Demo.numbered_user "4";
               Demo.numbered_user "5" ] [].

(** The users of the page [ListUsers] returns for [limit] and [offset];
    none when it returns an error. *)
Definition page_of `{Collaborators} (w : World) (limit offset : Z) : list model.User :=
  match fst (fst (ListUsers {| model.Limit := limit; model.Offset := offset;
                                model.Total := 0 |} w)) with
  | Some page => model.Us_Users page
  | None => []
  end.

(** ** What one call of the resolver does to the world *)

(** The users table after a call: as before, or with one row more at its
    end, whose email is [email]. *)
Definition grown_by (email : string) (before after : list models.User) : Prop :=
  after = before
  \/ exists row, after = before ++ [row] /\ models.Email row = email.

(** What the client and later requests see of a call that fails: no
    cookie, no cached session, no goroutine. *)
Definition nothing_shown (w w' : World) : Prop :=
  cookies w' = cookies w /\ user_sessions w' = user_sessions w
  /\ session_state w' = session_state w /\ spawned w' = spawned w.

(** The result of a call: a response with a user and one goroutine more,
    or an error and nothing shown; never both, never neither. *)
Definition answers_or_fails (w : World) (out : Result * World) : Prop :=
  match fst out with
  | (Some resp, None) =>
      model.AR_User resp <> None
      /\ exists body, spawned (snd out) = spawned w ++ [body]
  | (None, Some _) => nothing_shown w (snd out)
  | _ => False
  end.

(** A step that is not seen: the tables of users and sessions and what is
    shown are the same. *)
Definition unseen (w w' : World) : Prop :=
  tbl_users (db w') = tbl_users (db w)
  /\ tbl_sessions (db w') = tbl_sessions (db w)
  /\ nothing_shown w w'.

(** The effect of a call on the tables and on what is shown. *)
Definition effect (email : string) (w : World) (out : Result * World) : Prop :=
  tbl_sessions (db (snd out)) = tbl_sessions (db w)
  /\ grown_by email (tbl_users (db w)) (tbl_users (db (snd out)))
  /\ answers_or_fails w out.


(** A run like [base] on a node whose scans return the rows in the order
    [order]. *)
Definition with_scan_order (base : Collaborators)
    (order : list models.User -> list models.User)
    (order_rows : forall rows, Permutation (order rows) rows) : Collaborators := {|
  Collaborators_Unicode := @Collaborators_Unicode base;
  KeySpace := @KeySpace base;
  EnvKeyDisableSignUp := @EnvKeyDisableSignUp base;
  EnvKeyDisableBasicAuthentication := @EnvKeyDisableBasicAuthentication base;
  EnvKeyRoles := @EnvKeyRoles base;
  EnvKeyDefaultRoles := @EnvKeyDefaultRoles base;
  EnvKeyDisableEmailVerification := @EnvKeyDisableEmailVerification base;
  AuthRecipeMethodBasicAuth := @AuthRecipeMethodBasicAuth base;
  SignupMethodBasicAuth := @SignupMethodBasicAuth base;
  VerificationTypeBasicAuthSignup := @VerificationTypeBasicAuthSignup base;
  TokenTypeSessionToken := @TokenTypeSessionToken base;
  TokenTypeAccessToken := @TokenTypeAccessToken base;
  TokenTypeRefreshToken := @TokenTypeRefreshToken base;
  UserCreatedWebhookEvent := @UserCreatedWebhookEvent base;
  UserSignUpWebhookEvent := @UserSignUpWebhookEvent base;
  context_Context := @context_Context base;
  GinContext := @GinContext base;
  GinContextFromContext := @GinContextFromContext base;
  GetHost := @GetHost base;
  GetAppURL := @GetAppURL base;
  GetUserAgent := @GetUserAgent base;
  GetIP := @GetIP base;
  GetBoolStoreEnvVariable := @GetBoolStoreEnvVariable base;
  GetStringStoreEnvVariable := @GetStringStoreEnvVariable base;
  envstore_GetBoolStoreEnvVariable := @envstore_GetBoolStoreEnvVariable base;
  envstore_GetSliceStoreEnvVariable := @envstore_GetSliceStoreEnvVariable base;
  IsValidPassword := @IsValidPassword base;
  IsValidEmail := @IsValidEmail base;
  IsValidRoles := @IsValidRoles base;
  utils_IsValidPassword := @utils_IsValidPassword base;
  utils_IsValidRoles := @utils_IsValidRoles base;
  EncryptPassword := @EncryptPassword base;
  GenerateNonce := @GenerateNonce base;
  CreateVerificationToken := @CreateVerificationToken base;
  CreateAuthToken := @CreateAuthToken base;
  utils_CreateAuthToken := @utils_CreateAuthToken base;
  uuid_New := @uuid_New base;
  clock := @clock base;
  scan_order := order;
  scan_order_rows := order_rows;
|}.

(** A node whose tokens put the keys written last first. *)
Definition newest_first : Collaborators :=
  with_scan_order (Demo.run false false false 0) (@rev models.User)
    (fun rows => Permutation_sym (Permutation_rev rows)).


(** A string without the byte [c]. *)
Fixpoint free_of (c : ascii) (s : string) : bool :=
  match s with
  | EmptyString => true
  | String d s' => negb (Ascii.eqb d c) && free_of c s'
  end.

(** * Properties *)

(** ** The definitions at work *)

Example Split_empty : strings.Split "" "," = [""].
Proof. reflexivity. Qed.

Example Split_roles : strings.Split "user,admin" "," = ["user"; "admin"].
Proof. reflexivity. Qed.

Example Join_roles : strings.Join ["user"; "admin"] "," = "user,admin".
Proof. reflexivity. Qed.

Example ToLower_scenario `{Unicode} : strings.ToLower "A@B.com" = "a@b.com".
Proof. reflexivity. Qed.

(** A capital A with a grave accent, bytes C3 80, becomes the small one,
    bytes C3 A0, through the letters of package [unicode]. *)
Example ToLower_latin1 :
  @strings.ToLower Demo.latin1
    (String (ascii_of_nat 195) (String (ascii_of_nat 128) "@B.com"))
  = String (ascii_of_nat 195) (String (ascii_of_nat 160) "@b.com").
Proof. reflexivity. Qed.

Example Trim_update : strings.TrimSuffix (strings.Trim "a = 1, b = 'x', " " ") "," = "a = 1, b = 'x'".
Proof. reflexivity. Qed.

Example format_above_2_53 : format_int64 (2 ^ 53 + 1) = "9007199254740993".
Proof. reflexivity. Qed.

Example lex_plain_email :
  cql_lex "email = 'a@b.com' LIMIT 1"
  = Some (chars "email = " ++ [TLit "a@b.com"] ++ chars " LIMIT 1").
Proof. reflexivity. Qed.

Example lex_doubled_quote : cql_lex "'o''brien'" = Some [TLit "o'brien"].
Proof. reflexivity. Qed.

Example lex_open_literal : cql_lex "email = 'o'brien'" = None.
Proof. reflexivity. Qed.

(** ** Small facts about the threaded world *)

Lemma db_call_quiet (w : World) :
  faults (db w) = [] -> db_call w = (None, w).
Proof. intros Hf. unfold db_call. now rewrite Hf. Qed.

Lemma same_but_faults_refl w : same_but_faults w w.
Proof. unfold same_but_faults. tauto. Qed.

Lemma db_call_same w : same_but_faults w (snd (db_call w)).
Proof.
  unfold db_call. destruct (faults (db w)); cbn.
  - apply same_but_faults_refl.
  - unfold same_but_faults. cbn. tauto.
Qed.

Section ResolverFacts.

Context `{Collaborators}.

(** What a scan finds does not depend on where the rows are stored. *)
Lemma find_absent {A} (p : A -> bool) (l : list A) :
  (forall x, In x l -> p x = false) -> find p l = None.
Proof.
  induction l as [|a l IH]; intros Hall; cbn; [reflexivity|].
  rewrite (Hall a) by now left. apply IH. intros x Hx. apply Hall. now right.
Qed.

Lemma find_none_scan (p : models.User -> bool) (rows : list models.User) :
  find p rows = None -> find p (scan_order rows) = None.
Proof.
  intros Hnone. apply find_absent. intros x Hx.
  apply (find_none _ _ Hnone).
  eapply Permutation_in; [apply scan_order_rows | exact Hx].
Qed.

Lemma find_the_only {A} (p : A -> bool) (l : list A) (a : A) :
  (forall x, In x l -> p x = true -> x = a) -> In a l -> p a = true ->
  find p l = Some a.
Proof.
  induction l as [|b l IH]; intros Honly Hin Ha; [contradiction|].
  cbn. destruct (p b) eqn:Hb.
  - f_equal. apply Honly; [now left | exact Hb].
  - destruct Hin as [->|Hin]; [congruence|].
    apply IH; auto. intros x Hx. apply Honly. now right.
Qed.

Lemma find_scan_appended (p : models.User -> bool) (rows : list models.User)
    (row : models.User) :
  find p rows = None -> p row = true ->
  find p (scan_order (rows ++ [row])) = Some row.
Proof.
  intros Hnone Hrow. apply find_the_only; [| |exact Hrow].
  - intros x Hx Hpx.
    apply (Permutation_in _ (scan_order_rows _)) in Hx.
    apply in_app_or in Hx as [Hx | [<- | []]]; [|reflexivity].
    rewrite (find_none _ _ Hnone x Hx) in Hpx. discriminate.
  - apply (Permutation_in _ (Permutation_sym (scan_order_rows _))).
    apply in_or_app. right. now left.
Qed.

(** [GetUserByEmail] returns the scanned columns of the first row of the
    scan with the email when the call succeeds, and the zero user otherwise;
    it writes nothing. *)
Lemma GetUserByEmail_spec (email : string) (w : World) r w' :
  GetUserByEmail email w = (r, w') ->
  same_but_faults w w'
  /\ match hd None (faults (db w)) with
     | Some e => r = (models.zero_User, Some e)
     | None =>
         match find (fun u => String.eqb (models.Email u) email)
                 (scan_order (tbl_users (db w))) with
         | Some row => r = (scanned row, None)
         | None => r = (models.zero_User, Some ErrNotFound)
         end
     end.
Proof.
  unfold GetUserByEmail, bind, get_db, ret.
  pose proof (db_call_same w) as Hs.
  unfold db_call in *.
  destruct (faults (db w)) as [|[e|] fs] eqn:Hf; cbn in *;
    try destruct (find _ _); intros [= <- <-]; split; auto.
Qed.

End ResolverFacts.

(** C2.  Fail-closed flags.  Once the request context is there, a failed
    read of the signup flag makes [SignupResolver] return the signup-disabled
    error, and, the signup flag read as [false], a failed read of the
    basic-authentication flag makes it return the basic-authentication-disabled
    error; in both cases no response is returned and the world (tables,
    session cache, cookies, goroutines) is the one it started from.  The
    older resolver reads flags that cannot fail; a flag that is set has the
    same effect there. *)
Theorem flag_read_failure_means_disabled `{Collaborators}
    (ctx : context_Context) (gc : GinContext) (params : model.SignUpInput) (w : World) :
  GinContextFromContext ctx = (gc, None) ->
  (snd (GetBoolStoreEnvVariable EnvKeyDisableSignUp) <> None ->
     SignupResolver ctx params w = ((None, Some ErrSignupDisabled), w))
  /\ (GetBoolStoreEnvVariable EnvKeyDisableSignUp = (false, None) ->
      snd (GetBoolStoreEnvVariable EnvKeyDisableBasicAuthentication) <> None ->
        SignupResolver ctx params w = ((None, Some ErrBasicAuthDisabled), w))
  /\ (envstore_GetBoolStoreEnvVariable EnvKeyDisableSignUp = true ->
        Older.SignupResolver ctx params w = ((None, Some ErrSignupDisabled), w))
  /\ (envstore_GetBoolStoreEnvVariable EnvKeyDisableSignUp = false ->
      envstore_GetBoolStoreEnvVariable EnvKeyDisableBasicAuthentication = true ->
        Older.SignupResolver ctx params w = ((None, Some ErrBasicAuthDisabled), w)).
Proof.
  intros Hgc. repeat split.
  - intros Hfail. unfold SignupResolver, flag_or_true. rewrite Hgc.
    destruct (GetBoolStoreEnvVariable EnvKeyDisableSignUp) as [b [e|]]; cbn in *.
    + reflexivity.
    + congruence.
  - intros Hsignup Hfail. unfold SignupResolver, flag_or_true.
    rewrite Hgc, Hsignup.
    destruct (GetBoolStoreEnvVariable EnvKeyDisableBasicAuthentication) as [b [e|]]; cbn in *.
    + reflexivity.
    + congruence.
  - intros Hflag. unfold Older.SignupResolver. now rewrite Hgc, Hflag.
  - intros Hs Hb. unfold Older.SignupResolver. now rewrite Hgc, Hs, Hb.
Qed.

Lemma flag_read_failure_means_disabled_witness :
  @SignupResolver (Demo.run false true false 0) tt Demo.scenario_input
    (Demo.world_of Demo.empty_db)
  = ((None, Some ErrSignupDisabled), Demo.world_of Demo.empty_db).
Proof.
  refine (proj1 (@flag_read_failure_means_disabled (Demo.run false true false 0)
                   tt tt Demo.scenario_input (Demo.world_of Demo.empty_db) _) _).
  - reflexivity.
  - cbn. discriminate.
Defined.

(** Duplicate email, when the lookup answers.  Take an input that passes
    the flag gates and the checks on the passwords and the email, and let
    [existing] be the first row of the scan of the users table whose email
    is the lower-cased email of the input, the lookup succeeding.  If [existing] carries a verification
    stamp the resolver returns the already-signed-up error; if it has an ID
    and no stamp, the verification-pending error.  In both cases no response
    (hence no token) is returned, and nothing was written: the tables, the
    session cache, the cookies and the goroutines are those of the start. *)
Lemma duplicate_email_is_refused `{Collaborators}
    (ctx : context_Context) (gc : GinContext) (params : model.SignUpInput)
    (w : World) (existing : models.User) :
  gates_open ctx gc ->
  well_formed params ->
  hd None (faults (db w)) = None ->
  find (fun u => String.eqb (models.Email u) (strings.ToLower (model.SI_Email params)))
    (scan_order (tbl_users (db w))) = Some existing ->
  exists w1,
    same_but_faults w w1
    /\ (models.EmailVerifiedAt existing <> None ->
        SignupResolver ctx params w
        = ((None, Some (ErrAlreadySignedUp (strings.ToLower (model.SI_Email params)))), w1))
    /\ (models.ID existing <> "" -> models.EmailVerifiedAt existing = None ->
        SignupResolver ctx params w
        = ((None, Some (ErrVerificationPending (strings.ToLower (model.SI_Email params)))), w1)).
Proof.
  intros (Hgc & Hs & Hb) (Hc & Hp & He) Hcall Hfind.
  destruct (GetUserByEmail (strings.ToLower (model.SI_Email params)) w)
    as [found w1] eqn:Hlook.
  destruct (GetUserByEmail_spec _ _ _ _ Hlook) as (Hsame & Hfound).
  rewrite Hcall, Hfind in Hfound. subst found.
  exists w1. split; [exact Hsame|].
  assert (Hrun : SignupResolver ctx params w
    = (if negb (is_nil (models.EmailVerifiedAt existing))
       then ret (None, Some (ErrAlreadySignedUp (strings.ToLower (model.SI_Email params))))
       else ret (None, Some (ErrVerificationPending (strings.ToLower (model.SI_Email params))))) w1
      \/ (models.EmailVerifiedAt existing = None /\ models.ID existing = "")).
  { unfold SignupResolver. rewrite Hgc, Hs, Hb, Hc, String.eqb_refl, Hp. cbn.
    rewrite He. cbn. unfold bind. rewrite Hlook. cbn.
    destruct (models.EmailVerifiedAt existing); cbn; [now left|].
    destruct (String.eqb_spec (models.ID existing) ""); cbn; [now right | now left]. }
  split.
  - intros Hv. destruct Hrun as [-> | [Hn _]]; [|congruence].
    destruct (models.EmailVerifiedAt existing); [reflexivity | congruence].
  - intros Hid Hv. destruct Hrun as [-> | [_ Hn]]; [|congruence].
    now rewrite Hv.
Qed.

Lemma duplicate_email_is_refused_example :
  exists w1,
    same_but_faults (Demo.world_of (Demo.one_user_db Demo.verified_row)) w1
    /\ @SignupResolver (Demo.run false false false 0) tt Demo.scenario_input
         (Demo.world_of (Demo.one_user_db Demo.verified_row))
       = ((None, Some (ErrAlreadySignedUp "a@b.com")), w1).
Proof.
  destruct (@duplicate_email_is_refused (Demo.run false false false 0)
              tt tt Demo.scenario_input
              (Demo.world_of (Demo.one_user_db Demo.verified_row))
              Demo.verified_row) as (w1 & Hsame & Hverified & _).
  - repeat split.
  - repeat split.
  - reflexivity.
  - reflexivity.
  - exists w1. split; [exact Hsame|]. apply Hverified. discriminate.
Defined.

(** ** The path of a valid signup *)

Section MainPath.

Context `{Collaborators}.

Lemma valid_signup_reaches_persist ctx gc params inputRoles w :
  valid_signup ctx gc params inputRoles w ->
  SignupResolver ctx params w
  = persist_and_branch gc (folded params) inputRoles None w.
Proof.
  intros ((Hgc & Hs & Hb) & (Hc & Hp & He) & Hr & _ & Hf & Hfree).
  unfold SignupResolver. rewrite Hgc, Hs, Hb, Hc, String.eqb_refl, Hp. cbn.
  rewrite He. cbn. unfold bind at 1.
  unfold GetUserByEmail, bind, get_db, ret.
  rewrite (db_call_quiet _ Hf), (find_none_scan _ _ Hfree). cbn.
  fold (folded params).
  destruct Hr as [(Hnil & s & Hs' & ->) | (Hne & rs & Hrs & Hv & ->)].
  - rewrite Hnil. cbn. rewrite Hs'. reflexivity.
  - destruct (model.SI_Roles params) eqn:E; [congruence|]. cbn.
    rewrite Hrs. rewrite Hv. reflexivity.
Qed.

Lemma AddUser_quiet user w :
  snd (GetStringStoreEnvVariable EnvKeyDefaultRoles) = None ->
  faults (db w) = [] ->
  exists w', AddUser user w = ((AddUser_row user (draws w) (ticks w), None), w')
             /\ after_AddUser user (AddUser_row user (draws w) (ticks w)) w w'.
Proof.
  intros Hd Hf. unfold AddUser, AddUser_row, after_AddUser.
  destruct (GetStringStoreEnvVariable EnvKeyDefaultRoles) as [dr o]. cbn in Hd. subst o.
  unfold bind, time_Now, bind, tick, draw, ret, modify_db, db_call.
  destruct (String.eqb (models.ID user) ""); cbn;
    match goal with |- context [String.eqb ?r ""] => destruct (String.eqb r "") end;
    cbn; rewrite Hf; cbn; eexists; (split; [reflexivity|]); cbn; rewrite ?Hf; tauto.
Qed.

Lemma verification_branch_quiet gc params user userToReturn w :
  faults (db w) = [] ->
  makers_succeed ->
  let vr := signup_request gc params (draws w) (clock (ticks w)) in
  exists w',
    verification_branch gc params user userToReturn (GetHost gc) None w
    = ((Some (verification_response userToReturn), None), w')
    /\ after_verification vr w w'.
Proof.
  intros Hf (Hn & Hv & _). cbn zeta.
  unfold verification_branch, signup_request, after_verification.
  unfold bind at 1. unfold draw at 1.
  specialize (Hn (draws w)).
  destruct (GenerateNonce (draws w)) as [[nonce nonceHash] o]. cbn in Hn. subst o.
  cbn [fst snd].
  match goal with |- context [CreateVerificationToken ?a ?b ?c ?d ?e] =>
    specialize (Hv a b c d e); destruct (CreateVerificationToken a b c d e) as [tok o] end.
  cbn in Hv. subst o.
  unfold bind, time_Now, bind, tick, ret, AddVerificationRequest, bind, db_call, modify_db, go, ret.
  cbn. rewrite Hf. cbn. eexists. split; [reflexivity|]. cbn.
  repeat split; eauto.
Qed.

Lemma login_branch_quiet gc params user roles userToReturn w :
  makers_succeed ->
  let authToken :=
    fst (CreateAuthToken gc user roles (scope_of params) AuthRecipeMethodBasicAuth (draws w)) in
  exists w',
    login_branch gc params user roles userToReturn None w
    = ((Some (login_response authToken (time.Unix (clock (ticks w))) userToReturn), None), w')
    /\ db w' = db w.
Proof.
  intros (_ & _ & Ha). cbn zeta.
  unfold login_branch, login_response, scope_of.
  unfold bind at 1. unfold draw at 1.
  assert (Hscope : match model.SI_Scope params with
                   | Some s => if (0 <? length default_scope)%nat then s else default_scope
                   | None => default_scope end
                   = match model.SI_Scope params with Some s => s | None => default_scope end)
    by now destruct (model.SI_Scope params).
  rewrite Hscope.
  match goal with |- context [CreateAuthToken ?a ?b ?c ?d ?e ?f] =>
    specialize (Ha a b c d e f); destruct (CreateAuthToken a b c d e f) as [tok o] end.
  cbn in Ha. subst o. cbn [fst].
  unfold bind, time_Now, bind, tick, ret, cookie_SetSession, SetUserSession, go, ret.
  destruct (RefreshToken tok); cbn; eexists; split; reflexivity.
Qed.

(** A valid signup succeeds: the response, the stored row and the filed
    request are the ones read off the resolver. *)
Lemma signup_succeeds ctx gc params inputRoles w :
  valid_signup ctx gc params inputRoles w ->
  makers_succeed ->
  exists w',
    SignupResolver ctx params w
    = ((Some (signup_response gc params inputRoles w), None), w')
    /\ tbl_users (db w')
       = insert_if_not_exists (signup_row params inputRoles w) (tbl_users (db w))
    /\ tbl_verification_requests (db w')
       = (if flag_or_true EnvKeyDisableEmailVerification
          then tbl_verification_requests (db w)
          else
            List.filter (fun r => negb (same_request (strings.ToLower (model.SI_Email params))
                                     VerificationTypeBasicAuthSignup r))
              (tbl_verification_requests (db w))
            ++ [signup_verification gc params w]).
Proof.
  intros Hvalid Hmk.
  rewrite (valid_signup_reaches_persist _ _ _ _ _ Hvalid).
  destruct Hvalid as (_ & _ & _ & Hd & Hf & _).
  unfold signup_response, signup_token, signup_verification, signup_row.
  unfold persist_and_branch.
  destruct (flag_or_true EnvKeyDisableEmailVerification) eqn:Hevd;
    cbv beta iota zeta delta [bind ret time_Now tick];
    match goal with |- context [AddUser ?u ?w0] =>
      destruct (AddUser_quiet u w0 Hd Hf) as (w1 & -> & Hu & Hs & Hv & Hf1 & Ht & Hdr & _)
    end;
    cbn [negb ticks draws db] in *.
  - match goal with |- context [login_branch ?a ?b ?c ?d ?e None w1] =>
      destruct (login_branch_quiet a b c d e w1 Hmk) as (w2 & -> & Hdb)
    end.
    rewrite Hdr, Ht. cbn [new_user models.ID String.eqb].
    eexists. split; [reflexivity|]. rewrite Hdb, Hu, Hv. split; reflexivity.
  - match goal with |- context [verification_branch ?a ?b ?c ?d _ None w1] =>
      destruct (verification_branch_quiet a b c d w1 Hf1 Hmk) as (w2 & -> & Hu2 & _ & Hv2 & _)
    end.
    eexists. split; [reflexivity|]. rewrite Hu2, Hu, Hv2, Hv, Hdr, Ht.
    split; reflexivity.
Qed.

End MainPath.

(** ** The path of a valid signup through the older resolver *)

Section OlderPath.

Context `{Collaborators}.

Lemma older_valid_signup_reaches_persist ctx gc params inputRoles w :
  older_valid_signup ctx gc params inputRoles w ->
  Older.SignupResolver ctx params w
  = Older.persist_and_branch gc (folded params) inputRoles None w.
Proof.
  intros (Hgc & Hs & Hb & Hc & Hp & He & Hr & _ & Hf & Hfree).
  unfold Older.SignupResolver. rewrite Hgc, Hs, Hb, Hc, String.eqb_refl, Hp. cbn.
  rewrite He. cbn. unfold bind at 1.
  unfold GetUserByEmail, bind, get_db, ret.
  rewrite (db_call_quiet _ Hf), (find_none_scan _ _ Hfree). cbn.
  fold (folded params).
  destruct Hr as [(Hnil & ->) | (Hne & Hv & ->)].
  - rewrite Hnil. reflexivity.
  - destruct (model.SI_Roles params) eqn:E; [congruence|]. cbn.
    rewrite Hv. reflexivity.
Qed.

Lemma older_verification_branch_quiet gc params userToReturn w :
  faults (db w) = [] ->
  older_makers_succeed ->
  let vr := signup_request gc params (draws w) (clock (ticks w)) in
  exists w',
    Older.verification_branch gc params userToReturn (GetHost gc) None w
    = ((Some (verification_response userToReturn), None), w')
    /\ after_verification vr w w'.
Proof.
  intros Hf (Hn & Hv & _). cbn zeta.
  unfold Older.verification_branch, signup_request, after_verification.
  unfold bind at 1. unfold draw at 1.
  specialize (Hn (draws w)).
  destruct (GenerateNonce (draws w)) as [[nonce nonceHash] o]. cbn in Hn. subst o.
  cbn [fst snd].
  match goal with |- context [CreateVerificationToken ?a ?b ?c ?d ?e] =>
    specialize (Hv a b c d e); destruct (CreateVerificationToken a b c d e) as [tok o] end.
  cbn in Hv. subst o.
  unfold bind, time_Now, bind, tick, ret, AddVerificationRequest, bind, db_call, modify_db, go, ret.
  cbn. rewrite Hf. cbn. eexists. split; [reflexivity|]. cbn.
  repeat split; eauto.
Qed.

Lemma older_login_branch_quiet gc params user roles userToReturn w :
  older_makers_succeed ->
  let authToken := fst (utils_CreateAuthToken gc user roles (scope_of params) (draws w)) in
  exists w',
    Older.login_branch gc params user roles userToReturn None w
    = ((Some {| model.Message := MsgSignedUp;
                model.AccessToken := Some (JT_Token (AccessToken authToken));
                model.RefreshToken := None;
                model.ExpiresIn :=
                  Some (expires_in (JT_ExpiresAt (AccessToken authToken))
                          (time.Unix (clock (ticks w))));
                model.AR_User := Some userToReturn |}, None), w')
    /\ db w' = db w.
Proof.
  intros (_ & _ & Ha). cbn zeta.
  unfold Older.login_branch, scope_of.
  unfold bind at 1. unfold draw at 1.
  assert (Hscope : match model.SI_Scope params with
                   | Some s => if (0 <? length default_scope)%nat then s else default_scope
                   | None => default_scope end
                   = match model.SI_Scope params with Some s => s | None => default_scope end)
    by now destruct (model.SI_Scope params).
  rewrite Hscope.
  match goal with |- context [utils_CreateAuthToken ?a ?b ?c ?d ?e] =>
    specialize (Ha a b c d e); destruct (utils_CreateAuthToken a b c d e) as [tok o] end.
  cbn in Ha. subst o. cbn [fst].
  unfold bind, time_Now, bind, tick, ret, cookie_SetSession, sessionstore_SetState, go, ret.
  cbn. eexists; split; reflexivity.
Qed.

Lemma older_signup_succeeds ctx gc params inputRoles w :
  older_valid_signup ctx gc params inputRoles w ->
  older_makers_succeed ->
  exists w',
    Older.SignupResolver ctx params w
    = ((Some (older_signup_response gc params inputRoles w), None), w')
    /\ tbl_users (db w')
       = insert_if_not_exists (older_signup_row params inputRoles w) (tbl_users (db w)).
Proof.
  intros Hvalid Hmk.
  rewrite (older_valid_signup_reaches_persist _ _ _ _ _ Hvalid).
  destruct Hvalid as (_ & _ & _ & _ & _ & _ & _ & Hd & Hf & _).
  unfold older_signup_response, older_signup_token, older_signup_row.
  unfold Older.persist_and_branch.
  destruct (envstore_GetBoolStoreEnvVariable EnvKeyDisableEmailVerification) eqn:Hevd;
    cbv beta iota zeta delta [bind ret time_Now tick];
    match goal with |- context [AddUser ?u ?w0] =>
      destruct (AddUser_quiet u w0 Hd Hf) as (w1 & -> & Hu & Hs & Hv & Hf1 & Ht & Hdr & _)
    end;
    cbn [negb ticks draws db] in *.
  - match goal with |- context [Older.login_branch ?a ?b ?c ?d ?e None w1] =>
      destruct (older_login_branch_quiet a b c d e w1 Hmk) as (w2 & -> & Hdb)
    end.
    rewrite Hdr, Ht. cbn [new_user models.ID String.eqb].
    eexists. split; [reflexivity|]. now rewrite Hdb, Hu.
  - match goal with |- context [Older.verification_branch ?a ?b ?c _ None w1] =>
      destruct (older_verification_branch_quiet a b c w1 Hf1 Hmk) as (w2 & -> & Hu2 & _)
    end.
    eexists. split; [reflexivity|]. now rewrite Hu2, Hu.
Qed.

End OlderPath.

(** ** Arithmetic and list facts *)

Lemma wrap64_in_range (z : Z) : in_int64 z -> wrap64 z = z.
Proof.
  unfold in_int64, min_int64, max_int64, wrap64. intros Hz.
  rewrite Z.mod_small by lia. lia.
Qed.

Lemma expires_in_spec (expiresAt now : Z) :
  expires_in expiresAt now = Z.max 1 (int64_sub expiresAt now)
  /\ 1 <= expires_in expiresAt now.
Proof.
  unfold expires_in. destruct (Z.leb_spec (int64_sub expiresAt now) 0); lia.
Qed.

Lemma filter_superseded {A} (P : A -> bool) (l : list A) (x : A) :
  P x = true ->
  List.filter P (List.filter (fun r => negb (P r)) l ++ [x]) = [x].
Proof.
  intros Hx. rewrite List.filter_app. cbn. rewrite Hx.
  replace (List.filter P (List.filter (fun r => negb (P r)) l)) with (@nil A); [reflexivity|].
  induction l as [|a l IH]; cbn; [reflexivity|].
  destruct (P a) eqn:Ha; cbn; rewrite ?Ha; exact IH.
Qed.

Lemma thirty_minutes_later (t : Z) :
  time.Unix (time.Add t (time.Minute * 30)) = time.Unix t + 1800.
Proof.
  unfold time.Unix, time.Add, time.Minute, time.Second.
  replace (t + 60 * 1000000000 * 30) with (t + 1800 * 1000000000) by lia.
  now rewrite Z.div_add by lia.
Qed.

(** C5.  Verification enabled.  For a valid signup whose verification flag
    reads [false], with the makers of the nonce and of the token succeeding,
    [SignupResolver] returns a response with the check-your-inbox message and
    no access token, no refresh token and no ExpiresIn; it has filed a
    request for the lower-cased email and the signup type whose ExpiresAt is
    the instant at which the request was built plus 30 minutes (1800
    seconds); and that request is the only one of that email and type in the
    table afterwards. *)
Theorem verification_enabled_files_one_request `{Collaborators}
    (ctx : context_Context) (gc : GinContext) (params : model.SignUpInput)
    (inputRoles : list string) (w : World) :
  valid_signup ctx gc params inputRoles w ->
  makers_succeed ->
  GetBoolStoreEnvVariable EnvKeyDisableEmailVerification = (false, None) ->
  exists resp w' vr created,
    SignupResolver ctx params w = ((Some resp, None), w')
    /\ model.Message resp = MsgVerificationSent
    /\ model.AccessToken resp = None
    /\ model.RefreshToken resp = None
    /\ model.ExpiresIn resp = None
    /\ created = clock (S (S (ticks w)))
    /\ models.VR_Email vr = strings.ToLower (model.SI_Email params)
    /\ models.VR_Identifier vr = VerificationTypeBasicAuthSignup
    /\ models.VR_ExpiresAt vr = time.Unix (time.Add created (time.Minute * 30))
    /\ models.VR_ExpiresAt vr = time.Unix created + 30 * 60
    /\ List.filter (same_request (strings.ToLower (model.SI_Email params))
                 VerificationTypeBasicAuthSignup)
         (tbl_verification_requests (db w')) = [vr].
Proof.
  intros Hvalid Hmk Hflag.
  assert (Hevd : flag_or_true EnvKeyDisableEmailVerification = false)
    by (unfold flag_or_true; now rewrite Hflag).
  destruct (signup_succeeds ctx gc params inputRoles w Hvalid Hmk)
    as (w' & Hrun & _ & Hvr).
  unfold signup_response in Hrun. rewrite Hevd in Hrun, Hvr.
  exists (verification_response (AsAPIUser (signup_row params inputRoles w))), w',
    (signup_verification gc params w), (clock (S (S (ticks w)))).
  repeat split; try reflexivity; try exact Hrun.
  - apply thirty_minutes_later.
  - rewrite Hvr. apply filter_superseded.
    unfold same_request. cbn. now rewrite !String.eqb_refl.
Qed.

Lemma verification_enabled_files_one_request_witness :
  exists resp w' vr created,
    @SignupResolver (Demo.run false false false 0) tt Demo.scenario_input
      (Demo.world_of Demo.empty_db) = ((Some resp, None), w')
    /\ model.Message resp = MsgVerificationSent
    /\ model.AccessToken resp = None
    /\ model.RefreshToken resp = None
    /\ model.ExpiresIn resp = None
    /\ created = 1700000000 * time.Second + 2
    /\ models.VR_Email vr = "a@b.com"
    /\ models.VR_Identifier vr = "basic_auth_signup"
    /\ models.VR_ExpiresAt vr = time.Unix (time.Add created (time.Minute * 30))
    /\ models.VR_ExpiresAt vr = time.Unix created + 30 * 60
    /\ List.filter (same_request "a@b.com" "basic_auth_signup")
         (tbl_verification_requests (db w')) = [vr].
Proof.
  apply (@verification_enabled_files_one_request (Demo.run false false false 0)
           tt tt Demo.scenario_input ["user"] (Demo.world_of Demo.empty_db)).
  - repeat split; try reflexivity. left. split; [reflexivity|].
    exists "user". split; reflexivity.
  - repeat split.
  - reflexivity.
Defined.

(** C6.  Verification disabled.  For a valid signup whose verification flag
    reads as disabled, with the makers succeeding and minting non-empty
    tokens, [SignupResolver] returns a response that carries the access
    token minted for the stored user, which is not empty, and an ExpiresIn
    equal to [max 1 (ExpiresAt - now)], the subtraction being that of
    [int64] and [now] the clock read after the token was made; the value is
    at least 1 whatever the two instants are, and when the difference fits
    in an [int64] it is the mathematical [max 1 (ExpiresAt - now)].  The
    older resolver does the same with its own token maker. *)
Theorem expires_in_is_at_least_one `{Collaborators}
    (ctx : context_Context) (gc : GinContext) (params : model.SignUpInput)
    (inputRoles : list string) (w : World) :
  (valid_signup ctx gc params inputRoles w ->
   makers_succeed ->
   (forall gc u r s m n, JT_Token (AccessToken (fst (CreateAuthToken gc u r s m n))) <> "") ->
   flag_or_true EnvKeyDisableEmailVerification = true ->
   exists resp w' authToken now accessToken expiresIn,
     SignupResolver ctx params w = ((Some resp, None), w')
     /\ authToken = signup_token gc params inputRoles w
     /\ now = time.Unix (clock (S (S (S (ticks w)))))
     /\ model.AccessToken resp = Some accessToken
     /\ accessToken = JT_Token (AccessToken authToken)
     /\ accessToken <> ""
     /\ model.ExpiresIn resp = Some expiresIn
     /\ expiresIn = Z.max 1 (int64_sub (JT_ExpiresAt (AccessToken authToken)) now)
     /\ 1 <= expiresIn
     /\ (in_int64 (JT_ExpiresAt (AccessToken authToken) - now) ->
         expiresIn = Z.max 1 (JT_ExpiresAt (AccessToken authToken) - now)))
  /\ (older_valid_signup ctx gc params inputRoles w ->
      older_makers_succeed ->
      (forall gc u r s n, JT_Token (AccessToken (fst (utils_CreateAuthToken gc u r s n))) <> "") ->
      envstore_GetBoolStoreEnvVariable EnvKeyDisableEmailVerification = true ->
      exists resp w' authToken now accessToken expiresIn,
        Older.SignupResolver ctx params w = ((Some resp, None), w')
        /\ authToken = older_signup_token gc params inputRoles w
        /\ now = time.Unix (clock (S (S (S (ticks w)))))
        /\ model.AccessToken resp = Some accessToken
        /\ accessToken = JT_Token (AccessToken authToken)
        /\ accessToken <> ""
        /\ model.ExpiresIn resp = Some expiresIn
        /\ expiresIn = Z.max 1 (int64_sub (JT_ExpiresAt (AccessToken authToken)) now)
        /\ 1 <= expiresIn
        /\ (in_int64 (JT_ExpiresAt (AccessToken authToken) - now) ->
            expiresIn = Z.max 1 (JT_ExpiresAt (AccessToken authToken) - now))).
Proof.
  split.
  - intros Hvalid Hmk Hne Hevd.
    destruct (signup_succeeds ctx gc params inputRoles w Hvalid Hmk) as (w' & Hrun & _).
    unfold signup_response in Hrun. rewrite Hevd in Hrun.
    do 6 eexists. split; [exact Hrun|].
    split; [reflexivity|]. split; [reflexivity|].
    cbn [login_response model.AccessToken model.ExpiresIn].
    split; [reflexivity|]. split; [reflexivity|].
    split; [apply Hne|]. split; [reflexivity|].
    split; [apply expires_in_spec|]. split; [apply expires_in_spec|].
    intros Hr. rewrite (proj1 (expires_in_spec _ _)). unfold int64_sub.
    now rewrite wrap64_in_range.
  - intros Hvalid Hmk Hne Hevd.
    destruct (older_signup_succeeds ctx gc params inputRoles w Hvalid Hmk) as (w' & Hrun & _).
    unfold older_signup_response in Hrun. rewrite Hevd in Hrun.
    do 6 eexists. split; [exact Hrun|].
    split; [reflexivity|]. split; [reflexivity|].
    cbn [model.AccessToken model.ExpiresIn].
    split; [reflexivity|]. split; [reflexivity|].
    split; [apply Hne|]. split; [reflexivity|].
    split; [apply expires_in_spec|]. split; [apply expires_in_spec|].
    intros Hr. rewrite (proj1 (expires_in_spec _ _)). unfold int64_sub.
    now rewrite wrap64_in_range.
Qed.

(** The token of the run expired a hundred seconds before it is read:
    ExpiresIn is 1. *)
Lemma expires_in_is_at_least_one_witness :
  exists resp w',
    @SignupResolver (Demo.run true false false 1699999900) tt Demo.scenario_input
      (Demo.world_of Demo.empty_db) = ((Some resp, None), w')
    /\ model.AccessToken resp = Some "access.jwt"
    /\ model.ExpiresIn resp = Some 1.
Proof.
  destruct (proj1 (@expires_in_is_at_least_one (Demo.run true false false 1699999900)
              tt tt Demo.scenario_input ["user"] (Demo.world_of Demo.empty_db)))
    as (resp & w' & authToken & now & accessToken & expiresIn & Hrun & -> & -> & Ha & -> & _ & He & -> & _).
  - repeat split; try reflexivity. left. split; [reflexivity|].
    exists "user". split; reflexivity.
  - repeat split.
  - intros. cbn. discriminate.
  - reflexivity.
  - exists resp, w'. split; [exact Hrun|]. split; [exact Ha|exact He].
Defined.

Section StoredRow.
Context `{Collaborators}.

(** [AddUser] assigns the ID, the roles and the two stamps, nothing else. *)
Lemma AddUser_row_keeps (user : models.User) (n t : nat) :
  models.Email (AddUser_row user n t) = models.Email user
  /\ models.Password (AddUser_row user n t) = models.Password user
  /\ models.EmailVerifiedAt (AddUser_row user n t) = models.EmailVerifiedAt user
  /\ models.ID (AddUser_row user n t)
     = (if String.eqb (models.ID user) "" then uuid_New n else models.ID user).
Proof.
  unfold AddUser_row.
  destruct (String.eqb (models.ID user) ""); cbn;
    match goal with |- context [String.eqb ?r ""] => destruct (String.eqb r "") end;
    cbn; tauto.
Qed.


End StoredRow.



(** ** [DeleteUser] *)

Section DeleteUserFacts.


Lemma pop_quiet (w : World) (fs : list (option error)) :
  faults (db w) = None :: fs ->
  exists w', db_call w = (None, w')
             /\ faults (db w') = fs
             /\ tbl_users (db w') = tbl_users (db w)
             /\ tbl_sessions (db w') = tbl_sessions (db w).
Proof.
  intros Hf. unfold db_call. rewrite Hf. eexists. split; [reflexivity|].
  cbn. tauto.
Qed.

Lemma scan_session_ids_quiet (rows : list models.Session) :
  forall (sessionIDs : string) (ids : list string) (w : World) (fs : list (option error)),
    faults (db w) = repeat None (length rows) ++ fs ->
    exists text w',
      scan_session_ids rows sessionIDs ids w
      = (((text, ids ++ map models.S_ID rows), None), w')
      /\ faults (db w') = fs
      /\ tbl_users (db w') = tbl_users (db w)
      /\ tbl_sessions (db w') = tbl_sessions (db w).
Proof.
  induction rows as [|r rows IH]; intros sessionIDs ids w fs Hf; cbn in *.
  - exists sessionIDs, w. rewrite app_nil_r. unfold ret. tauto.
  - destruct (pop_quiet w _ Hf) as (w1 & Hcall & Hf1 & Hu1 & Hs1).
    unfold bind. rewrite Hcall.
    destruct (IH (sessionIDs +:+ "'" +:+ models.S_ID r +:+ "',") (ids ++ [models.S_ID r]) w1 fs Hf1)
      as (text & w' & Hrun & Hf' & Hu' & Hs').
    exists text, w'. rewrite Hrun, <- app_assoc. cbn.
    rewrite Hu', Hs', Hu1, Hs1. tauto.
Qed.

Lemma scan_session_ids_unfailing (rows : list models.Session) :
  forall (sessionIDs : string) (ids : list string) (w : World),
    faults (db w) = [] ->
    exists text,
      scan_session_ids rows sessionIDs ids w
      = (((text, ids ++ map models.S_ID rows), None), w).
Proof.
  induction rows as [|r rows IH]; intros sessionIDs ids w Hf; cbn.
  - exists sessionIDs. now rewrite app_nil_r.
  - unfold bind. rewrite (db_call_quiet _ Hf).
    destruct (IH (sessionIDs +:+ "'" +:+ models.S_ID r +:+ "',") (ids ++ [models.S_ID r]) w Hf)
      as (text & Hrun).
    exists text. now rewrite Hrun, <- app_assoc.
Qed.

Lemma id_in_own (uid : string) (rows : list models.Session) (s : models.Session) :
  In s rows -> session_of uid s = true ->
  id_in (map models.S_ID (List.filter (session_of uid) rows)) s = true.
Proof.
  intros Hin Hs. unfold id_in. apply existsb_exists.
  exists (models.S_ID s). split; [|apply String.eqb_refl].
  apply in_map. apply filter_In. now split.
Qed.

End DeleteUserFacts.

(** C3, as the code has it.  [DeleteUser] deletes the user row first and
    the user's sessions after it, each step depending on the one before.
    (1) If the deletion of the user fails, the error is returned and no
    table is changed.  (2) If every call succeeds, [nil] is returned, the
    rows with the user's ID are gone, the sessions carrying the ID of one of
    the user's sessions are gone, and no session of the user is left.
    (3) If the user is deleted, the sessions are enumerated, and the
    deletion of the sessions then fails, the error is returned, the sessions
    are all still there, and the user row is already gone. *)
Theorem DeleteUser_deletes_user_then_sessions
    (user : models.User) (w : World) :
  let uid := models.ID user in
  let mine := List.filter (session_of uid) (tbl_sessions (db w)) in
  let others := List.filter (fun u => negb (same_id uid u)) (tbl_users (db w)) in
  (forall e rest,
     faults (db w) = Some e :: rest ->
     exists w', DeleteUser user w = (Some e, w')
                /\ tbl_users (db w') = tbl_users (db w)
                /\ tbl_sessions (db w') = tbl_sessions (db w))
  /\ (faults (db w) = [] ->
      exists w', DeleteUser user w = (None, w')
                 /\ tbl_users (db w') = others
                 /\ tbl_sessions (db w')
                    = List.filter (fun s => negb (id_in (map models.S_ID mine) s))
                        (tbl_sessions (db w))
                 /\ (forall s, In s (tbl_sessions (db w')) -> models.S_UserID s <> uid))
  /\ (forall e rest,
      faults (db w) = None :: None :: repeat None (length mine) ++ Some e :: rest ->
      exists w', DeleteUser user w = (Some e, w')
                 /\ tbl_users (db w') = others
                 /\ tbl_sessions (db w') = tbl_sessions (db w)).
Proof.
  cbn zeta. split; [|split].
  - intros e rest Hf. unfold DeleteUser, bind, db_call. rewrite Hf.
    eexists. split; [reflexivity|]. cbn. tauto.
  - intros Hf. unfold DeleteUser.
    cbv beta iota zeta delta [bind ret modify_db get_db].
    rewrite (db_call_quiet _ Hf).
    match goal with |- context [db_call ?w1] =>
      assert (Hf1 : faults (db w1) = []) by exact Hf;
      rewrite (db_call_quiet w1 Hf1)
    end.
    cbn [db with_db with_users tbl_sessions].
    match goal with |- context [scan_session_ids ?rows "" [] ?w1] =>
      destruct (scan_session_ids_unfailing rows "" [] w1 Hf1) as (text & ->)
    end.
    rewrite (db_call_quiet _ Hf1).
    eexists. split; [reflexivity|]. cbn. split; [reflexivity|]. split; [reflexivity|].
    intros s Hin Huid. apply filter_In in Hin as [Hin Hnot].
    change (negb (id_in (map models.S_ID
              (List.filter (session_of (models.ID user)) (tbl_sessions (db w)))) s) = true) in Hnot.
    rewrite (id_in_own (models.ID user) _ s Hin) in Hnot; [discriminate|].
    unfold session_of. rewrite Huid. apply String.eqb_refl.
  - intros e rest Hf. unfold DeleteUser.
    cbv beta iota zeta delta [bind ret modify_db get_db].
    destruct (pop_quiet w _ Hf) as (w1 & -> & Hf1 & Hu1 & Hs1).
    match goal with |- context [db_call ?w2] =>
      assert (Hf2 : faults (db w2)
                    = None :: repeat None (length (List.filter (session_of (models.ID user)) (tbl_sessions (db w)))) ++ Some e :: rest)
        by exact Hf1;
      destruct (pop_quiet w2 _ Hf2) as (w3 & -> & Hf3 & Hu3 & Hs3)
    end.
    cbn [db with_db with_users tbl_sessions tbl_users] in Hu3, Hs3.
    rewrite Hs3, Hs1.
    match goal with |- context [scan_session_ids ?rows "" [] w3] =>
      destruct (scan_session_ids_quiet rows "" [] w3 _ Hf3) as (text & w4 & -> & Hf4 & Hu4 & Hs4)
    end.
    unfold db_call. rewrite Hf4. eexists. split; [reflexivity|].
    cbn. rewrite Hu4, Hs4, Hu3, Hs3, Hu1, Hs1. tauto.
Qed.

Lemma DeleteUser_deletes_user_then_sessions_witness :
  exists w',
    DeleteUser Demo.verified_row
      Demo.failing_session_delete
    = (Some "write timeout", w')
    /\ tbl_users (db w') = []
    /\ tbl_sessions (db w') = [Demo.session_1; Demo.session_2; Demo.session_3].
Proof.
  apply (proj2 (proj2 (DeleteUser_deletes_user_then_sessions
                         Demo.verified_row
                         Demo.failing_session_delete))
           "write timeout" []).
  reflexivity.
Defined.

(** C3, as the claim has it, fails: with the deletion of the sessions
    failing, the error comes back, and the user row, there before the call,
    is gone while the user's sessions are still in their table. *)
Lemma DeleteUser_leaves_orphans_counterexample :
  fst (DeleteUser Demo.verified_row Demo.failing_session_delete) = Some "write timeout"
  /\ In Demo.verified_row (tbl_users (db Demo.failing_session_delete))
  /\ ~ In Demo.verified_row
        (tbl_users (db (snd (DeleteUser Demo.verified_row Demo.failing_session_delete))))
  /\ In Demo.session_1
       (tbl_sessions (db (snd (DeleteUser Demo.verified_row Demo.failing_session_delete))))
  /\ models.S_UserID Demo.session_1 = models.ID Demo.verified_row.
Proof.
  cbn. repeat split; auto.
Qed.

(** ** [ListUsers] *)

Section ListUsersFacts.

Context `{Collaborators}.

(** The loop keeps the rows from [offset] on. *)
Lemma scan_users_unfailing (rows : list models.User) :
  forall (offset counter : Z) (acc : list model.User) (w : World),
    faults (db w) = [] ->
    0 <= counter ->
    counter + Z.of_nat (length rows) <= max_int64 ->
    scan_users rows offset counter acc w
    = ((acc ++ map (fun r => AsAPIUser (scanned r))
                 (skipn (Z.to_nat (offset - counter)) rows), None), w).
Proof.
  induction rows as [|r rows IH]; intros offset counter acc w Hf H0 Hmax.
  - cbn. rewrite skipn_nil. cbn. now rewrite app_nil_r.
  - cbn [scan_users]. cbn [length] in Hmax.
    assert (Hc : int64_add counter 1 = counter + 1).
    { unfold int64_add. apply wrap64_in_range.
      unfold in_int64, min_int64, max_int64 in *. lia. }
    rewrite Hc.
    destruct (Z.geb_spec counter offset) as [Hge | Hlt].
    + unfold bind. rewrite (db_call_quiet _ Hf).
      rewrite IH by (try assumption; lia).
      replace (Z.to_nat (offset - counter)) with 0%nat by lia.
      replace (Z.to_nat (offset - (counter + 1))) with 0%nat by lia.
      cbn. now rewrite <- app_assoc.
    + rewrite IH by (try assumption; lia).
      replace (Z.to_nat (offset - counter)) with (S (Z.to_nat (offset - (counter + 1)))) by lia.
      reflexivity.
Qed.

End ListUsersFacts.

(** C4.  Pagination without OFFSET.  When the count and the fetch
    succeed, for a limit that is not negative and an offset whose sum with
    it does not exceed the largest [int64], [ListUsers] fetches the first
    limit+offset rows of the scan of the table, drops the first offset of
    them and returns the rest, which are at most limit, each scanned (the
    seventeen columns of the SELECT list) and projected; Total is the count
    of the table's rows, asked for by a statement of its own, and nothing is
    written.  In particular, over a table whose scan returns five rows,
    limit 2 and offset 1 give the second and the third row of the scan and
    Total 5. *)
Theorem ListUsers_emulates_offset `{Collaborators}
    (pagination : model.Pagination) (w : World) :
  faults (db w) = [] ->
  0 <= model.Limit pagination ->
  min_int64 <= model.Offset pagination ->
  model.Limit pagination + model.Offset pagination <= max_int64 ->
  let rows := scan_order (tbl_users (db w)) in
  let fetched :=
    firstn (Z.to_nat (model.Limit pagination + model.Offset pagination)) rows in
  let page := skipn (Z.to_nat (model.Offset pagination)) fetched in
  ListUsers pagination w
  = ((Some {| model.Us_Users := map (fun r => AsAPIUser (scanned r)) page;
              model.Us_Pagination :=
                model.set_Total pagination
                  (Z.of_nat (length (tbl_users (db w)))) |}, None), w)
  /\ Z.of_nat (length page) <= model.Limit pagination
  /\ (forall u1 u2 u3 u4 u5,
        rows = [u1; u2; u3; u4; u5] ->
        model.Limit pagination = 2 -> model.Offset pagination = 1 ->
        map (fun r => AsAPIUser (scanned r)) page
        = [AsAPIUser (scanned u2); AsAPIUser (scanned u3)]
        /\ Z.of_nat (length (tbl_users (db w))) = 5).
Proof.
  intros Hf Hl Ho Hsum. cbn zeta.
  assert (Hlim : int64_add (model.Limit pagination) (model.Offset pagination)
                 = model.Limit pagination + model.Offset pagination).
  { unfold int64_add. apply wrap64_in_range.
    unfold in_int64, min_int64, max_int64 in *. lia. }
  split; [|split].
  - unfold ListUsers. cbv beta iota zeta delta [bind ret get_db].
    rewrite !(db_call_quiet _ Hf), Hlim.
    rewrite scan_users_unfailing.
    + rewrite Z.sub_0_r. reflexivity.
    + exact Hf.
    + lia.
    + rewrite length_firstn. unfold max_int64 in *. lia.
  - rewrite length_skipn, length_firstn. lia.
  - intros u1 u2 u3 u4 u5 Hrows -> ->. rewrite Hrows. split; [reflexivity|].
    rewrite <- (Permutation_length (scan_order_rows (tbl_users (db w)))), Hrows.
    reflexivity.
Qed.

(** Over the table of five users, whose second row has a gender, on a
    node that scans in the order of writing: limit 2 and offset 1 give the
    second and the third row, without the gender, which is not among the
    columns scanned. *)
Lemma ListUsers_emulates_offset_witness :
  fst (@ListUsers plain_run
         {| model.Limit := 2; model.Offset := 1; model.Total := 0 |} five_users)
  = (Some {| model.Us_Users :=
               [ AsAPIUser (scanned (models.set_ID with_gender "2"));
                 AsAPIUser (scanned (Demo.numbered_user "3")) ];
             model.Us_Pagination :=
               {| model.Limit := 2; model.Offset := 1; model.Total := 5 |} |}, None)
  /\ models.Gender (models.set_ID with_gender "2") = Some "male"
  /\ model.Gender (AsAPIUser (scanned (models.set_ID with_gender "2"))) = None.
Proof.
  split; [|split; reflexivity].
  rewrite (proj1 (@ListUsers_emulates_offset plain_run
                    {| model.Limit := 2; model.Offset := 1; model.Total := 0 |}
                    five_users
                    eq_refl ltac:(cbn; lia) ltac:(vm_compute; discriminate)
                    ltac:(vm_compute; discriminate))).
  reflexivity.
Defined.

(** C4, where the claim fails.  (1) A sum that leaves [int64]: over two
    rows, the largest limit and offset 1 ask for more rows than the table
    has, so the claim's page is the second row; the sum wraps to a negative
    LIMIT and the page is empty.  (2) A negative limit: the page cannot have
    at most limit rows.  (3) A fetch that fails: the table has a row, limit 2
    and offset 0 ask for it, and the page is empty, without an error.
    (4) The order of insertion: five users are inserted one after the other,
    with the IDs 1 to 5; on a node whose tokens put the keys written last
    first, limit 2 and offset 1 give the fourth and the third of them. *)
Lemma ListUsers_outside_the_claim_counterexample :
  (1 < max_int64 + 1
   /\ skipn 1 [Demo.verified_row; Demo.oneil] = [Demo.oneil]
   /\ fst (@ListUsers plain_run
             {| model.Limit := max_int64; model.Offset := 1; model.Total := 0 |}
             (world_with [Demo.verified_row; Demo.oneil] []))
      = (Some {| model.Us_Users := [];
                 model.Us_Pagination :=
                   {| model.Limit := max_int64; model.Offset := 1; model.Total := 2 |} |},
         None))
  /\ (exists page,
        fst (@ListUsers plain_run
               {| model.Limit := -1; model.Offset := 3; model.Total := 0 |}
               five_users) = (Some page, None)
        /\ ~ Z.of_nat (length (model.Us_Users page)) <= -1)
  /\ fst (@ListUsers plain_run
            {| model.Limit := 2; model.Offset := 0; model.Total := 0 |}
            (world_with [Demo.verified_row] [None; Some "read timeout"]))
     = (Some {| model.Us_Users := [];
                model.Us_Pagination :=
                  {| model.Limit := 2; model.Offset := 0; model.Total := 1 |} |},
        None)
  /\ (map models.ID (tbl_users (db (snd (Demo.five_inserts (Demo.world_of Demo.empty_db)))))
      = ["1"; "2"; "3"; "4"; "5"]
      /\ exists page,
           fst (@ListUsers newest_first
                  {| model.Limit := 2; model.Offset := 1; model.Total := 0 |}
                  (snd (Demo.five_inserts (Demo.world_of Demo.empty_db))))
           = (Some page, None)
           /\ map model.ID (model.Us_Users page) = ["4"; "3"]
           /\ model.Total (model.Us_Pagination page) = 5).
Proof.
  split; [|split; [|split]].
  - split; [vm_compute; reflexivity|]. split; reflexivity.
  - eexists. split; [vm_compute; reflexivity|]. cbn. lia.
  - vm_compute. reflexivity.
  - split; [vm_compute; reflexivity|].
    eexists. split; [vm_compute; reflexivity|]. split; reflexivity.
Qed.

(** ** Strings and the lexer *)

(** The proofs below compute with [append]. *)
#[local] Arguments String.append !s1 s2 : simpl nomatch.

Lemma append_nil_r (s : string) : s +:+ "" = s.
Proof. induction s as [|c s IH]; cbn; [reflexivity | now rewrite IH]. Qed.

Lemma append_assoc (a b c : string) : (a +:+ b) +:+ c = a +:+ (b +:+ c).
Proof. induction a as [|x a IH]; cbn; [reflexivity | now rewrite IH]. Qed.

Lemma drop_last_snoc (s : string) (c : ascii) :
  strings.drop_last (s +:+ String c "") = s.
Proof.
  induction s as [|x s IH]; cbn; [reflexivity|].
  rewrite IH. destruct s; reflexivity.
Qed.

Lemma rev_string_acc (s acc : string) :
  strings.rev_string acc s = strings.rev_string "" s +:+ acc.
Proof.
  revert acc. induction s as [|c s IH]; intros acc; cbn; [reflexivity|].
  rewrite (IH (String c acc)), (IH (String c "")), append_assoc. reflexivity.
Qed.

Lemma rev_string_app (a b : string) :
  strings.rev_string "" (a +:+ b)
  = strings.rev_string "" b +:+ strings.rev_string "" a.
Proof.
  induction a as [|c a IH]; cbn; [now rewrite append_nil_r|].
  rewrite (rev_string_acc (a +:+ b) (String c "")), IH,
    (rev_string_acc a (String c "")), append_assoc.
  reflexivity.
Qed.

Lemma rev_string_involutive (s : string) :
  strings.rev_string "" (strings.rev_string "" s) = s.
Proof.
  induction s as [|c s IH]; cbn; [reflexivity|].
  rewrite (rev_string_acc s (String c "")), rev_string_app, IH. reflexivity.
Qed.

Lemma TrimSuffix_snoc (s : string) (c : ascii) :
  strings.TrimSuffix (s +:+ String c "") c = s.
Proof.
  unfold strings.TrimSuffix. rewrite rev_string_app. cbn.
  rewrite Ascii.eqb_refl. apply rev_string_involutive.
Qed.

(** [Trim] leaves a text that neither starts nor ends with the byte. *)
Lemma Trim_snoc (s : string) (c d : ascii) :
  Ascii.eqb d c = false ->
  strings.trim_left c (s +:+ String d "") = s +:+ String d "" ->
  strings.Trim (s +:+ String d "") c = s +:+ String d "".
Proof.
  intros Hd Hlead. unfold strings.Trim. rewrite Hlead, rev_string_app. cbn.
  rewrite Hd. change (String d (strings.rev_string "" s))
    with (strings.rev_string "" (String d "") +:+ strings.rev_string "" s).
  rewrite <- rev_string_app. apply rev_string_involutive.
Qed.

Lemma Trim_snoc_cut (s : string) (c d : ascii) :
  Ascii.eqb d c = false ->
  strings.trim_left c (s +:+ String d "") = s +:+ String d "" ->
  strings.Trim (s +:+ String d (String c "")) c = s +:+ String d "".
Proof.
  intros Hd Hlead. unfold strings.Trim.
  assert (Hl : strings.trim_left c (s +:+ String d (String c ""))
               = s +:+ String d (String c "")).
  { destruct s as [|x s]; cbn in *; [now rewrite Hd|].
    destruct (Ascii.eqb x c) eqn:Hx; [|reflexivity].
    exfalso. clear Hd.
    assert (Hlen : (String.length (strings.trim_left c (s +:+ String d ""))
                    <= String.length (s +:+ String d ""))%nat).
    { generalize (s +:+ String d ""). intros t.
      induction t as [|y t IH]; cbn; [lia|].
      destruct (Ascii.eqb y c); cbn; lia. }
    rewrite Hlead in Hlen. cbn in Hlen. lia. }
  rewrite Hl.
  change (s +:+ String d (String c "")) with (s +:+ (String d "" +:+ String c "")).
  rewrite <- append_assoc, rev_string_app. cbn.
  rewrite Ascii.eqb_refl, rev_string_app. cbn. rewrite Hd.
  change (String d (strings.rev_string "" s))
    with (strings.rev_string "" (String d "") +:+ strings.rev_string "" s).
  rewrite <- rev_string_app. apply rev_string_involutive.
Qed.

Lemma lex_run_app (a b : string) (st : lex_mode * list token) :
  lex_run st (a +:+ b) = lex_run (lex_run st a) b.
Proof. revert st. induction a as [|c a IH]; intros st; cbn; [reflexivity | apply IH]. Qed.

Lemma quote_free_app (a b : string) :
  quote_free (a +:+ b) = quote_free a && quote_free b.
Proof.
  induction a as [|c a IH]; cbn; [reflexivity|].
  rewrite IH. now rewrite andb_assoc.
Qed.

Lemma chars_app (a b : string) : chars (a +:+ b) = chars a ++ chars b.
Proof. induction a as [|c a IH]; cbn; [reflexivity | now rewrite IH]. Qed.

Lemma lex_plain (s : string) :
  quote_free s = true -> reads_as s (chars s).
Proof.
  unfold reads_as. induction s as [|c s IH]; intros Hq acc; cbn in *.
  - now rewrite app_nil_r.
  - apply andb_true_iff in Hq as [Hc Hs].
    apply negb_true_iff in Hc. rewrite Hc, IH by exact Hs.
    now rewrite <- app_assoc.
Qed.

Lemma lex_inside (s a : string) (acc : list token) :
  quote_free s = true ->
  lex_run (InLiteral a, acc) s = (InLiteral (a +:+ s), acc).
Proof.
  revert a. induction s as [|c s IH]; intros a Hq; cbn in *.
  - now rewrite append_nil_r.
  - apply andb_true_iff in Hq as [Hc Hs].
    apply negb_true_iff in Hc. rewrite Hc, IH by exact Hs.
    now rewrite append_assoc.
Qed.

(** A quoted string with no quote inside, up to its closing quote. *)
Lemma lex_quoted (v : string) (acc : list token) :
  quote_free v = true ->
  lex_run (Outside, acc) ("'" +:+ v +:+ "'") = (QuoteSeen v, acc).
Proof.
  intros Hq. cbn. rewrite lex_run_app, lex_inside by exact Hq. reflexivity.
Qed.

(** Followed by a character that is not a quote, it is read as one
    literal. *)
Lemma lex_quoted_then (v : string) (c : ascii) :
  quote_free v = true -> Ascii.eqb c quote = false ->
  reads_as ("'" +:+ v +:+ "'" +:+ String c "") [TLit v; TChar c].
Proof.
  intros Hq Hc acc.
  rewrite <- !append_assoc, lex_run_app.
  rewrite append_assoc, lex_quoted by exact Hq. cbn. now rewrite Hc.
Qed.

Lemma reads_as_app (p1 p2 : string) (t1 t2 : list token) :
  reads_as p1 t1 -> reads_as p2 t2 -> reads_as (p1 +:+ p2) (t1 ++ t2).
Proof.
  intros H1 H2 acc. rewrite lex_run_app, H1, H2. now rewrite app_assoc.
Qed.

Lemma reads_as_lex (p : string) (toks : list token) :
  reads_as p toks -> cql_lex p = Some toks.
Proof. intros Hr. unfold cql_lex. now rewrite (Hr []). Qed.

(** ** The texts of the statements *)

Lemma AddUser_fold (visit : list (string * value)) :
  forall fields values,
    fold_left AddUser_step visit (fields, values)
    = (fields +:+ comma_ended (map column (List.filter is_present visit)),
       values +:+ comma_ended (map literal (map snd (List.filter is_present visit)))).
Proof.
  induction visit as [|[k v] visit IH]; intros fields values; cbn [fold_left].
  - cbn. now rewrite !append_nil_r.
  - destruct v as [|s|n]; cbn [AddUser_step List.filter is_present snd map comma_ended].
    + apply IH.
    + unfold column at 1. cbn [fst literal].
      destruct (String.eqb k "_id"); rewrite IH; f_equal;
        rewrite ?append_assoc; cbn; rewrite ?append_assoc; reflexivity.
    + unfold column at 1. cbn [fst literal].
      destruct (String.eqb k "_id"); rewrite IH; f_equal;
        rewrite ?append_assoc; cbn; rewrite ?append_assoc; reflexivity.
Qed.

Lemma drop_last_comma_ended (pieces : list string) :
  pieces <> [] ->
  forall pre final,
    strings.drop_last (pre +:+ comma_ended pieces) +:+ final
    = pre +:+ terminated pieces final.
Proof.
  induction pieces as [|p [|q r] IH]; intros Hne pre final; [congruence| |].
  - cbn. rewrite <- append_assoc, drop_last_snoc.
    apply append_assoc.
  - cbn [comma_ended terminated] in *.
    rewrite <- (append_assoc p ","), <- (append_assoc pre (p +:+ ",")).
    rewrite IH by discriminate.
    now rewrite !append_assoc.
Qed.

Lemma AddUser_query_text (KeySpace : string) (visit : list (string * value)) :
  List.filter is_present visit <> [] ->
  AddUser_query KeySpace visit
  = "INSERT INTO " +:+ users_table KeySpace +:+ " ("
    +:+ terminated (map column (List.filter is_present visit)) ")"
    +:+ " VALUES ("
    +:+ terminated (map literal (map snd (List.filter is_present visit))) ")"
    +:+ " IF NOT EXISTS".
Proof.
  intros Hne. unfold AddUser_query. rewrite AddUser_fold.
  rewrite !drop_last_comma_ended.
  - cbn. rewrite ?append_assoc. cbn. reflexivity.
  - intros Hm. apply Hne. destruct (List.filter is_present visit); [reflexivity | discriminate].
  - intros Hm. apply Hne. destruct (List.filter is_present visit); [reflexivity | discriminate].
Qed.

Lemma UpdateUser_fold (visit : list (string * value)) :
  forall updateFields,
    fold_left UpdateUser_step visit updateFields
    = updateFields +:+ separated (List.filter is_updated visit).
Proof.
  induction visit as [|[k v] visit IH]; intros updateFields; cbn [fold_left].
  - cbn. now rewrite append_nil_r.
  - cbn [UpdateUser_step List.filter]. unfold is_updated at 1. cbn [fst].
    destruct (String.eqb k "_id"); [apply IH|].
    destruct (String.eqb k "_key"); [apply IH|].
    cbn [negb andb separated]. rewrite IH.
    destruct v; unfold assignment, separator; cbn [fst snd literal];
      rewrite ?append_assoc; cbn; rewrite ?append_assoc; reflexivity.
Qed.

Lemma separated_assignments (kvs : list (string * value)) :
  kvs <> [] ->
  exists last, In last kvs /\ separated kvs = assignments kvs +:+ separator last.
Proof.
  induction kvs as [|kv [|kv' r] IH]; intros Hne; [congruence| |].
  - exists kv. split; [now left|]. cbn. now rewrite append_nil_r.
  - destruct IH as (last & Hin & Heq); [discriminate|].
    exists last. split; [now right|].
    cbn [separated assignments] in *. rewrite Heq.
    now rewrite !append_assoc.
Qed.

Lemma is_name_leads (k rest : string) :
  is_name k = true -> strings.trim_left " " (k +:+ rest) = k +:+ rest.
Proof.
  destruct k as [|c k]; cbn; [discriminate|].
  intros Hn. apply andb_true_iff in Hn as [Hc _].
  apply negb_true_iff in Hc. now rewrite Hc.
Qed.

Lemma assignments_lead (kvs : list (string * value)) (rest : string) :
  kvs <> [] -> Forall (fun kv => is_name (fst kv) = true) kvs ->
  strings.trim_left " " (assignments kvs +:+ rest) = assignments kvs +:+ rest.
Proof.
  intros Hne Hnames. destruct kvs as [|kv r]; [congruence|].
  inversion Hnames as [|? ? Hk _]; subst.
  assert (Hstart : exists tail, assignments (kv :: r) = fst kv +:+ tail).
  { destruct r; cbn [assignments]; unfold assignment; destruct (snd kv);
      rewrite ?append_assoc; eauto. }
  destruct Hstart as (tail & ->). rewrite append_assoc. now apply is_name_leads.
Qed.

Lemma UpdateUser_query_text (KeySpace id : string) (visit : list (string * value)) :
  List.filter is_updated visit <> [] ->
  Forall (fun kv => is_name (fst kv) = true) (List.filter is_updated visit) ->
  UpdateUser_query KeySpace id visit
  = "UPDATE " +:+ users_table KeySpace +:+ " SET "
    +:+ assignments (List.filter is_updated visit)
    +:+ " WHERE id = '" +:+ id +:+ "'".
Proof.
  intros Hne Hnames. unfold UpdateUser_query. rewrite UpdateUser_fold. cbn [append].
  destruct (separated_assignments _ Hne) as (last & _ & ->).
  assert (Htrim : strings.TrimSuffix
                    (strings.Trim (assignments (List.filter is_updated visit) +:+ separator last) " ") ","
                  = assignments (List.filter is_updated visit)).
  { unfold separator. destruct (snd last).
    - rewrite Trim_snoc; [apply TrimSuffix_snoc | reflexivity |].
      now apply assignments_lead.
    - rewrite Trim_snoc_cut; [apply TrimSuffix_snoc | reflexivity |].
      now apply assignments_lead.
    - rewrite Trim_snoc_cut; [apply TrimSuffix_snoc | reflexivity |].
      now apply assignments_lead. }
  rewrite Htrim. reflexivity.
Qed.

(** ** The statements as the database reads them *)

Lemma Forall_list_filter {A} (P : A -> Prop) (f : A -> bool) (l : list A) :
  Forall P l -> Forall P (List.filter f l).
Proof.
  induction 1 as [|x l Hx Hl IH]; cbn; [constructor|].
  destruct (f x); [constructor|]; assumption.
Qed.

Lemma reads_value (v : value) (c : ascii) :
  clean_value v = true -> Ascii.eqb c quote = false ->
  reads_as (literal v +:+ String c "") (literal_tokens v ++ [TChar c]).
Proof.
  intros Hv Hc. destruct v as [|s|n]; cbn [literal literal_tokens clean_value] in *.
  - apply (lex_plain (String c "")). cbn. now rewrite Hc.
  - rewrite !append_assoc. now apply lex_quoted_then.
  - change [TChar c] with (chars (String c "")).
    rewrite <- (chars_app n (String c "")). apply lex_plain.
    rewrite quote_free_app, Hv. cbn. now rewrite Hc.
Qed.

Lemma reads_values (vs : list value) (final : ascii) :
  vs <> [] -> Forall (fun v => clean_value v = true) vs ->
  Ascii.eqb final quote = false ->
  reads_as (terminated (map literal vs) (String final "")) (value_tokens vs final).
Proof.
  intros Hne Hclean Hf. induction vs as [|v [|v' r] IH]; [congruence| |].
  - cbn [map terminated value_tokens]. inversion Hclean; subst. now apply reads_value.
  - inversion Hclean as [|? ? Hv Hr]; subst.
    change (terminated (map literal (v :: v' :: r)) (String final ""))
      with (literal v +:+ "," +:+ terminated (map literal (v' :: r)) (String final "")).
    change (value_tokens (v :: v' :: r) final)
      with (literal_tokens v ++ [TChar ","%char] ++ value_tokens (v' :: r) final).
    rewrite <- append_assoc, app_assoc.
    apply reads_as_app; [now apply reads_value | apply IH; [discriminate | exact Hr]].
Qed.

Lemma quote_free_terminated (pieces : list string) (final : string) :
  Forall (fun p => quote_free p = true) pieces -> quote_free final = true ->
  quote_free (terminated pieces final) = true.
Proof.
  intros Hp Hf. induction pieces as [|p [|q r] IH]; [reflexivity| |].
  - inversion Hp; subst. cbn. rewrite quote_free_app. now apply andb_true_iff.
  - inversion Hp as [|? ? Hq Hr]; subst.
    change (terminated (p :: q :: r) final) with (p +:+ "," +:+ terminated (q :: r) final).
    rewrite !quote_free_app, Hq, (IH Hr). reflexivity.
Qed.

Lemma is_name_quote_free (k : string) : is_name k = true -> quote_free k = true.
Proof. destruct k; cbn; [discriminate|]. intros Hn. now apply andb_true_iff in Hn. Qed.

Lemma users_table_quote_free (KeySpace : string) :
  quote_free KeySpace = true -> quote_free (users_table KeySpace) = true.
Proof. intros Hk. unfold users_table. now rewrite quote_free_app, Hk. Qed.

Lemma reads_then_quoted (p v : string) (toks : list token) :
  reads_as p toks -> quote_free v = true ->
  cql_lex (p +:+ "'" +:+ v +:+ "'") = Some (toks ++ [TLit v]).
Proof.
  intros Hp Hv. unfold cql_lex. rewrite lex_run_app, Hp, lex_quoted by exact Hv.
  reflexivity.
Qed.

Lemma AddUser_query_lex (KeySpace : string) (visit : list (string * value)) :
  quote_free KeySpace = true ->
  Forall (fun kv => clean_entry kv = true) visit ->
  List.filter is_present visit <> [] ->
  cql_lex (AddUser_query KeySpace visit) = Some (AddUser_tokens KeySpace visit).
Proof.
  intros Hk Hclean Hne. rewrite AddUser_query_text by exact Hne.
  apply reads_as_lex. unfold AddUser_tokens. cbn zeta.
  set (present := List.filter is_present visit) in *.
  assert (Hpc : Forall (fun kv => clean_entry kv = true) present).
  { now apply Forall_list_filter. }
  replace ("INSERT INTO " +:+ users_table KeySpace +:+ " ("
           +:+ terminated (map column present) ")" +:+ " VALUES ("
           +:+ terminated (map literal (map snd present)) ")" +:+ " IF NOT EXISTS")
    with (("INSERT INTO " +:+ users_table KeySpace +:+ " ("
           +:+ terminated (map column present) ")" +:+ " VALUES (")
          +:+ (terminated (map literal (map snd present)) ")" +:+ " IF NOT EXISTS"))
    by (rewrite !append_assoc; reflexivity).
  apply reads_as_app; [|apply reads_as_app].
  - apply lex_plain. rewrite !quote_free_app, (users_table_quote_free _ Hk).
    rewrite quote_free_terminated; [reflexivity | | reflexivity].
    apply List.Forall_map. eapply List.Forall_impl; [|exact Hpc].
    intros kv Hkv. apply andb_true_iff in Hkv as [Hn _].
    unfold column. destruct (String.eqb (fst kv) "_id"); [reflexivity|].
    now apply is_name_quote_free.
  - apply reads_values; [| |reflexivity].
    + intros Hm. apply Hne. fold present. destruct present; [reflexivity | discriminate].
    + apply List.Forall_map. eapply List.Forall_impl; [|exact Hpc].
      intros kv Hkv. now apply andb_true_iff in Hkv as [_ Hv].
  - now apply lex_plain.
Qed.

Lemma reads_assignment (kv : string * value) (c : ascii) :
  clean_entry kv = true -> Ascii.eqb c quote = false ->
  reads_as (assignment kv +:+ String c "") (assignment_tokens kv ++ [TChar c]).
Proof.
  intros Hkv Hc. apply andb_true_iff in Hkv as [Hn Hv].
  apply is_name_quote_free in Hn.
  unfold assignment, assignment_tokens. destruct (snd kv) as [|s|n] eqn:Hs.
  - change [TChar c] with (chars (String c "")).
    rewrite <- (chars_app _ (String c "")). apply lex_plain.
    rewrite !quote_free_app, Hn. cbn. now rewrite Hc.
  - rewrite <- append_assoc, !append_assoc, <- (append_assoc (fst kv) " = "), <- app_assoc.
    apply reads_as_app.
    + apply lex_plain. now rewrite quote_free_app, Hn.
    + now apply (reads_value (VString s)).
  - rewrite <- append_assoc, !append_assoc, <- (append_assoc (fst kv) " = "), <- app_assoc.
    apply reads_as_app.
    + apply lex_plain. now rewrite quote_free_app, Hn.
    + now apply (reads_value (VNumber n)).
Qed.

Lemma reads_assignments (kvs : list (string * value)) (c : ascii) :
  kvs <> [] -> Forall (fun kv => clean_entry kv = true) kvs ->
  Ascii.eqb c quote = false ->
  reads_as (assignments kvs +:+ String c "") (assignments_tokens kvs ++ [TChar c]).
Proof.
  intros Hne Hclean Hc. induction kvs as [|kv [|kv' r] IH]; [congruence| |].
  - inversion Hclean; subst. now apply reads_assignment.
  - inversion Hclean as [|? ? Hkv Hr]; subst.
    change (assignments (kv :: kv' :: r))
      with (assignment kv +:+ separator kv +:+ assignments (kv' :: r)).
    change (assignments_tokens (kv :: kv' :: r))
      with (assignment_tokens kv ++ chars (separator kv) ++ assignments_tokens (kv' :: r)).
    assert (Hsep : exists sp, separator kv = String "," sp /\ quote_free sp = true).
    { unfold separator. destruct (snd kv); eauto. }
    destruct Hsep as (sp & -> & Hsp).
    replace ((assignment kv +:+ String "," sp +:+ assignments (kv' :: r)) +:+ String c "")
      with ((assignment kv +:+ ",") +:+ sp +:+ (assignments (kv' :: r) +:+ String c ""))
      by (rewrite !append_assoc; reflexivity).
    replace ((assignment_tokens kv ++ chars (String "," sp) ++ assignments_tokens (kv' :: r)) ++ [TChar c])
      with ((assignment_tokens kv ++ [TChar ","%char]) ++ chars sp
            ++ (assignments_tokens (kv' :: r) ++ [TChar c]))
      by (cbn [chars]; rewrite <- !app_assoc; reflexivity).
    apply reads_as_app; [now apply reads_assignment|].
    apply reads_as_app; [now apply lex_plain|].
    apply IH; [discriminate | exact Hr].
Qed.

Lemma UpdateUser_query_lex (KeySpace id : string) (visit : list (string * value)) :
  quote_free KeySpace = true -> quote_free id = true ->
  Forall (fun kv => clean_entry kv = true) visit ->
  List.filter is_updated visit <> [] ->
  cql_lex (UpdateUser_query KeySpace id visit)
  = Some (UpdateUser_tokens KeySpace id visit).
Proof.
  intros Hk Hid Hclean Hne.
  set (updated := List.filter is_updated visit) in *.
  assert (Huc : Forall (fun kv => clean_entry kv = true) updated).
  { now apply Forall_list_filter. }
  rewrite UpdateUser_query_text; fold updated; [|exact Hne|].
  - replace ("UPDATE " +:+ users_table KeySpace +:+ " SET " +:+ assignments updated
             +:+ " WHERE id = '" +:+ id +:+ "'")
      with ((("UPDATE " +:+ users_table KeySpace +:+ " SET ")
             +:+ (assignments updated +:+ " ") +:+ "WHERE id = ")
            +:+ "'" +:+ id +:+ "'")
      by (rewrite !append_assoc; reflexivity).
    unfold UpdateUser_tokens. fold updated.
    replace (chars ("UPDATE " +:+ users_table KeySpace +:+ " SET ")
             ++ assignments_tokens updated ++ chars " WHERE id = " ++ [TLit id])
      with ((chars ("UPDATE " +:+ users_table KeySpace +:+ " SET ")
             ++ (assignments_tokens updated ++ [TChar " "%char]) ++ chars "WHERE id = ")
            ++ [TLit id])
      by (cbn [chars]; rewrite <- !app_assoc; reflexivity).
    apply reads_then_quoted; [|exact Hid].
    apply reads_as_app; [|apply reads_as_app].
    + apply lex_plain. now rewrite !quote_free_app, (users_table_quote_free _ Hk).
    + now apply reads_assignments.
    + now apply lex_plain.
  - eapply List.Forall_impl; [|exact Huc].
    intros kv Hkv. now apply andb_true_iff in Hkv as [Hn _].
Qed.

Lemma GetUserByEmail_query_lex (KeySpace email : string) :
  quote_free KeySpace = true -> quote_free email = true ->
  cql_lex (GetUserByEmail_query KeySpace email)
  = Some (GetUserByEmail_tokens KeySpace email).
Proof.
  intros Hk He. apply reads_as_lex.
  unfold GetUserByEmail_query, GetUserByEmail_tokens.
  replace ("SELECT " +:+ user_columns +:+ " FROM " +:+ users_table KeySpace
           +:+ " WHERE email = '" +:+ email +:+ "' LIMIT 1 ALLOW FILTERING")
    with (("SELECT " +:+ user_columns +:+ " FROM " +:+ users_table KeySpace
           +:+ " WHERE email = ")
          +:+ ("'" +:+ email +:+ "'" +:+ " ") +:+ "LIMIT 1 ALLOW FILTERING")
    by (rewrite !append_assoc; reflexivity).
  apply reads_as_app; [|apply (reads_as_app _ _ [TLit email; TChar " "%char])].
  - apply lex_plain. now rewrite !quote_free_app, (users_table_quote_free _ Hk).
  - now apply lex_quoted_then.
  - now apply lex_plain.
Qed.

(** ** The map of a user *)

Lemma quote_free_uint (d : Decimal.uint) :
  quote_free (NilEmpty.string_of_uint d) = true.
Proof. induction d; cbn; auto. Qed.

Lemma format_int64_quote_free (z : Z) : quote_free (format_int64 z) = true.
Proof.
  unfold format_int64, NilZero.string_of_int, NilZero.string_of_uint.
  destruct (Z.to_int z) as [d|d]; destruct d; cbn; auto using quote_free_uint.
Qed.

(** The decimal text of an [int64] reads back as the same integer. *)
Lemma parse_format_int64 (z : Z) : parse_int64 (format_int64 z) = Some z.
Proof.
  unfold parse_int64, format_int64.
  rewrite NilZero.isi.
  - cbn. now rewrite DecimalZ.of_to.
  - destruct z; cbn; try discriminate.
    intros [= Hp]. now apply DecimalPos.Unsigned.to_uint_nonnil in Hp.
  - destruct z; cbn; try discriminate.
    intros [= Hp]. now apply DecimalPos.Unsigned.to_uint_nonnil in Hp.
Qed.

Lemma user_entries_NoDup (u : models.User) : NoDup (map fst (user_entries u)).
Proof.
  unfold user_entries. destruct (String.eqb (models.Key u) ""); cbn;
    apply (bool_decide_unpack _); vm_compute; exact I.
Qed.

Lemma range_of_userMap (u : models.User) (visit : list (string * value)) :
  range_of (userMap u) visit -> Permutation (user_entries u) visit.
Proof.
  unfold range_of, userMap. intros Hv. rewrite Hv.
  symmetry. apply map_to_list_to_map. apply user_entries_NoDup.
Qed.

Lemma clean_opt_string (o : option string) :
  opt_quote_free o = true -> clean_value (value_of_opt_string o) = true.
Proof. now destruct o. Qed.

Lemma clean_opt_int64 (o : option Z) : clean_value (value_of_opt_int64 o) = true.
Proof. destruct o; cbn; auto using format_int64_quote_free. Qed.

Lemma user_entries_clean (u : models.User) :
  inert_user u = true ->
  Forall (fun kv => clean_entry kv = true) (user_entries u).
Proof.
  unfold inert_user. rewrite !andb_true_iff.
  intros (((((((((((((Hkey & Hid) & He) & Hp) & Hsm) & Hg) & Hf) & Hm) & Hn) & Hge)
               & Hb) & Hph) & Hpi) & Hr).
  unfold user_entries, clean_entry.
  assert (Hrest : forall pre,
    Forall (fun kv => is_name (fst kv) && clean_value (snd kv) = true) pre ->
    Forall (fun kv => is_name (fst kv) && clean_value (snd kv) = true)
      (pre ++ [ ("_id", VString (models.ID u));
    ("email", VString (models.Email u));
    ("email_verified_at", value_of_opt_int64 (models.EmailVerifiedAt u));
    ("password", value_of_opt_string (models.Password u));
    ("signup_methods", VString (models.SignupMethods u));
    ("given_name", value_of_opt_string (models.GivenName u));
    ("family_name", value_of_opt_string (models.FamilyName u));
    ("middle_name", value_of_opt_string (models.MiddleName u));
    ("nickname", value_of_opt_string (models.Nickname u));
    ("gender", value_of_opt_string (models.Gender u));
    ("birthdate", value_of_opt_string (models.Birthdate u));
    ("phone_number", value_of_opt_string (models.PhoneNumber u));
    ("phone_number_verified_at", value_of_opt_int64 (models.PhoneNumberVerifiedAt u));
    ("picture", value_of_opt_string (models.Picture u));
    ("roles", VString (models.Roles u));
    ("revoked_timestamp", value_of_opt_int64 (models.RevokedTimestamp u));
    ("updated_at", value_of_int64 (models.UpdatedAt u));
    ("created_at", value_of_int64 (models.CreatedAt u)) ])).
  { intros pre Hpre. apply Forall_app. split; [exact Hpre|].
    repeat (constructor;
            [apply andb_true_iff; split;
             [reflexivity
             |cbn [snd clean_value value_of_int64];
              auto using clean_opt_string, clean_opt_int64, format_int64_quote_free]|]).
    constructor. }
  destruct (String.eqb (models.Key u) ""); apply Hrest; [constructor|].
  constructor; [|constructor].
  apply andb_true_iff. split; [reflexivity | exact Hkey].
Qed.

Lemma filter_nonempty {A} (f : A -> bool) (l : list A) (x : A) :
  In x l -> f x = true -> List.filter f l <> [].
Proof.
  intros Hin Hx Hnil.
  assert (Hf : In x (List.filter f l)) by (apply filter_In; now split).
  rewrite Hnil in Hf. exact Hf.
Qed.

(** What a visit of the user's map is made of. *)
Lemma visit_facts (u : models.User) (visit : list (string * value)) :
  inert_user u = true -> range_of (userMap u) visit ->
  Forall (fun kv => clean_entry kv = true) visit
  /\ List.filter is_present visit <> []
  /\ List.filter is_updated visit <> [].
Proof.
  intros Hu Hv. apply range_of_userMap in Hv.
  split; [|split].
  - eapply Permutation_Forall; [exact Hv | now apply user_entries_clean].
  - apply (filter_nonempty _ _ ("_id", VString (models.ID u))); [|reflexivity].
    eapply Permutation_in; [exact Hv|].
    unfold user_entries. apply in_or_app. right. now left.
  - apply (filter_nonempty _ _ ("email", VString (models.Email u))); [|reflexivity].
    eapply Permutation_in; [exact Hv|].
    unfold user_entries. apply in_or_app. right. right. now left.
Qed.

Lemma value_tokens_In (vs : list value) (final : ascii) (v : value) (t : token) :
  In v vs -> In t (literal_tokens v) -> In t (value_tokens vs final).
Proof.
  intros Hv Ht. induction vs as [|a [|b r] IH]; [contradiction| |].
  - destruct Hv as [->|[]]. cbn. apply in_or_app. now left.
  - change (value_tokens (a :: b :: r) final)
      with (literal_tokens a ++ [TChar ","%char] ++ value_tokens (b :: r) final).
    destruct Hv as [->|Hv].
    + apply in_or_app. now left.
    + apply in_or_app. right. apply in_or_app. right. now apply IH.
Qed.

(** ** Inert values and exact numbers *)

(** C7, as the code has it.  The three statements are built by writing
    each string value as it is between two single quotes; nothing is
    escaped and nothing is bound as a parameter.  For a keyspace name and
    values that contain no single quote, the database reads the text back
    as intended: for every visit of the user's map, the text of [AddUser]
    reads as its fixed text, the column names and, for each value, one
    literal holding exactly the string (or the digits of the number); so
    does the text of [UpdateUser]; and the text of [GetUserByEmail] reads
    as its fixed text around one literal holding exactly the email. *)
Theorem quote_free_values_are_inert
    (KeySpace : string) (u : models.User) (visit : list (string * value))
    (email : string) :
  quote_free KeySpace = true ->
  (inert_user u = true -> range_of (userMap u) visit ->
     cql_lex (AddUser_query KeySpace visit) = Some (AddUser_tokens KeySpace visit)
     /\ cql_lex (UpdateUser_query KeySpace (models.ID u) visit)
        = Some (UpdateUser_tokens KeySpace (models.ID u) visit)
     /\ (forall k s, In (k, VString s) visit ->
           In (TLit s) (AddUser_tokens KeySpace visit)))
  /\ (quote_free email = true ->
      cql_lex (GetUserByEmail_query KeySpace email)
      = Some (GetUserByEmail_tokens KeySpace email)).
Proof.
  intros Hk. split.
  - intros Hu Hv. destruct (visit_facts u visit Hu Hv) as (Hclean & Hp & Hupd).
    split; [|split].
    + now apply AddUser_query_lex.
    + apply UpdateUser_query_lex; try assumption.
      unfold inert_user in Hu. rewrite !andb_true_iff in Hu. tauto.
    + intros k s Hin. unfold AddUser_tokens. cbn zeta.
      apply in_or_app. right. apply in_or_app. left.
      apply (value_tokens_In _ _ (VString s)); [|now left].
      apply (in_map snd _ (k, VString s)). apply filter_In. now split.
  - intros He. now apply GetUserByEmail_query_lex.
Qed.

Lemma quote_free_values_are_inert_witness :
  cql_lex (GetUserByEmail_query "authorizer" "a@b.com")
  = Some (GetUserByEmail_tokens "authorizer" "a@b.com")
  /\ cql_lex (AddUser_query "authorizer" (map_to_list (userMap Demo.verified_row)))
     = Some (AddUser_tokens "authorizer" (map_to_list (userMap Demo.verified_row))).
Proof.
  destruct (quote_free_values_are_inert "authorizer" Demo.verified_row
              (map_to_list (userMap Demo.verified_row)) "a@b.com" eq_refl)
    as [Hu He].
  split.
  - apply He. reflexivity.
  - apply Hu; [reflexivity|]. unfold range_of. reflexivity.
Defined.

(** C7, as the claim has it, fails: an email with an apostrophe, which is a
    valid address, gives a text whose structure is not the one of a plain
    email (its literal is left open); an email made for it closes the
    literal and adds a condition of its own; and a given name with an
    apostrophe leaves the texts of [AddUser] and [UpdateUser] with a literal
    left open. *)
Lemma quote_in_value_alters_statement_counterexample :
  structure (GetUserByEmail_query "authorizer" "o'brien@example.com")
  <> structure (GetUserByEmail_query "authorizer" "a@b.com")
  /\ cql_lex (GetUserByEmail_query "authorizer" "x' OR email > '")
     = Some (chars ("SELECT " +:+ user_columns +:+ " FROM authorizer.authorizer_users WHERE email = ")
             ++ [TLit "x"] ++ chars " OR email > " ++ [TLit ""]
             ++ chars " LIMIT 1 ALLOW FILTERING")
  /\ range_of (userMap Demo.oneil) (user_entries Demo.oneil)
  /\ cql_lex (AddUser_query "authorizer" (user_entries Demo.oneil)) = None
  /\ cql_lex (UpdateUser_query "authorizer" "u-7" (user_entries Demo.oneil)) = None.
Proof.
  split; [vm_compute; discriminate|].
  split; [vm_compute; reflexivity|].
  split; [unfold range_of, userMap; symmetry; apply map_to_list_to_map;
          apply user_entries_NoDup|].
  split; vm_compute; reflexivity.
Qed.

Section NumbersFacts.

Lemma user_entries_names (u : models.User) :
  Forall (fun kv => is_name (fst kv) = true) (user_entries u).
Proof.
  unfold user_entries.
  destruct (String.eqb (models.Key u) ""); cbn [app];
    repeat (constructor; [reflexivity|]); constructor.
Qed.

Lemma user_entries_numbers (u : models.User) (k digits : string) :
  In (k, VNumber digits) (user_entries u) ->
  exists z, int64_field u k = Some z /\ digits = format_int64 z.
Proof.
  unfold user_entries, value_of_opt_int64, value_of_opt_string, value_of_int64.
  intros Hin. apply in_app_or in Hin as [Hin|Hin].
  - destruct (String.eqb (models.Key u) ""); [contradiction|].
    destruct Hin as [[=]|[]].
  - cbn [In] in Hin.
    repeat (destruct Hin as [Heq|Hin];
            [first [ discriminate Heq
                   | injection Heq as <- <-; eexists; split; reflexivity
                   | match type of Heq with
                     | (_, match ?o with _ => _ end) = _ =>
                         destruct o eqn:Ho; [|discriminate Heq]
                     end;
                     first [ discriminate Heq
                           | injection Heq as <- <-; unfold int64_field; cbn;
                             rewrite Ho; eexists; split; reflexivity ] ]
            |]).
    contradiction.
Qed.

Lemma user_entries_has_numbers (u : models.User) (k : string) (z : Z) :
  int64_field u k = Some z -> In (k, VNumber (format_int64 z)) (user_entries u).
Proof.
  unfold int64_field, user_entries. intros Hf. apply in_or_app. right.
  repeat match type of Hf with
         | (if String.eqb ?a ?b then _ else _) = _ =>
             destruct (String.eqb_spec a b) as [->|_]
         end; try discriminate;
    try (rewrite Hf); try (injection Hf as <-); cbn; tauto.
Qed.

End NumbersFacts.

(** C8.  Numbers keep all their digits.  For every visit of the user's
    map, an entry that holds a number is one of the five [int64] fields, and
    what it holds is the decimal text of that field, which reads back as the
    same integer, whatever its size (above 2^53 as well); every [int64] field
    that is set has its entry; and the statements of [AddUser] and
    [UpdateUser] carry the text of each value as it is in the map, the digits
    of a number among them. *)
Theorem int64_fields_keep_their_digits
    (KeySpace : string) (u : models.User) (visit : list (string * value)) :
  range_of (userMap u) visit ->
  (forall k digits,
     In (k, VNumber digits) visit ->
     exists z, int64_field u k = Some z
               /\ digits = format_int64 z
               /\ parse_int64 digits = Some z
               /\ literal (VNumber digits) = format_int64 z)
  /\ (forall k z,
      int64_field u k = Some z -> In (k, VNumber (format_int64 z)) visit)
  /\ AddUser_query KeySpace visit
     = "INSERT INTO " +:+ users_table KeySpace +:+ " ("
       +:+ terminated (map column (List.filter is_present visit)) ")"
       +:+ " VALUES ("
       +:+ terminated (map literal (map snd (List.filter is_present visit))) ")"
       +:+ " IF NOT EXISTS"
  /\ UpdateUser_query KeySpace (models.ID u) visit
     = "UPDATE " +:+ users_table KeySpace +:+ " SET "
       +:+ assignments (List.filter is_updated visit)
       +:+ " WHERE id = '" +:+ models.ID u +:+ "'".
Proof.
  intros Hv. apply range_of_userMap in Hv.
  split; [|split; [|split]].
  - intros k digits Hin.
    apply (Permutation_in _ (Permutation_sym Hv)) in Hin.
    destruct (user_entries_numbers u k digits Hin) as (z & Hz & ->).
    exists z. split; [exact Hz|]. split; [reflexivity|].
    split; [apply parse_format_int64 | reflexivity].
  - intros k z Hz. apply (Permutation_in _ Hv). now apply user_entries_has_numbers.
  - apply AddUser_query_text.
    apply (filter_nonempty _ _ ("_id", VString (models.ID u))); [|reflexivity].
    apply (Permutation_in _ Hv). unfold user_entries. apply in_or_app. right. now left.
  - apply UpdateUser_query_text.
    + apply (filter_nonempty _ _ ("email", VString (models.Email u))); [|reflexivity].
      apply (Permutation_in _ Hv). unfold user_entries. apply in_or_app. right. right. now left.
    + apply Forall_list_filter. eapply Permutation_Forall; [exact Hv|].
      apply user_entries_names.
Qed.

Lemma int64_fields_keep_their_digits_witness :
  In ("created_at", VNumber "9007199254740993") (map_to_list (userMap Demo.far_future))
  /\ parse_int64 "9007199254740993" = Some (2 ^ 53 + 1).
Proof.
  destruct (int64_fields_keep_their_digits "authorizer" Demo.far_future
              (map_to_list (userMap Demo.far_future)))
    as (Hexact & Hall & _).
  - unfold range_of. reflexivity.
  - split.
    + apply (Hall "created_at" (2 ^ 53 + 1)). reflexivity.
    + destruct (Hexact "created_at" "9007199254740993") as (z & Hz & _ & Hparse & _).
      * apply (Hall "created_at" (2 ^ 53 + 1)). reflexivity.
      * rewrite Hparse. symmetry. exact Hz.
Defined.

(** * More properties of the provider *)

Ltac run_steps :=
  cbv beta iota zeta delta
    [bind ret time_Now tick draw modify_db get_db db_call go
     cookie_SetSession SetUserSession sessionstore_SetState].

Section AddUserFacts.
Context `{Collaborators}.

(** Every way [AddUser] can end. *)
Lemma AddUser_cases (user u' : models.User) (err : option error) (w w' : World) :
  AddUser user w = ((u', err), w') ->
  tbl_sessions (db w') = tbl_sessions (db w)
  /\ tbl_verification_requests (db w') = tbl_verification_requests (db w)
  /\ cookies w' = cookies w /\ user_sessions w' = user_sessions w
  /\ session_state w' = session_state w /\ spawned w' = spawned w
  /\ match err with
     | Some _ => tbl_users (db w') = tbl_users (db w)
     | None => tbl_users (db w') = insert_if_not_exists u' (tbl_users (db w))
     end
  /\ models.ID u' = (if String.eqb (models.ID user) "" then uuid_New (draws w) else models.ID user)
  /\ (models.Roles user <> "" -> models.Roles u' = models.Roles user)
  /\ same_but_id_roles_stamps u' user.
Proof.
  unfold AddUser, same_but_id_roles_stamps. run_steps.
  destruct (String.eqb (models.ID user) "") eqn:Hid; cbn [models.Roles models.set_ID];
    destruct (String.eqb_spec (models.Roles user) "") as [Hr|Hr];
    try destruct (GetStringStoreEnvVariable EnvKeyDefaultRoles) as [dr [e|]];
    cbn [db ticks draws];
    destruct (faults (db w)) as [|[e'|] fs] eqn:Hf;
    intros [= <- <- <-]; cbn; rewrite ?Hid; repeat split; try reflexivity; try congruence.
Qed.

Lemma find_same_id_app_fresh (id : string) (rows : list models.User) (u : models.User) :
  existsb (same_id id) rows = false -> same_id id u = true ->
  find (same_id id) (rows ++ [u]) = Some u.
Proof.
  intros Hfresh Hu. induction rows as [|r rows IH]; cbn in *.
  - now rewrite Hu.
  - apply orb_false_iff in Hfresh as [Hr Hrows]. rewrite Hr. now apply IH.
Qed.

Lemma GetUserByID_found (id : string) (row : models.User) (w : World) :
  hd None (faults (db w)) = None ->
  find (same_id id) (tbl_users (db w)) = Some row ->
  fst (GetUserByID id w) = (scanned row, None).
Proof.
  intros Hcall Hfind. unfold GetUserByID. run_steps.
  destruct (faults (db w)) as [|[e|] fs]; cbn in *; try discriminate;
    now rewrite Hfind.
Qed.

Lemma GetUserByID_missing (id : string) (w : World) :
  hd None (faults (db w)) = None ->
  find (same_id id) (tbl_users (db w)) = None ->
  fst (GetUserByID id w) = (models.zero_User, Some ErrNotFound).
Proof.
  intros Hcall Hfind. unfold GetUserByID. run_steps.
  destruct (faults (db w)) as [|[e|] fs]; cbn in *; try discriminate;
    now rewrite Hfind.
Qed.

End AddUserFacts.

(** X1.  Whatever way [AddUser] ends, the user it returns is the one it was
    given but for the ID (drawn only when it was empty), the roles (kept when
    not empty) and the two stamps; the sessions and the verification
    requests are not touched, and with an error the users table is not
    changed.  When no error is returned and the strings of the returned user
    (and the keyspace name) hold no single quote, the statement spells each
    value as one literal, whatever the order the map is visited in, and the
    users table is changed by the conditional insert of the returned user. *)
Theorem AddUser_touches_id_roles_stamps `{Collaborators}
    (user u' : models.User) (err : option error) (w w' : World) :
  AddUser user w = ((u', err), w') ->
  same_but_id_roles_stamps u' user
  /\ (models.ID user <> "" -> models.ID u' = models.ID user)
  /\ (models.ID user = "" -> models.ID u' = uuid_New (draws w))
  /\ (models.Roles user <> "" -> models.Roles u' = models.Roles user)
  /\ tbl_sessions (db w') = tbl_sessions (db w)
  /\ tbl_verification_requests (db w') = tbl_verification_requests (db w)
  /\ (err <> None -> tbl_users (db w') = tbl_users (db w))
  /\ (err = None -> inert_user u' = true -> quote_free KeySpace = true ->
      tbl_users (db w') = insert_if_not_exists u' (tbl_users (db w))
      /\ forall visit, range_of (userMap u') visit ->
           cql_lex (AddUser_query KeySpace visit)
           = Some (AddUser_tokens KeySpace visit)
           /\ (forall k s, In (k, VString s) visit ->
                 In (TLit s) (AddUser_tokens KeySpace visit))).
Proof.
  intros Hrun.
  destruct (AddUser_cases _ _ _ _ _ Hrun)
    as (Hs & Hv & _ & _ & _ & _ & Hu & Hid & Hroles & Hsame).
  split; [exact Hsame|]. split; [|split; [|split; [|split; [|split; [|split]]]]].
  - intros Hne. rewrite Hid. now destruct (String.eqb_spec (models.ID user) "").
  - intros He. now rewrite Hid, He.
  - exact Hroles.
  - exact Hs.
  - exact Hv.
  - intros Herr. destruct err; [exact Hu | congruence].
  - intros -> Hinert Hks. split; [exact Hu|].
    intros visit Hvisit.
    destruct (visit_facts u' visit Hinert Hvisit) as (Hclean & Hp & _).
    split; [now apply AddUser_query_lex|].
    intros k s Hin. unfold AddUser_tokens. cbn zeta.
    apply in_or_app. right. apply in_or_app. left.
    apply (value_tokens_In _ _ (VString s)); [|now left].
    apply (in_map snd _ (k, VString s)). apply filter_In. now split.
Qed.

Lemma AddUser_touches_id_roles_stamps_witness :
  models.ID (fst (fst (@AddUser plain_run with_gender (world_with [] [])))) = "uuid-0"
  /\ tbl_users (db (snd (@AddUser plain_run with_gender (world_with [] []))))
     = [fst (fst (@AddUser plain_run with_gender (world_with [] [])))].
Proof.
  destruct (@AddUser_touches_id_roles_stamps plain_run with_gender
              (fst (fst (@AddUser plain_run with_gender (world_with [] []))))
              None
              (world_with [] [])
              (snd (@AddUser plain_run with_gender (world_with [] [])))
              eq_refl)
    as (_ & _ & Hid & _ & _ & _ & _ & Hu).
  split; [now apply Hid|].
  now apply (proj1 (Hu eq_refl eq_refl eq_refl)).
Defined.

(** X2.  Insert, then look up.  Take an [AddUser] that returned no error
    for an ID the table did not hold, of a user whose strings (and the
    keyspace name) hold no single quote, so that the statement spells each
    value as one literal.  Then [GetUserByID] with the returned ID (the call
    succeeding) returns the columns of the returned user that its SELECT
    list names: every field but the gender and the [_key], which come back
    empty whatever was stored. *)
Theorem AddUser_then_GetUserByID `{Collaborators}
    (user u' : models.User) (w w' : World) :
  AddUser user w = ((u', None), w') ->
  inert_user u' = true ->
  quote_free KeySpace = true ->
  existsb (same_id (models.ID u')) (tbl_users (db w)) = false ->
  hd None (faults (db w')) = None ->
  fst (GetUserByID (models.ID u') w') = (scanned u', None)
  /\ models.Gender (fst (fst (GetUserByID (models.ID u') w'))) = None
  /\ models.Email (fst (fst (GetUserByID (models.ID u') w'))) = models.Email user
  /\ (forall visit, range_of (userMap u') visit ->
        cql_lex (AddUser_query KeySpace visit) = Some (AddUser_tokens KeySpace visit)).
Proof.
  intros Hrun Hinert Hks Hfresh Hcall.
  destruct (AddUser_cases _ _ _ _ _ Hrun)
    as (_ & _ & _ & _ & _ & _ & Hu & _ & _ & Hsame).
  assert (Hget : fst (GetUserByID (models.ID u') w') = (scanned u', None)).
  { apply GetUserByID_found; [exact Hcall|].
    rewrite Hu. unfold insert_if_not_exists. rewrite Hfresh.
    apply find_same_id_app_fresh; [exact Hfresh|].
    unfold same_id. apply String.eqb_refl. }
  rewrite Hget. split; [reflexivity|]. split; [reflexivity|].
  split; [cbn; apply Hsame|].
  intros visit Hvisit.
  destruct (visit_facts u' visit Hinert Hvisit) as (Hclean & Hp & _).
  now apply AddUser_query_lex.
Qed.

Lemma AddUser_then_GetUserByID_witness :
  models.Gender with_gender = Some "male"
  /\ models.Gender
       (fst (fst (GetUserByID "uuid-0"
                    (snd (@AddUser plain_run with_gender (world_with [] [])))))) = None
  /\ models.Email
       (fst (fst (GetUserByID "uuid-0"
                    (snd (@AddUser plain_run with_gender (world_with [] [])))))) = "g@b.com".
Proof.
  split; [reflexivity|].
  destruct (@AddUser_then_GetUserByID plain_run with_gender
              (fst (fst (@AddUser plain_run with_gender (world_with [] []))))
              (world_with [] [])
              (snd (@AddUser plain_run with_gender (world_with [] []))))
    as (_ & Hg & He & _).
  - reflexivity.
  - reflexivity.
  - reflexivity.
  - reflexivity.
  - reflexivity.
  - split; [exact Hg | exact He].
Defined.

(** X3.  An ID that is taken.  With every call succeeding, [AddUser] of a
    user whose ID a row already has returns no error, yet the INSERT was
    conditional and the table is what it was: a lookup by that ID still
    returns the old row. *)
Theorem AddUser_taken_ID_is_silent `{Collaborators}
    (user old : models.User) (w : World) :
  faults (db w) = [] ->
  models.ID user <> "" ->
  models.Roles user <> "" ->
  find (same_id (models.ID user)) (tbl_users (db w)) = Some old ->
  exists u' w',
    AddUser user w = ((u', None), w')
    /\ models.ID u' = models.ID user
    /\ tbl_users (db w') = tbl_users (db w)
    /\ fst (GetUserByID (models.ID user) w') = (scanned old, None).
Proof.
  intros Hf Hid Hroles Hfind.
  destruct (AddUser user w) as [[u' err] w'] eqn:Hrun.
  destruct (AddUser_cases _ _ _ _ _ Hrun)
    as (_ & _ & _ & _ & _ & _ & Hu & Hid' & _ & _).
  assert (Herr : err = None /\ faults (db w') = []).
  { revert Hrun. unfold AddUser. run_steps.
    destruct (String.eqb_spec (models.ID user) "") as [|_]; [congruence|].
    destruct (String.eqb_spec (models.Roles user) "") as [|_]; [congruence|].
    cbn [db]. rewrite Hf. intros [= <- <- <-]. cbn. now split. }
  destruct Herr as [-> Hf'].
  destruct (String.eqb_spec (models.ID user) "") as [|_]; [congruence|].
  assert (Htaken : existsb (same_id (models.ID u')) (tbl_users (db w)) = true).
  { rewrite Hid'. apply existsb_exists. exists old.
    apply find_some in Hfind. exact Hfind. }
  unfold insert_if_not_exists in Hu. rewrite Htaken in Hu.
  exists u', w'. split; [reflexivity|]. split; [exact Hid'|]. split; [exact Hu|].
  apply GetUserByID_found; [now rewrite Hf' | now rewrite Hu].
Qed.

Lemma AddUser_taken_ID_is_silent_witness :
  exists u' w',
    @AddUser plain_run (models.set_Roles (models.set_ID with_gender "u-1") "admin")
      (world_with [Demo.verified_row] []) = ((u', None), w')
    /\ models.ID u' = "u-1"
    /\ tbl_users (db w') = [Demo.verified_row]
    /\ fst (GetUserByID "u-1" w') = (scanned Demo.verified_row, None).
Proof.
  apply (@AddUser_taken_ID_is_silent plain_run
           (models.set_Roles (models.set_ID with_gender "u-1") "admin")
           Demo.verified_row (world_with [Demo.verified_row] [])).
  - reflexivity.
  - discriminate.
  - discriminate.
  - reflexivity.
Defined.

(** ** [UpdateUser] and [DeleteUser] *)

Section UpdateDeleteFacts.
Context `{Collaborators}.

Lemma UpdateUser_cases (user u' : models.User) (err : option error) (w w' : World) :
  UpdateUser user w = ((u', err), w') ->
  u' = models.set_UpdatedAt user (time.Unix (clock (ticks w)))
  /\ tbl_sessions (db w') = tbl_sessions (db w)
  /\ match err with
     | Some _ => tbl_users (db w') = tbl_users (db w)
     | None => tbl_users (db w') = upsert u' (tbl_users (db w))
     end.
Proof.
  unfold UpdateUser. run_steps. cbn [db].
  destruct (faults (db w)) as [|[e|] fs]; intros [= <- <- <-]; cbn; auto.
Qed.

End UpdateDeleteFacts.

Lemma find_replaced (id : string) (u : models.User) (rows : list models.User) :
  existsb (same_id id) rows = true -> same_id id u = true ->
  exists stored,
    find (same_id id) (map (fun r => if same_id id r then updated r u else r) rows)
    = Some (updated stored u).
Proof.
  intros Hex Hu. induction rows as [|r rows IH]; cbn in *; [discriminate|].
  destruct (same_id id r) eqn:Hr; cbn.
  - exists r. unfold same_id in *. cbn. now rewrite Hu.
  - rewrite Hr. now apply IH.
Qed.

Lemma replaced_others (id : string) (u r : models.User) (rows : list models.User) :
  same_id id u = true -> same_id id r = false ->
  In r (map (fun x => if same_id id x then updated x u else x) rows) <-> In r rows.
Proof.
  intros Hu Hr. rewrite in_map_iff. split.
  - intros (x & Hx & Hin). destruct (same_id id x) eqn:Hsx.
    + subst r. unfold same_id in *. cbn in Hr. congruence.
    + now subst x.
  - intros Hin. exists r. now rewrite Hr.
Qed.

(** X4.  Update, then look up.  Take an [UpdateUser] that returned no
    error for an ID the table holds, of a user whose strings hold no single
    quote (the keyspace name neither), so that the statement spells each
    value as one literal.  Then [GetUserByID] with that ID (the call
    succeeding) returns the scanned columns of the user as given, stamped
    with the time of the update; the row keeps the [_key] it had, which the
    statement does not name; the table has as many rows as before, and the
    rows with another ID are the same. *)
Theorem UpdateUser_then_GetUserByID `{Collaborators}
    (user u' : models.User) (w w' : World) :
  UpdateUser user w = ((u', None), w') ->
  inert_user u' = true ->
  quote_free KeySpace = true ->
  existsb (same_id (models.ID user)) (tbl_users (db w)) = true ->
  hd None (faults (db w')) = None ->
  fst (GetUserByID (models.ID user) w') = (scanned u', None)
  /\ u' = models.set_UpdatedAt user (time.Unix (clock (ticks w)))
  /\ (forall visit, range_of (userMap u') visit ->
        cql_lex (UpdateUser_query KeySpace (models.ID u') visit)
        = Some (UpdateUser_tokens KeySpace (models.ID u') visit))
  /\ map models.Key (tbl_users (db w')) = map models.Key (tbl_users (db w))
  /\ length (tbl_users (db w')) = length (tbl_users (db w))
  /\ (forall r, same_id (models.ID user) r = false ->
        (In r (tbl_users (db w')) <-> In r (tbl_users (db w)))).
Proof.
  intros Hrun Hinert Hks Hex Hcall.
  destruct (UpdateUser_cases _ _ _ _ _ Hrun) as (Hu' & _ & Hu).
  assert (Hid : models.ID u' = models.ID user) by now rewrite Hu'.
  assert (Hsame : same_id (models.ID user) u' = true).
  { unfold same_id. rewrite Hid. apply String.eqb_refl. }
  unfold upsert in Hu. rewrite Hid, Hex in Hu.
  split; [|split; [exact Hu'|split; [|split; [|split]]]].
  - destruct (find_replaced (models.ID user) u' (tbl_users (db w)) Hex Hsame)
      as (stored & Hfind).
    rewrite <- Hu in Hfind.
    now rewrite (GetUserByID_found _ _ _ Hcall Hfind).
  - intros visit Hv. destruct (visit_facts u' visit Hinert Hv) as (Hclean & _ & Hupd).
    apply UpdateUser_query_lex; try assumption.
    unfold inert_user in Hinert. rewrite !andb_true_iff in Hinert. tauto.
  - rewrite Hu, map_map. apply map_ext. intros r.
    now destruct (same_id (models.ID user) r).
  - rewrite Hu. apply length_map.
  - intros r Hr. rewrite Hu. now apply replaced_others.
Qed.

Lemma UpdateUser_then_GetUserByID_witness :
  fst (GetUserByID "u-1"
         (snd (@UpdateUser plain_run
                 (models.set_Roles Demo.verified_row "admin")
                 (world_with [Demo.verified_row] []))))
  = (scanned (fst (fst (@UpdateUser plain_run
                          (models.set_Roles Demo.verified_row "admin")
                          (world_with [Demo.verified_row] [])))), None).
Proof.
  exact (proj1 (@UpdateUser_then_GetUserByID plain_run
                  (models.set_Roles Demo.verified_row "admin")
                  (fst (fst (@UpdateUser plain_run
                               (models.set_Roles Demo.verified_row "admin")
                               (world_with [Demo.verified_row] []))))
                  (world_with [Demo.verified_row] [])
                  (snd (@UpdateUser plain_run
                          (models.set_Roles Demo.verified_row "admin")
                          (world_with [Demo.verified_row] [])))
                  eq_refl eq_refl eq_refl eq_refl eq_refl)).
Defined.

Section DeleteUserMore.

Lemma DeleteUser_quiet (user : models.User) (w : World) :
  faults (db w) = [] ->
  exists w',
    DeleteUser user w = (None, w')
    /\ faults (db w') = []
    /\ tbl_users (db w')
       = List.filter (fun u => negb (same_id (models.ID user) u)) (tbl_users (db w))
    /\ tbl_sessions (db w')
       = List.filter
           (fun s => negb (id_in (map models.S_ID
                                    (List.filter (session_of (models.ID user))
                                       (tbl_sessions (db w)))) s))
           (tbl_sessions (db w)).
Proof.
  intros Hf. unfold DeleteUser.
  cbv beta iota zeta delta [bind ret modify_db get_db].
  rewrite (db_call_quiet _ Hf).
  match goal with |- context [db_call ?w1] =>
    assert (Hf1 : faults (db w1) = []) by exact Hf;
    rewrite (db_call_quiet w1 Hf1)
  end.
  cbn [db with_db with_users tbl_sessions].
  match goal with |- context [scan_session_ids ?rows "" [] ?w1] =>
    destruct (scan_session_ids_unfailing rows "" [] w1 Hf1) as (text & ->)
  end.
  rewrite (db_call_quiet _ Hf1).
  eexists. split; [reflexivity|]. cbn. auto.
Qed.

Lemma find_filtered_out (id : string) (rows : list models.User) :
  find (same_id id) (List.filter (fun u => negb (same_id id u)) rows) = None.
Proof.
  induction rows as [|r rows IH]; cbn; [reflexivity|].
  destruct (same_id id r) eqn:Hr; cbn; [exact IH | now rewrite Hr].
Qed.

Lemma find_filtered_other (id id' : string) (rows : list models.User) :
  id <> id' ->
  find (same_id id') (List.filter (fun u => negb (same_id id u)) rows)
  = find (same_id id') rows.
Proof.
  intros Hne. induction rows as [|r rows IH]; cbn; [reflexivity|].
  destruct (same_id id r) eqn:Hr; cbn.
  - assert (Hr' : same_id id' r = false).
    { unfold same_id in *. apply String.eqb_eq in Hr.
      apply String.eqb_neq. congruence. }
    now rewrite Hr'.
  - destruct (same_id id' r); [reflexivity | exact IH].
Qed.

Lemma filter_keeps_all {A} (f : A -> bool) (l : list A) :
  (forall x, f x = true) -> List.filter f l = l.
Proof.
  intros Hall. induction l as [|x l IH]; cbn; [reflexivity|].
  now rewrite Hall, IH.
Qed.

Lemma same_key_same_row {A B} (f : A -> B) (l : list A) (a b : A) :
  NoDup (map f l) -> In a l -> In b l -> f a = f b -> a = b.
Proof.
  induction l as [|x l IH]; cbn; [contradiction|].
  intros Hnd Ha Hb Hab. apply NoDup_cons in Hnd as [Hx Hnd].
  rewrite list_elem_of_In in Hx.
  destruct Ha as [->|Ha], Hb as [->|Hb]; auto.
  - exfalso. apply Hx. rewrite Hab. now apply in_map.
  - exfalso. apply Hx. rewrite <- Hab. now apply in_map.
Qed.

End DeleteUserMore.

(** X5.  The enumeration of the sessions can fail without a word.  If the
    user row is deleted and the SELECT of the sessions then fails, the loop
    over the scanner sees no row; when the last DELETE succeeds, [DeleteUser]
    returns [nil] while every session of the user is still in its table. *)
Theorem DeleteUser_swallows_enumeration_failure
    (user : models.User) (w : World) (e : error) (rest : list (option error)) :
  faults (db w) = None :: Some e :: rest ->
  hd None rest = None ->
  exists w',
    DeleteUser user w = (None, w')
    /\ tbl_users (db w')
       = List.filter (fun u => negb (same_id (models.ID user) u)) (tbl_users (db w))
    /\ tbl_sessions (db w') = tbl_sessions (db w).
Proof.
  intros Hf Hrest. unfold DeleteUser.
  cbv beta iota zeta delta [bind ret modify_db get_db db_call].
  rewrite Hf. cbn [db with_db with_users with_faults faults tbl_sessions scan_session_ids].
  cbv beta iota zeta delta [ret].
  cbn [db with_db with_users with_faults faults tbl_sessions tbl_users].
  destruct rest as [|[e'|] rest']; [|discriminate|];
    eexists; (split; [reflexivity|]); cbn; (split; [reflexivity|]);
    now apply filter_keeps_all.
Qed.

Lemma DeleteUser_swallows_enumeration_failure_witness :
  exists w',
    DeleteUser Demo.verified_row
      (Demo.world_of (Demo.sessions_db [None; Some "read timeout"])) = (None, w')
    /\ tbl_users (db w') = []
    /\ tbl_sessions (db w') = [Demo.session_1; Demo.session_2; Demo.session_3].
Proof.
  apply (DeleteUser_swallows_enumeration_failure Demo.verified_row
           (Demo.world_of (Demo.sessions_db [None; Some "read timeout"]))
           "read timeout" []).
  - reflexivity.
  - reflexivity.
Defined.

(** X6.  Delete, then look up.  After a [DeleteUser] whose calls all
    succeed, a lookup by the ID of the deleted user finds nothing, and a
    lookup by any other ID returns what it returned before. *)
Theorem DeleteUser_then_GetUserByID (user : models.User) (w : World) :
  faults (db w) = [] ->
  exists w',
    DeleteUser user w = (None, w')
    /\ fst (GetUserByID (models.ID user) w') = (models.zero_User, Some ErrNotFound)
    /\ (forall id, id <> models.ID user ->
          fst (GetUserByID id w') = fst (GetUserByID id w)).
Proof.
  intros Hf. destruct (DeleteUser_quiet user w Hf) as (w' & Hrun & Hf' & Hu & _).
  exists w'. split; [exact Hrun|]. split.
  - apply GetUserByID_missing; [now rewrite Hf'|].
    rewrite Hu. apply find_filtered_out.
  - intros id Hne. unfold GetUserByID. run_steps. rewrite Hf, Hf'. cbn.
    rewrite Hu, find_filtered_other by congruence.
    now destruct (find (same_id id) (tbl_users (db w))).
Qed.

Lemma DeleteUser_then_GetUserByID_witness :
  exists w',
    DeleteUser Demo.verified_row (Demo.world_of (Demo.sessions_db [])) = (None, w')
    /\ fst (GetUserByID "u-1" w') = (models.zero_User, Some ErrNotFound).
Proof.
  destruct (DeleteUser_then_GetUserByID Demo.verified_row
              (Demo.world_of (Demo.sessions_db [])) eq_refl)
    as (w' & Hrun & Hgone & _).
  exists w'. split; [exact Hrun | exact Hgone].
Defined.

(** X7.  Whose sessions go.  The sessions are deleted by their IDs, the
    ones found for the user.  When no two sessions of the table share an ID,
    a [DeleteUser] whose calls all succeed removes exactly the sessions of
    the user: the sessions of every other user stay, in their order. *)
Theorem DeleteUser_removes_exactly_own_sessions (user : models.User) (w : World) :
  faults (db w) = [] ->
  NoDup (map models.S_ID (tbl_sessions (db w))) ->
  exists w',
    DeleteUser user w = (None, w')
    /\ tbl_sessions (db w')
       = List.filter (fun s => negb (session_of (models.ID user) s))
           (tbl_sessions (db w)).
Proof.
  intros Hf Hnd. destruct (DeleteUser_quiet user w Hf) as (w' & Hrun & _ & _ & Hs).
  exists w'. split; [exact Hrun|]. rewrite Hs.
  apply filter_ext_in. intros s Hin. f_equal.
  destruct (session_of (models.ID user) s) eqn:Hmine.
  - now apply id_in_own.
  - destruct (id_in _ s) eqn:Hidin; [|reflexivity].
    unfold id_in in Hidin. apply existsb_exists in Hidin as (i & Hi & Heq).
    apply String.eqb_eq in Heq. subst i.
    apply in_map_iff in Hi as (s' & Hid & Hs').
    apply filter_In in Hs' as [Hin' Hmine'].
    assert (s' = s) by (eapply same_key_same_row; eauto).
    subst s'. congruence.
Qed.

Lemma DeleteUser_removes_exactly_own_sessions_witness :
  exists w',
    DeleteUser Demo.verified_row (Demo.world_of (Demo.sessions_db [])) = (None, w')
    /\ tbl_sessions (db w') = [Demo.session_3].
Proof.
  apply (DeleteUser_removes_exactly_own_sessions Demo.verified_row
           (Demo.world_of (Demo.sessions_db []))).
  - reflexivity.
  - apply (bool_decide_unpack _). vm_compute. exact I.
Defined.

(** ** The statements that carry an ID *)

Lemma sessions_table_quote_free (KeySpace : string) :
  quote_free KeySpace = true -> quote_free (sessions_table KeySpace) = true.
Proof. intros Hk. unfold sessions_table. now rewrite quote_free_app, Hk. Qed.

Lemma scan_session_ids_text (rows : list models.Session) (w : World) :
  faults (db w) = [] ->
  forall text ids,
    scan_session_ids rows text ids w
    = (((text +:+ quoted_ids (map models.S_ID rows), ids ++ map models.S_ID rows),
        None), w).
Proof.
  intros Hf. induction rows as [|r rows IH]; intros text ids.
  - cbn. unfold ret, quoted_ids. cbn. now rewrite append_nil_r, app_nil_r.
  - cbn [scan_session_ids]. unfold bind. rewrite (db_call_quiet _ Hf).
    rewrite IH. unfold quoted_ids. cbn [map comma_ended].
    rewrite <- app_assoc. cbn [app]. rewrite !append_assoc. reflexivity.
Qed.

Lemma comma_ended_split (pieces : list string) :
  pieces <> [] ->
  exists s,
    comma_ended pieces = s +:+ ","
    /\ forall final, s +:+ final = terminated pieces final.
Proof.
  induction pieces as [|p [|q r] IH]; intros Hne; [congruence| |].
  - exists p. split; [reflexivity|]. intros final. reflexivity.
  - destruct IH as (s & Hs & Hfin); [discriminate|].
    exists (p +:+ "," +:+ s). split.
    + change (comma_ended (p :: q :: r)) with (p +:+ "," +:+ comma_ended (q :: r)).
      rewrite Hs. now rewrite !append_assoc.
    + intros final.
      change (terminated (p :: q :: r) final)
        with (p +:+ "," +:+ terminated (q :: r) final).
      rewrite <- Hfin. now rewrite !append_assoc.
Qed.

Lemma deleteSessionQuery_text (KeySpace : string) (ids : list string) :
  ids <> [] ->
  deleteSessionQuery KeySpace (quoted_ids ids)
  = ("DELETE FROM " +:+ sessions_table KeySpace +:+ " WHERE id IN (")
    +:+ terminated (map literal (map VString ids)) ")".
Proof.
  intros Hne. unfold deleteSessionQuery, quoted_ids.
  destruct (comma_ended_split (map (fun id => "'" +:+ id +:+ "'") ids))
    as (s & Hs & Hfin).
  { destruct ids; [congruence | discriminate]. }
  rewrite Hs, TrimSuffix_snoc, Hfin, map_map. cbn [literal].
  now rewrite !append_assoc.
Qed.

(** X8.  The session IDs of the last DELETE.  The loop of [DeleteUser]
    writes one quoted ID per row, in the order of the scan, each followed by
    a comma, and keeps no other state.  With the last comma trimmed the text
    is the list of the IN condition: for IDs without a quote the database
    reads one literal per ID, and for a user without sessions the condition
    is the empty list [IN ()]. *)
Theorem DeleteUser_IN_list_is_the_scanned_ids
    (KeySpace : string) (rows : list models.Session) (w : World) :
  faults (db w) = [] ->
  quote_free KeySpace = true ->
  Forall (fun s => quote_free (models.S_ID s) = true) rows ->
  exists sessionIDs,
    scan_session_ids rows "" [] w = (((sessionIDs, map models.S_ID rows), None), w)
    /\ sessionIDs = quoted_ids (map models.S_ID rows)
    /\ cql_lex (deleteSessionQuery KeySpace sessionIDs)
       = Some (deleteSession_tokens KeySpace (map models.S_ID rows)).
Proof.
  intros Hf Hk Hrows. exists (quoted_ids (map models.S_ID rows)).
  split; [|split; [reflexivity|]].
  - now rewrite (scan_session_ids_text rows w Hf).
  - destruct rows as [|r rows].
    + cbn [map deleteSession_tokens]. apply reads_as_lex.
      unfold deleteSessionQuery, quoted_ids. cbn [map comma_ended].
      change (strings.TrimSuffix "" ",") with "".
      replace ("DELETE FROM " +:+ sessions_table KeySpace +:+ " WHERE id IN ("
               +:+ "" +:+ ")")
        with ("DELETE FROM " +:+ sessions_table KeySpace +:+ " WHERE id IN ()")
        by reflexivity.
      apply lex_plain. now rewrite !quote_free_app, (sessions_table_quote_free _ Hk).
    + rewrite deleteSessionQuery_text by discriminate.
      apply reads_as_lex. unfold deleteSession_tokens. cbn [map].
      apply reads_as_app.
      * apply lex_plain.
        now rewrite !quote_free_app, (sessions_table_quote_free _ Hk).
      * apply (reads_values (map VString (models.S_ID r :: map models.S_ID rows)) ")");
          [discriminate| |reflexivity].
        rewrite <- (map_cons models.S_ID). apply List.Forall_map.
        apply List.Forall_map. exact Hrows.
Qed.

Lemma DeleteUser_IN_list_is_the_scanned_ids_witness :
  exists sessionIDs,
    scan_session_ids [Demo.session_1; Demo.session_2] "" []
      (Demo.world_of (Demo.sessions_db []))
    = (((sessionIDs, ["s-1"; "s-2"]), None), Demo.world_of (Demo.sessions_db []))
    /\ sessionIDs = "'s-1','s-2',"
    /\ cql_lex (deleteSessionQuery "authorizer" sessionIDs)
       = Some (chars "DELETE FROM authorizer.authorizer_sessions WHERE id IN ("
               ++ [TLit "s-1"; TChar ","%char; TLit "s-2"; TChar ")"%char]).
Proof.
  apply (DeleteUser_IN_list_is_the_scanned_ids "authorizer"
           [Demo.session_1; Demo.session_2] (Demo.world_of (Demo.sessions_db []))).
  - reflexivity.
  - reflexivity.
  - repeat constructor.
Defined.

(** X9.  An ID without a quote is inert.  In the statement of
    [GetUserByID] and in the first two statements of [DeleteUser], an ID
    (and a keyspace name) that holds no single quote is read back by the
    database as exactly one literal holding the ID, between the fixed text
    of the statement. *)
Theorem quote_free_ID_is_inert (KeySpace id : string) :
  quote_free KeySpace = true -> quote_free id = true ->
  cql_lex (GetUserByID_query KeySpace id) = Some (GetUserByID_tokens KeySpace id)
  /\ cql_lex (DeleteUser_query KeySpace id) = Some (DeleteUser_tokens KeySpace id)
  /\ cql_lex (getSessionsQuery KeySpace id) = Some (getSessions_tokens KeySpace id).
Proof.
  intros Hk Hid. split; [|split].
  - apply reads_as_lex. unfold GetUserByID_query, GetUserByID_tokens.
    replace ("SELECT " +:+ user_columns +:+ " FROM " +:+ users_table KeySpace
             +:+ " WHERE id = '" +:+ id +:+ "' LIMIT 1")
      with (("SELECT " +:+ user_columns +:+ " FROM " +:+ users_table KeySpace
             +:+ " WHERE id = ")
            +:+ ("'" +:+ id +:+ "'" +:+ " ") +:+ "LIMIT 1")
      by (rewrite !append_assoc; reflexivity).
    apply reads_as_app; [|apply (reads_as_app _ _ [TLit id; TChar " "%char])].
    + apply lex_plain. now rewrite !quote_free_app, (users_table_quote_free _ Hk).
    + now apply lex_quoted_then.
    + now apply lex_plain.
  - unfold DeleteUser_query, DeleteUser_tokens.
    replace ("DELETE FROM " +:+ users_table KeySpace +:+ " WHERE id = '" +:+ id +:+ "'")
      with (("DELETE FROM " +:+ users_table KeySpace +:+ " WHERE id = ")
            +:+ "'" +:+ id +:+ "'")
      by (rewrite !append_assoc; reflexivity).
    apply reads_then_quoted; [|exact Hid].
    apply lex_plain. now rewrite !quote_free_app, (users_table_quote_free _ Hk).
  - apply reads_as_lex. unfold getSessionsQuery, getSessions_tokens.
    replace ("SELECT id FROM " +:+ sessions_table KeySpace +:+ " WHERE user_id = '"
             +:+ id +:+ "' ALLOW FILTERING")
      with (("SELECT id FROM " +:+ sessions_table KeySpace +:+ " WHERE user_id = ")
            +:+ ("'" +:+ id +:+ "'" +:+ " ") +:+ "ALLOW FILTERING")
      by (rewrite !append_assoc; reflexivity).
    apply reads_as_app; [|apply (reads_as_app _ _ [TLit id; TChar " "%char])].
    + apply lex_plain. now rewrite !quote_free_app, (sessions_table_quote_free _ Hk).
    + now apply lex_quoted_then.
    + now apply lex_plain.
Qed.

Lemma quote_free_ID_is_inert_witness :
  cql_lex (GetUserByID_query "authorizer" "u-1")
  = Some (GetUserByID_tokens "authorizer" "u-1")
  /\ cql_lex (DeleteUser_query "authorizer" "u-1")
     = Some (DeleteUser_tokens "authorizer" "u-1")
  /\ cql_lex (getSessionsQuery "authorizer" "u-1")
     = Some (getSessions_tokens "authorizer" "u-1").
Proof.
  apply (quote_free_ID_is_inert "authorizer" "u-1"); reflexivity.
Defined.

(** ** More of [ListUsers] *)

Lemma same_but_faults_trans (a b c : World) :
  same_but_faults a b -> same_but_faults b c -> same_but_faults a c.
Proof.
  unfold same_but_faults.
  intros (H1 & H2 & H3 & H4 & H5 & H6 & H7 & H8 & H9)
         (G1 & G2 & G3 & G4 & G5 & G6 & G7 & G8 & G9).
  repeat split; congruence.
Qed.

Lemma scan_users_any (rows : list models.User) :
  forall (offset counter : Z) (acc : list model.User) (w : World),
    same_but_faults w (snd (scan_users rows offset counter acc w))
    /\ exists more,
         fst (fst (scan_users rows offset counter acc w)) = acc ++ more
         /\ (length more <= length rows)%nat.
Proof.
  induction rows as [|r rows IH]; intros offset counter acc w.
  - cbn. split; [apply same_but_faults_refl|]. exists []. now rewrite app_nil_r.
  - cbn [scan_users]. destruct (counter >=? offset).
    + unfold bind. pose proof (db_call_same w) as Hsame.
      destruct (db_call w) as [[e|] w1]; cbn [snd] in Hsame.
      * cbn. split; [exact Hsame|]. exists []. rewrite app_nil_r. split; [easy | cbn; lia].
      * destruct (IH offset (int64_add counter 1) (acc ++ [AsAPIUser (scanned r)]) w1)
          as (Hs & more & Hm & Hlen).
        split; [eapply same_but_faults_trans; eauto|].
        exists (AsAPIUser (scanned r) :: more). rewrite Hm, <- app_assoc. cbn. split; [easy | lia].
    + destruct (IH offset (int64_add counter 1) acc w) as (Hs & more & Hm & Hlen).
      split; [exact Hs|]. exists more. split; [exact Hm | cbn; lia].
Qed.

Lemma ListUsers_quiet `{Collaborators} (pagination : model.Pagination) (w : World) :
  faults (db w) = [] ->
  0 <= model.Limit pagination ->
  0 <= model.Offset pagination ->
  model.Limit pagination + model.Offset pagination <= max_int64 ->
  ListUsers pagination w
  = ((Some {| model.Us_Users :=
                map (fun r => AsAPIUser (scanned r))
                  (skipn (Z.to_nat (model.Offset pagination))
                     (firstn (Z.to_nat (model.Limit pagination + model.Offset pagination))
                        (scan_order (tbl_users (db w)))));
              model.Us_Pagination :=
                model.set_Total pagination (Z.of_nat (length (tbl_users (db w)))) |},
      None), w).
Proof.
  intros Hf Hl Ho Hsum.
  assert (Hlim : int64_add (model.Limit pagination) (model.Offset pagination)
                 = model.Limit pagination + model.Offset pagination).
  { unfold int64_add. apply wrap64_in_range.
    unfold in_int64, min_int64, max_int64 in *. lia. }
  unfold ListUsers. cbv beta iota zeta delta [bind ret get_db].
  rewrite !(db_call_quiet _ Hf), Hlim.
  rewrite scan_users_unfailing.
  - rewrite Z.sub_0_r. reflexivity.
  - exact Hf.
  - lia.
  - rewrite length_firstn. unfold max_int64 in *. lia.
Qed.

Lemma pages_tile {A} (rows : list A) (l o : nat) :
  skipn o (firstn (l + o) rows) ++ skipn (o + l) (firstn (l + (o + l)) rows)
  = skipn o (firstn (l + l + o) rows).
Proof.
  set (R := firstn (l + l + o) rows).
  replace (firstn (l + o) rows) with (firstn (l + o) R)
    by (unfold R; rewrite firstn_firstn; f_equal; lia).
  replace (l + (o + l))%nat with (l + l + o)%nat by lia. fold R.
  rewrite <- (firstn_skipn (l + o) R) at 3.
  rewrite skipn_app. f_equal.
  replace (o + l)%nat with (l + o)%nat by lia.
  destruct (Nat.le_gt_cases (l + o) (length R)) as [Hle | Hgt].
  - rewrite length_firstn. replace (o - Nat.min (l + o) (length R))%nat with 0%nat by lia.
    reflexivity.
  - rewrite (skipn_all2 R) by lia. now rewrite skipn_nil.
Qed.

(** X10.  What [ListUsers] never does.  Whatever the outcomes of its
    calls, [ListUsers] changes no row of any table and nothing else of the
    world, and it returns either a page and no error or an error and no
    page.  A returned page carries the limit and the offset it was asked
    with, the number of rows of the table as Total, and no more users than
    the rows fetched. *)
Theorem ListUsers_only_reads `{Collaborators}
    (pagination : model.Pagination) (w : World) :
  same_but_faults w (snd (ListUsers pagination w))
  /\ match fst (ListUsers pagination w) with
     | (Some page, None) =>
         model.Us_Pagination page
         = model.set_Total pagination (Z.of_nat (length (tbl_users (db w))))
         /\ (length (model.Us_Users page) <= length (tbl_users (db w)))%nat
     | (None, Some _) => True
     | _ => False
     end.
Proof.
  unfold ListUsers. cbv beta iota zeta delta [bind ret get_db].
  pose proof (db_call_same w) as H1.
  destruct (db_call w) as [[e|] w1] eqn:E1; cbn [snd] in H1; cbn [fst snd].
  { split; [exact H1 | exact I]. }
  pose proof (db_call_same w1) as H2.
  destruct (db_call w1) as [iterErr w2] eqn:E2; cbn [snd] in H2.
  match goal with |- context [scan_users ?rows ?o ?c ?acc w2] =>
    destruct (scan_users_any rows o c acc w2) as (H3 & more & Hm & Hlen);
    destruct (scan_users rows o c acc w2) as [[res [e|]] w3] eqn:E3;
    cbn [fst snd] in *
  end.
  - split; [|exact I]. eauto using same_but_faults_trans.
  - split; [eauto using same_but_faults_trans|]. cbn.
    destruct H1 as (Hu & _). rewrite Hu. split; [reflexivity|].
    subst res. cbn in *.
    destruct iterErr; cbn in Hlen; [lia|].
    rewrite length_firstn, (Permutation_length (scan_order_rows _)), Hu in Hlen. lia.
Qed.

(** X11.  A fetch that fails is not reported.  When the count succeeds
    and the SELECT of the rows fails, the scanner has no row and its error is
    never asked for: [ListUsers] returns an empty page with the Total of the
    table and no error. *)
Theorem ListUsers_swallows_fetch_failure `{Collaborators}
    (pagination : model.Pagination) (w : World) (e : error)
    (rest : list (option error)) :
  faults (db w) = None :: Some e :: rest ->
  fst (ListUsers pagination w)
  = (Some {| model.Us_Users := [];
             model.Us_Pagination :=
               model.set_Total pagination (Z.of_nat (length (tbl_users (db w)))) |},
     None).
Proof.
  intros Hf. unfold ListUsers.
  cbv beta iota zeta delta [bind ret get_db db_call]. rewrite Hf. cbn.
  reflexivity.
Qed.

Lemma ListUsers_swallows_fetch_failure_witness :
  fst (@ListUsers plain_run
         {| model.Limit := 10; model.Offset := 0; model.Total := 0 |}
         (world_with [Demo.verified_row] [None; Some "read timeout"]))
  = (Some {| model.Us_Users := [];
             model.Us_Pagination :=
               {| model.Limit := 10; model.Offset := 0; model.Total := 1 |} |},
     None).
Proof.
  exact (@ListUsers_swallows_fetch_failure plain_run
           {| model.Limit := 10; model.Offset := 0; model.Total := 0 |}
           (world_with [Demo.verified_row] [None; Some "read timeout"])
           "read timeout" [] eq_refl).
Defined.

Lemma page_of_spec `{Collaborators} (w : World) (limit offset : Z) :
  faults (db w) = [] ->
  0 <= limit -> 0 <= offset -> limit + offset <= max_int64 ->
  page_of w limit offset
  = map (fun r => AsAPIUser (scanned r))
      (skipn (Z.to_nat offset)
         (firstn (Z.to_nat (limit + offset)) (scan_order (tbl_users (db w))))).
Proof.
  intros quiet Hl Ho Hsum. unfold page_of.
  now rewrite (ListUsers_quiet {| model.Limit := limit; model.Offset := offset;
                                  model.Total := 0 |} w quiet Hl Ho Hsum).
Qed.

(** X12.  Consecutive pages tile the table.  With every call succeeding,
    the page at [offset] followed by the page of the same limit at
    [offset + limit] is the page of twice the limit at [offset]: walking the
    table page by page yields every row once, in order. *)
Theorem ListUsers_pages_tile `{Collaborators} (w : World) (limit offset : Z) :
  faults (db w) = [] ->
  0 <= limit -> 0 <= offset ->
  limit + limit + offset <= max_int64 ->
  page_of w limit offset ++ page_of w limit (offset + limit)
  = page_of w (limit + limit) offset.
Proof.
  intros Hf Hl Ho Hsum.
  rewrite !page_of_spec by (try assumption; lia).
  rewrite <- map_app. f_equal.
  replace (Z.to_nat (limit + offset)) with (Z.to_nat limit + Z.to_nat offset)%nat by lia.
  replace (Z.to_nat (offset + limit)) with (Z.to_nat offset + Z.to_nat limit)%nat by lia.
  replace (Z.to_nat (limit + (offset + limit)))
    with (Z.to_nat limit + (Z.to_nat offset + Z.to_nat limit))%nat by lia.
  replace (Z.to_nat (limit + limit + offset))
    with (Z.to_nat limit + Z.to_nat limit + Z.to_nat offset)%nat by lia.
  apply pages_tile.
Qed.

Lemma ListUsers_pages_tile_witness :
  @page_of plain_run (snd (Demo.five_inserts (Demo.world_of Demo.empty_db))) 2 1
  ++ @page_of plain_run (snd (Demo.five_inserts (Demo.world_of Demo.empty_db))) 2 (1 + 2)
  = @page_of plain_run (snd (Demo.five_inserts (Demo.world_of Demo.empty_db))) (2 + 2) 1.
Proof.
  apply (@ListUsers_pages_tile plain_run
           (snd (Demo.five_inserts (Demo.world_of Demo.empty_db))) 2 1).
  - reflexivity.
  - lia.
  - lia.
  - vm_compute. discriminate.
Defined.

(** X13.  A sum that leaves [int64].  The LIMIT of the fetch is the
    [int64] sum of limit and offset.  When the two are not negative and
    their sum exceeds the largest [int64], the statement asks for the
    wrapped sum, a negative number; no row is fetched and [ListUsers], its
    calls succeeding, returns an empty page with the Total of the table and
    no error. *)
Theorem ListUsers_sum_overflow `{Collaborators}
    (pagination : model.Pagination) (w : World) :
  faults (db w) = [] ->
  0 <= model.Limit pagination <= max_int64 ->
  0 <= model.Offset pagination <= max_int64 ->
  max_int64 < model.Limit pagination + model.Offset pagination ->
  (forall KeySpace,
     ListUsers_query KeySpace pagination
     = "SELECT " +:+ user_columns +:+ " FROM " +:+ users_table KeySpace +:+ " LIMIT "
       +:+ format_int64 (model.Limit pagination + model.Offset pagination - 2 ^ 64))
  /\ model.Limit pagination + model.Offset pagination - 2 ^ 64 < 0
  /\ ListUsers pagination w
     = ((Some {| model.Us_Users := [];
                 model.Us_Pagination :=
                   model.set_Total pagination (Z.of_nat (length (tbl_users (db w)))) |},
         None), w).
Proof.
  intros Hf Hl Ho Hsum.
  assert (Hwrap : int64_add (model.Limit pagination) (model.Offset pagination)
                  = model.Limit pagination + model.Offset pagination - 2 ^ 64).
  { unfold int64_add, wrap64, max_int64 in *.
    replace (model.Limit pagination + model.Offset pagination + 2 ^ 63)
      with ((model.Limit pagination + model.Offset pagination - 2 ^ 63) + 1 * 2 ^ 64)
      by lia.
    rewrite Z.mod_add by lia. rewrite Z.mod_small by lia. lia. }
  split; [|split].
  - intros KeySpace. unfold ListUsers_query. now rewrite Hwrap.
  - unfold max_int64 in *. lia.
  - unfold ListUsers. cbv beta iota zeta delta [bind ret get_db].
    rewrite !(db_call_quiet _ Hf), Hwrap.
    replace (Z.to_nat (model.Limit pagination + model.Offset pagination - 2 ^ 64))
      with 0%nat by (unfold max_int64 in *; lia).
    cbn. reflexivity.
Qed.

Lemma ListUsers_sum_overflow_witness :
  fst (@ListUsers plain_run
         {| model.Limit := 9223372036854775807; model.Offset := 1;
            model.Total := 0 |}
         (world_with [Demo.verified_row] []))
  = (Some {| model.Us_Users := [];
             model.Us_Pagination :=
               {| model.Limit := 9223372036854775807; model.Offset := 1;
                  model.Total := 1 |} |}, None).
Proof.
  rewrite (proj2 (proj2 (@ListUsers_sum_overflow plain_run
             {| model.Limit := 9223372036854775807; model.Offset := 1;
                model.Total := 0 |}
             (world_with [Demo.verified_row] [])
             eq_refl
             ltac:(vm_compute; split; discriminate)
             ltac:(vm_compute; split; discriminate)
             ltac:(vm_compute; reflexivity)))).
  reflexivity.
Defined.

(** ** Every path of the resolver *)

Section AnyPath.

Context `{Collaborators}.

Lemma verification_branch_any gc params user userToReturn hostname w :
  tbl_users (db (snd (verification_branch gc params user userToReturn hostname None w)))
  = tbl_users (db w)
  /\ tbl_sessions (db (snd (verification_branch gc params user userToReturn hostname None w)))
     = tbl_sessions (db w)
  /\ answers_or_fails w (verification_branch gc params user userToReturn hostname None w).
Proof.
  unfold verification_branch, answers_or_fails, nothing_shown, AddVerificationRequest.
  run_steps.
  destruct (GenerateNonce (draws w)) as [[nonce nonceHash] [e|]]; cbn; [tauto|].
  match goal with |- context [CreateVerificationToken ?a ?b ?c ?d ?e] =>
    destruct (CreateVerificationToken a b c d e) as [tok [e'|]] end; cbn; [tauto|].
  destruct (faults (db w)) as [|[e'|] fs]; cbn; repeat split; eauto; discriminate.
Qed.

Lemma login_branch_any gc params user roles userToReturn w :
  db (snd (login_branch gc params user roles userToReturn None w)) = db w
  /\ answers_or_fails w (login_branch gc params user roles userToReturn None w).
Proof.
  unfold login_branch, answers_or_fails, nothing_shown. run_steps.
  match goal with |- context [CreateAuthToken ?a ?b ?c ?d ?e ?f] =>
    destruct (CreateAuthToken a b c d e f) as [tok [e'|]] end; cbn; [tauto|].
  destruct (RefreshToken tok); cbn; repeat split; eauto; discriminate.
Qed.

Lemma older_verification_branch_any gc params userToReturn hostname w :
  tbl_users (db (snd (Older.verification_branch gc params userToReturn hostname None w)))
  = tbl_users (db w)
  /\ tbl_sessions (db (snd (Older.verification_branch gc params userToReturn hostname None w)))
     = tbl_sessions (db w)
  /\ answers_or_fails w (Older.verification_branch gc params userToReturn hostname None w).
Proof.
  unfold Older.verification_branch, answers_or_fails, nothing_shown, AddVerificationRequest.
  run_steps.
  destruct (GenerateNonce (draws w)) as [[nonce nonceHash] [e|]]; cbn; [tauto|].
  match goal with |- context [CreateVerificationToken ?a ?b ?c ?d ?e] =>
    destruct (CreateVerificationToken a b c d e) as [tok [e'|]] end; cbn; [tauto|].
  destruct (faults (db w)) as [|[e'|] fs]; cbn; repeat split; eauto; discriminate.
Qed.

Lemma older_login_branch_any gc params user roles userToReturn w :
  db (snd (Older.login_branch gc params user roles userToReturn None w)) = db w
  /\ answers_or_fails w (Older.login_branch gc params user roles userToReturn None w).
Proof.
  unfold Older.login_branch, answers_or_fails, nothing_shown. run_steps.
  match goal with |- context [utils_CreateAuthToken ?a ?b ?c ?d ?e] =>
    destruct (utils_CreateAuthToken a b c d e) as [tok [e'|]] end; cbn; [tauto|].
  repeat split; eauto; discriminate.
Qed.

Lemma effect_after (email : string) (w w0 : World) (out : Result * World) :
  unseen w w0 -> effect email w0 out -> effect email w out.
Proof.
  unfold unseen, effect, answers_or_fails, nothing_shown, grown_by.
  intros (Hu & Hs & Hc & Hus & Hss & Hsp) (Es & Eu & Ea).
  rewrite <- Hs, <- Hu. split; [exact Es|]. split; [exact Eu|].
  destruct (fst out) as [[resp|] [e|]]; try exact Ea.
  - rewrite <- Hsp. exact Ea.
  - destruct Ea as (A1 & A2 & A3 & A4). repeat split; congruence.
Qed.

Lemma effect_early (email : string) (w : World) (e : error) :
  effect email w ((None, Some e), w).
Proof.
  unfold effect, answers_or_fails, nothing_shown, grown_by. cbn. tauto.
Qed.

Lemma stored_then (email : string) (user u' : models.User) (w w1 : World)
    (out : Result * World) :
  AddUser user w = ((u', None), w1) ->
  models.Email user = email ->
  tbl_users (db (snd out)) = tbl_users (db w1) ->
  tbl_sessions (db (snd out)) = tbl_sessions (db w1) ->
  answers_or_fails w1 out ->
  effect email w out.
Proof.
  intros Hadd Hemail Hu Hs Ha.
  destruct (AddUser_cases _ _ _ _ _ Hadd)
    as (Hs1 & _ & Hc & Hus & Hss & Hsp & Hins & _ & _ & Hsame).
  unfold effect. split; [congruence|]. split.
  - rewrite Hu, Hins. unfold insert_if_not_exists, grown_by.
    destruct (existsb _ _); [now left|]. right. exists u'. split; [reflexivity|].
    destruct Hsame as (_ & He & _). congruence.
  - unfold answers_or_fails, nothing_shown in *.
    destruct (fst out) as [[resp|] [e|]]; try exact Ha.
    + rewrite <- Hsp. exact Ha.
    + destruct Ha as (A1 & A2 & A3 & A4). repeat split; congruence.
Qed.

Lemma persist_and_branch_any gc params inputRoles w :
  effect (model.SI_Email params) w (persist_and_branch gc params inputRoles None w).
Proof.
  unfold persist_and_branch.
  destruct (flag_or_true EnvKeyDisableEmailVerification);
    cbv beta iota zeta delta [bind ret time_Now tick];
    match goal with |- context [AddUser ?u ?w0] =>
      apply (effect_after _ w w0); [unfold unseen, nothing_shown; cbn; tauto|];
      destruct (AddUser u w0) as [[u' [e|]] w1] eqn:Hadd
    end; cbn [negb].
  - destruct (AddUser_cases _ _ _ _ _ Hadd)
      as (Hs1 & _ & Hc & Hus & Hss & Hsp & Hins & _).
    unfold effect, answers_or_fails, nothing_shown, grown_by. cbn. tauto.
  - match goal with |- context [login_branch ?a ?b ?c ?d ?e None w1] =>
      destruct (login_branch_any a b c d e w1) as (Hdb & Ha) end.
    eapply stored_then; eauto; now rewrite ?Hdb.
  - destruct (AddUser_cases _ _ _ _ _ Hadd)
      as (Hs1 & _ & Hc & Hus & Hss & Hsp & Hins & _).
    unfold effect, answers_or_fails, nothing_shown, grown_by. cbn. tauto.
  - match goal with |- context [verification_branch ?a ?b ?c ?d ?e None w1] =>
      destruct (verification_branch_any a b c d e w1) as (Hu & Hs & Ha) end.
    eapply stored_then; eauto.
Qed.

Lemma older_persist_and_branch_any gc params inputRoles w :
  effect (model.SI_Email params) w (Older.persist_and_branch gc params inputRoles None w).
Proof.
  unfold Older.persist_and_branch.
  destruct (envstore_GetBoolStoreEnvVariable EnvKeyDisableEmailVerification);
    cbv beta iota zeta delta [bind ret time_Now tick];
    match goal with |- context [AddUser ?u ?w0] =>
      apply (effect_after _ w w0); [unfold unseen, nothing_shown; cbn; tauto|];
      destruct (AddUser u w0) as [[u' [e|]] w1] eqn:Hadd
    end; cbn [negb].
  - destruct (AddUser_cases _ _ _ _ _ Hadd)
      as (Hs1 & _ & Hc & Hus & Hss & Hsp & Hins & _).
    unfold effect, answers_or_fails, nothing_shown, grown_by. cbn. tauto.
  - match goal with |- context [Older.login_branch ?a ?b ?c ?d ?e None w1] =>
      destruct (older_login_branch_any a b c d e w1) as (Hdb & Ha) end.
    eapply stored_then; eauto; now rewrite ?Hdb.
  - destruct (AddUser_cases _ _ _ _ _ Hadd)
      as (Hs1 & _ & Hc & Hus & Hss & Hsp & Hins & _).
    unfold effect, answers_or_fails, nothing_shown, grown_by. cbn. tauto.
  - match goal with |- context [Older.verification_branch ?a ?b ?c ?d None w1] =>
      destruct (older_verification_branch_any a b c d w1) as (Hu & Hs & Ha) end.
    eapply stored_then; eauto.
Qed.

Lemma lookup_unseen (email : string) (w : World) :
  unseen w (snd (GetUserByEmail email w)).
Proof.
  destruct (GetUserByEmail email w) as [r w'] eqn:E.
  destruct (GetUserByEmail_spec _ _ _ _ E) as ((H1 & H2 & H3 & H4 & H5 & H6 & H7 & H8 & H9) & _).
  unfold unseen, nothing_shown. cbn. tauto.
Qed.

Lemma SignupResolver_any ctx params w :
  tbl_sessions (db (snd (SignupResolver ctx params w))) = tbl_sessions (db w)
  /\ grown_by (strings.ToLower (model.SI_Email params))
       (tbl_users (db w)) (tbl_users (db (snd (SignupResolver ctx params w))))
  /\ answers_or_fails w (SignupResolver ctx params w).
Proof.
  change (effect (strings.ToLower (model.SI_Email params)) w (SignupResolver ctx params w)).
  unfold SignupResolver.
  destruct (GinContextFromContext ctx) as [gc [e|]]; [apply effect_early|].
  destruct (flag_or_true EnvKeyDisableSignUp); [apply effect_early|].
  destruct (flag_or_true EnvKeyDisableBasicAuthentication); [apply effect_early|].
  destruct (negb (String.eqb _ _)); [apply effect_early|].
  destruct (IsValidPassword _); [apply effect_early|].
  cbv zeta.
  destruct (negb (IsValidEmail _)); [apply effect_early|].
  unfold bind at 1.
  pose proof (lookup_unseen
                (model.SI_Email (model.set_Email params (strings.ToLower (model.SI_Email params)))) w)
    as Hlook.
  destruct (GetUserByEmail _ w) as [found w0]. cbn [snd] in Hlook.
  apply (effect_after _ w w0 _ Hlook).
  destruct (negb (is_nil _)); [apply effect_early|].
  destruct (_ && _); [apply effect_early|].
  destruct (0 <? _)%nat.
  - destruct (GetStringStoreEnvVariable EnvKeyRoles) as [rs [e|]]; [apply effect_early|].
    destruct (negb (IsValidRoles _ _)); [apply effect_early|].
    apply (persist_and_branch_any gc
             (model.set_Email params (strings.ToLower (model.SI_Email params)))).
  - destruct (GetStringStoreEnvVariable EnvKeyDefaultRoles) as [rs [e|]]; [apply effect_early|].
    apply (persist_and_branch_any gc
             (model.set_Email params (strings.ToLower (model.SI_Email params)))).
Qed.

Lemma older_SignupResolver_any ctx params w :
  tbl_sessions (db (snd (Older.SignupResolver ctx params w))) = tbl_sessions (db w)
  /\ grown_by (strings.ToLower (model.SI_Email params))
       (tbl_users (db w)) (tbl_users (db (snd (Older.SignupResolver ctx params w))))
  /\ answers_or_fails w (Older.SignupResolver ctx params w).
Proof.
  change (effect (strings.ToLower (model.SI_Email params)) w
            (Older.SignupResolver ctx params w)).
  unfold Older.SignupResolver.
  destruct (GinContextFromContext ctx) as [gc [e|]]; [apply effect_early|].
  destruct (envstore_GetBoolStoreEnvVariable EnvKeyDisableSignUp); [apply effect_early|].
  destruct (envstore_GetBoolStoreEnvVariable EnvKeyDisableBasicAuthentication);
    [apply effect_early|].
  destruct (negb (String.eqb _ _)); [apply effect_early|].
  destruct (negb (utils_IsValidPassword _)); [apply effect_early|].
  cbv zeta.
  destruct (negb (IsValidEmail _)); [apply effect_early|].
  unfold bind at 1.
  pose proof (lookup_unseen
                (model.SI_Email (model.set_Email params (strings.ToLower (model.SI_Email params)))) w)
    as Hlook.
  destruct (GetUserByEmail _ w) as [found w0]. cbn [snd] in Hlook.
  apply (effect_after _ w w0 _ Hlook).
  destruct (negb (is_nil _)); [apply effect_early|].
  destruct (_ && _); [apply effect_early|].
  destruct (0 <? _)%nat.
  - destruct (negb (utils_IsValidRoles _ _)); [apply effect_early|].
    apply (older_persist_and_branch_any gc
             (model.set_Email params (strings.ToLower (model.SI_Email params)))).
  - apply (older_persist_and_branch_any gc
             (model.set_Email params (strings.ToLower (model.SI_Email params)))).
Qed.

End AnyPath.

(** X14.  A response or an error.  On every path, for every input and
    whatever the stores and the makers answer, both revisions of
    [SignupResolver] return either a response and no error or an error and
    no response.  A response carries the user and one goroutine has been
    started; with an error no cookie is set, no session is cached and no
    goroutine is started. *)
Theorem SignupResolver_answers_or_fails `{Collaborators}
    (ctx : context_Context) (params : model.SignUpInput) (w : World) :
  answers_or_fails w (SignupResolver ctx params w)
  /\ answers_or_fails w (Older.SignupResolver ctx params w).
Proof.
  split.
  - apply SignupResolver_any.
  - apply older_SignupResolver_any.
Qed.


(** X16.  A request that fails a check costs nothing.  When the request
    context is missing, a flag disables the signup (a failed read counting
    as set), the two passwords differ, the password is not valid or the
    lower-cased email is not valid, [SignupResolver] returns no response and
    the world is the one it started from: not even a call of the database
    has been made. *)
Theorem rejected_request_touches_nothing `{Collaborators}
    (ctx : context_Context) (params : model.SignUpInput) (w : World) :
  snd (GinContextFromContext ctx) <> None
  \/ flag_or_true EnvKeyDisableSignUp = true
  \/ flag_or_true EnvKeyDisableBasicAuthentication = true
  \/ model.SI_ConfirmPassword params <> model.SI_Password params
  \/ IsValidPassword (model.SI_Password params) <> None
  \/ IsValidEmail (strings.ToLower (model.SI_Email params)) = false ->
  exists e, SignupResolver ctx params w = ((None, Some e), w).
Proof.
  intros Hrej. unfold SignupResolver.
  destruct (GinContextFromContext ctx) as [gc [e|]]; [eexists; reflexivity|].
  destruct (flag_or_true EnvKeyDisableSignUp); [eexists; reflexivity|].
  destruct (flag_or_true EnvKeyDisableBasicAuthentication); [eexists; reflexivity|].
  destruct (String.eqb_spec (model.SI_ConfirmPassword params) (model.SI_Password params))
    as [Heq|Hne]; cbn [negb]; [|eexists; reflexivity].
  destruct (IsValidPassword (model.SI_Password params)); [eexists; reflexivity|].
  cbv zeta. cbn [model.SI_Email model.set_Email].
  destruct (IsValidEmail (strings.ToLower (model.SI_Email params))); cbn [negb];
    [|eexists; reflexivity].
  exfalso. cbn in Hrej. intuition congruence.
Qed.

Lemma rejected_request_touches_nothing_witness :
  exists e,
    @SignupResolver plain_run tt (model.set_Email Demo.scenario_input "no-at-sign")
      (world_with [] [Some "unreachable"])
    = ((None, Some e), world_with [] [Some "unreachable"]).
Proof.
  apply (@rejected_request_touches_nothing plain_run tt
           (model.set_Email Demo.scenario_input "no-at-sign")
           (world_with [] [Some "unreachable"])).
  right. right. right. right. right. reflexivity.
Defined.

(** ** A signup, and the one after it *)

Section Retry.

Context `{Collaborators}.

(** A request for an email that a row with an ID already has is refused
    before anything is written. *)
Lemma retry_refused ctx gc params w row :
  gates_open ctx gc -> well_formed params -> faults (db w) = [] ->
  find (fun u => String.eqb (models.Email u) (strings.ToLower (model.SI_Email params)))
       (scan_order (tbl_users (db w))) = Some row ->
  models.ID row <> "" ->
  SignupResolver ctx params w
  = ((None, Some (if is_nil (models.EmailVerifiedAt row)
                  then ErrVerificationPending (strings.ToLower (model.SI_Email params))
                  else ErrAlreadySignedUp (strings.ToLower (model.SI_Email params)))), w).
Proof.
  intros (Hgc & Hs & Hb) (Hc & Hp & He) Hf Hfind Hid.
  unfold SignupResolver. rewrite Hgc, Hs, Hb, Hc, String.eqb_refl, Hp. cbn.
  rewrite He. cbn. unfold bind at 1.
  unfold GetUserByEmail, bind, get_db, ret. rewrite (db_call_quiet _ Hf), Hfind. cbn.
  destruct (models.EmailVerifiedAt row); cbn; [reflexivity|].
  destruct (String.eqb_spec (models.ID row) ""); [contradiction|]. reflexivity.
Qed.

Lemma verification_branch_faults gc params user userToReturn hostname w :
  faults (db w) = [] ->
  faults (db (snd (verification_branch gc params user userToReturn hostname None w))) = []
  /\ (snd (fst (verification_branch gc params user userToReturn hostname None w)) <> None ->
      tbl_verification_requests
        (db (snd (verification_branch gc params user userToReturn hostname None w)))
      = tbl_verification_requests (db w)).
Proof.
  intros Hf. unfold verification_branch, AddVerificationRequest. run_steps.
  destruct (GenerateNonce (draws w)) as [[nonce nonceHash] [e|]]; cbn; [tauto|].
  match goal with |- context [CreateVerificationToken ?a ?b ?c ?d ?e] =>
    destruct (CreateVerificationToken a b c d e) as [tok [e'|]] end; cbn; [tauto|].
  rewrite Hf. cbn. split; [exact Hf | congruence].
Qed.

(** The row of a valid signup is stored whatever the makers answer. *)
Lemma valid_signup_stores ctx gc params inputRoles w :
  valid_signup ctx gc params inputRoles w ->
  existsb (same_id (uuid_New (draws w))) (tbl_users (db w)) = false ->
  tbl_users (db (snd (SignupResolver ctx params w)))
  = tbl_users (db w) ++ [signup_row params inputRoles w]
  /\ faults (db (snd (SignupResolver ctx params w))) = []
  /\ (snd (fst (SignupResolver ctx params w)) <> None ->
      tbl_verification_requests (db (snd (SignupResolver ctx params w)))
      = tbl_verification_requests (db w)).
Proof.
  intros Hvalid Hfresh.
  rewrite (valid_signup_reaches_persist _ _ _ _ _ Hvalid).
  destruct Hvalid as (_ & _ & _ & Hd & Hf & _).
  unfold signup_row, persist_and_branch.
  destruct (flag_or_true EnvKeyDisableEmailVerification) eqn:Hevd;
    cbv beta iota zeta delta [bind ret time_Now tick];
    match goal with |- context [AddUser ?u ?w0] =>
      destruct (AddUser_quiet u w0 Hd Hf) as (w1 & -> & Hu & Hs & Hv & Hf1 & Ht & Hdr & _);
      destruct (AddUser_row_keeps u (draws w0) (ticks w0)) as (_ & _ & _ & Hid)
    end;
    cbn [negb ticks draws db new_user models.ID String.eqb] in *;
    unfold insert_if_not_exists in Hu; rewrite Hid, Hfresh in Hu.
  - match goal with |- context [login_branch ?a ?b ?c ?d ?e None w1] =>
      destruct (login_branch_any a b c d e w1) as (Hdb & _)
    end.
    rewrite Hdb. split; [exact Hu|]. split; [exact Hf1|]. intros _. exact Hv.
  - match goal with |- context [verification_branch ?a ?b ?c ?d ?e None w1] =>
      destruct (verification_branch_any a b c d e w1) as (Hu2 & _);
      destruct (verification_branch_faults a b c d e w1 Hf1) as (Hf2 & Hv2)
    end.
    split; [rewrite Hu2; exact Hu|]. split; [exact Hf2|].
    intros Herr. rewrite (Hv2 Herr). exact Hv.
Qed.

Lemma signup_row_facts params inputRoles w :
  models.Email (signup_row params inputRoles w) = strings.ToLower (model.SI_Email params)
  /\ models.ID (signup_row params inputRoles w) = uuid_New (draws w)
  /\ models.EmailVerifiedAt (signup_row params inputRoles w)
     = (if flag_or_true EnvKeyDisableEmailVerification
        then Some (time.Unix (clock (ticks w))) else None).
Proof.
  unfold signup_row.
  match goal with |- context [AddUser_row ?u ?n ?t] =>
    destruct (AddUser_row_keeps u n t) as (He & _ & Hv & Hid) end.
  cbn [new_user models.ID models.Email models.EmailVerifiedAt String.eqb] in *.
  rewrite He, Hv, Hid. now destruct (flag_or_true _).
Qed.

(** After a valid signup, stored under a fresh ID that is not empty, a
    request for the same lower-cased email is refused. *)
Lemma refused_after ctx gc params inputRoles w again :
  valid_signup ctx gc params inputRoles w ->
  existsb (same_id (uuid_New (draws w))) (tbl_users (db w)) = false ->
  uuid_New (draws w) <> "" ->
  well_formed again ->
  strings.ToLower (model.SI_Email again) = strings.ToLower (model.SI_Email params) ->
  SignupResolver ctx again (snd (SignupResolver ctx params w))
  = ((None,
      Some (if flag_or_true EnvKeyDisableEmailVerification
            then ErrAlreadySignedUp (strings.ToLower (model.SI_Email params))
            else ErrVerificationPending (strings.ToLower (model.SI_Email params)))),
     snd (SignupResolver ctx params w)).
Proof.
  intros Hvalid Hfresh Hid Hagain Hsame.
  destruct (valid_signup_stores _ _ _ _ _ Hvalid Hfresh) as (Hu & Hf & _).
  destruct (signup_row_facts params inputRoles w) as (Re & Ri & Rv).
  destruct Hvalid as (Hgates & _ & _ & _ & _ & Hfree).
  rewrite (retry_refused ctx gc again _ (signup_row params inputRoles w) Hgates Hagain Hf).
  - rewrite Rv, Hsame. now destruct (flag_or_true _).
  - rewrite Hu, Hsame. apply find_scan_appended; [exact Hfree|].
    rewrite Re. apply String.eqb_refl.
  - now rewrite Ri.
Qed.

End Retry.

(** X17.  The same email twice.  After a valid signup that succeeded,
    stored under a fresh ID that is not empty, a second request whose email
    is the same up to the case of its letters is refused and writes nothing:
    with the already-signed-up error when the first signup was verified at
    once, with the verification-pending error when a verification mail was
    sent. *)
Theorem second_signup_is_refused `{Collaborators}
    (ctx : context_Context) (gc : GinContext) (params again : model.SignUpInput)
    (inputRoles : list string) (w : World) :
  valid_signup ctx gc params inputRoles w ->
  makers_succeed ->
  existsb (same_id (uuid_New (draws w))) (tbl_users (db w)) = false ->
  uuid_New (draws w) <> "" ->
  well_formed again ->
  strings.ToLower (model.SI_Email again) = strings.ToLower (model.SI_Email params) ->
  exists resp w',
    SignupResolver ctx params w = ((Some resp, None), w')
    /\ SignupResolver ctx again w'
       = ((None,
           Some (if flag_or_true EnvKeyDisableEmailVerification
                 then ErrAlreadySignedUp (strings.ToLower (model.SI_Email params))
                 else ErrVerificationPending (strings.ToLower (model.SI_Email params)))),
          w').
Proof.
  intros Hvalid Hmk Hfresh Hid Hagain Hsame.
  pose proof (refused_after ctx gc params inputRoles w again
                Hvalid Hfresh Hid Hagain Hsame) as Hretry.
  destruct (signup_succeeds ctx gc params inputRoles w Hvalid Hmk) as (w' & Hrun & _).
  rewrite Hrun in Hretry. cbn [snd] in Hretry.
  exists (signup_response gc params inputRoles w), w'. split; [exact Hrun | exact Hretry].
Qed.

Lemma second_signup_is_refused_witness :
  exists resp w',
    @SignupResolver plain_run tt Demo.scenario_input (Demo.world_of Demo.empty_db)
    = ((Some resp, None), w')
    /\ @SignupResolver plain_run tt (model.set_Email Demo.scenario_input "a@B.COM") w'
       = ((None, Some (ErrVerificationPending "a@b.com")), w').
Proof.
  apply (@second_signup_is_refused plain_run tt tt Demo.scenario_input
           (model.set_Email Demo.scenario_input "a@B.COM") ["user"]
           (Demo.world_of Demo.empty_db)).
  - repeat split; try reflexivity. left. split; [reflexivity|].
    exists "user". split; reflexivity.
  - repeat split.
  - reflexivity.
  - vm_compute. discriminate.
  - repeat split; reflexivity.
  - reflexivity.
Defined.





(** ** The roles, joined and split *)

Lemma Split_not_nil (s : string) (c : ascii) : strings.Split s c <> [].
Proof.
  induction s as [|d s IH]; cbn; [discriminate|].
  destruct (Ascii.eqb d c); [discriminate|].
  destruct (strings.Split s c); [contradiction | discriminate].
Qed.

Lemma Split_free (a : string) (c : ascii) :
  free_of c a = true -> strings.Split a c = [a].
Proof.
  induction a as [|d a IH]; cbn; [reflexivity|].
  intros Hfree. apply andb_true_iff in Hfree as [Hd Ha].
  apply negb_true_iff in Hd. now rewrite Hd, IH.
Qed.

Lemma Split_app (a b : string) (c : ascii) :
  free_of c a = true ->
  strings.Split (a +:+ String c b) c = a :: strings.Split b c.
Proof.
  induction a as [|d a IH]; cbn.
  - intros _. now rewrite Ascii.eqb_refl.
  - intros Hfree. apply andb_true_iff in Hfree as [Hd Ha].
    apply negb_true_iff in Hd. now rewrite Hd, IH.
Qed.

Lemma Split_Join (l : list string) :
  l <> [] -> Forall (fun r => free_of "," r = true) l ->
  strings.Split (strings.Join l ",") "," = l.
Proof.
  induction l as [|a [|b r] IH]; intros Hne Hfree; [congruence| |].
  - inversion Hfree; subst. cbn. now apply Split_free.
  - inversion Hfree as [|? ? Ha Hr]; subst.
    change (strings.Join (a :: b :: r) ",")
      with (a +:+ "," +:+ strings.Join (b :: r) ",").
    change ("," +:+ strings.Join (b :: r) ",")
      with (String ","%char (strings.Join (b :: r) ",")).
    rewrite Split_app by exact Ha. f_equal. now apply IH.
Qed.

Section Roles.

Context `{Collaborators}.

Lemma AddUser_row_roles (user : models.User) (n t : nat) :
  models.Roles user <> "" ->
  models.Roles (AddUser_row user n t) = models.Roles user.
Proof.
  intros Hr. unfold AddUser_row.
  destruct (String.eqb (models.ID user) ""); cbn;
    destruct (String.eqb_spec (models.Roles user) ""); cbn; congruence.
Qed.

End Roles.

(** X20.  The roles survive the round trip.  The resolver joins the
    roles with commas for the row and splits the stored text again for the
    token and for the response.  For a valid signup whose roles hold no
    comma and are not all one empty text, the stored text is the roles
    joined, and the roles handed to the maker of the token and returned with
    the user are the roles settled on, in their order. *)
Theorem roles_survive_the_round_trip `{Collaborators}
    (ctx : context_Context) (gc : GinContext) (params : model.SignUpInput)
    (inputRoles : list string) (w : World) :
  valid_signup ctx gc params inputRoles w ->
  makers_succeed ->
  Forall (fun r => free_of "," r = true) inputRoles ->
  strings.Join inputRoles "," <> "" ->
  models.Roles (signup_row params inputRoles w) = strings.Join inputRoles ","
  /\ signup_token gc params inputRoles w
     = fst (CreateAuthToken gc (signup_row params inputRoles w) inputRoles
              (scope_of params) AuthRecipeMethodBasicAuth (S (draws w)))
  /\ exists resp w',
       SignupResolver ctx params w = ((Some resp, None), w')
       /\ option_map model.Roles (model.AR_User resp) = Some inputRoles.
Proof.
  intros Hvalid Hmk Hfree Hjoin.
  assert (Hne : inputRoles <> []) by (intros ->; now apply Hjoin).
  assert (Hroles : models.Roles (signup_row params inputRoles w)
                   = strings.Join inputRoles ",").
  { unfold signup_row. now rewrite AddUser_row_roles. }
  assert (Hsplit : strings.Split (models.Roles (signup_row params inputRoles w)) ","
                   = inputRoles).
  { rewrite Hroles. now apply Split_Join. }
  split; [exact Hroles|]. split.
  - unfold signup_token. cbv zeta. now rewrite Hsplit.
  - destruct (signup_succeeds ctx gc params inputRoles w Hvalid Hmk) as (w' & Hrun & _).
    exists (signup_response gc params inputRoles w), w'. split; [exact Hrun|].
    unfold signup_response. cbv zeta.
    destruct (flag_or_true EnvKeyDisableEmailVerification);
      unfold login_response, verification_response, AsAPIUser;
      cbn [model.AR_User option_map model.Roles]; now rewrite Hsplit.
Qed.

Lemma roles_survive_the_round_trip_witness :
  exists resp w',
    @SignupResolver plain_run tt
      {| model.SI_Email := "A@B.com";
         model.SI_GivenName := None; model.SI_FamilyName := None;
         model.SI_MiddleName := None; model.SI_Nickname := None;
         model.SI_Gender := None; model.SI_Birthdate := None;
         model.SI_PhoneNumber := None; model.SI_Picture := None;
         model.SI_Password := "Abc123!@"; model.SI_ConfirmPassword := "Abc123!@";
         model.SI_Roles := ["admin"; "user"];
         model.SI_Scope := None; model.SI_RedirectURI := None |}
      (Demo.world_of Demo.empty_db)
    = ((Some resp, None), w')
    /\ option_map model.Roles (model.AR_User resp) = Some ["admin"; "user"].
Proof.
  refine (proj2 (proj2 (@roles_survive_the_round_trip plain_run tt tt
            {| model.SI_Email := "A@B.com";
               model.SI_GivenName := None; model.SI_FamilyName := None;
               model.SI_MiddleName := None; model.SI_Nickname := None;
               model.SI_Gender := None; model.SI_Birthdate := None;
               model.SI_PhoneNumber := None; model.SI_Picture := None;
               model.SI_Password := "Abc123!@"; model.SI_ConfirmPassword := "Abc123!@";
               model.SI_Roles := ["admin"; "user"];
               model.SI_Scope := None; model.SI_RedirectURI := None |}
            ["admin"; "user"] (Demo.world_of Demo.empty_db) _ _ _ _))).
  - repeat split; try reflexivity. right. split; [discriminate|].
    exists "user,admin". repeat split; reflexivity.
  - repeat split.
  - repeat constructor.
  - vm_compute. discriminate.
Defined.

(** ** The stamps of the stored row *)

Lemma Unix_monotone (a b : Z) : a <= b -> time.Unix a <= time.Unix b.
Proof.
  intros Hab. unfold time.Unix, time.Second. apply Z.div_le_mono; lia.
Qed.

(** X21.  The stamps are in order.  A valid signup with the
    verification disabled stores a row with three readings of the clock,
    taken one after the other by the resolver and by [AddUser]: when the
    clock does not run backwards between them, the stamp of the verification
    is not after that of the creation, which is not after that of the
    update. *)
Theorem stamps_are_in_order `{Collaborators}
    (ctx : context_Context) (gc : GinContext) (params : model.SignUpInput)
    (inputRoles : list string) (w : World) :
  valid_signup ctx gc params inputRoles w ->
  makers_succeed ->
  existsb (same_id (uuid_New (draws w))) (tbl_users (db w)) = false ->
  flag_or_true EnvKeyDisableEmailVerification = true ->
  clock (ticks w) <= clock (S (ticks w)) ->
  clock (S (ticks w)) <= clock (S (S (ticks w))) ->
  exists resp w' row verifiedAt,
    SignupResolver ctx params w = ((Some resp, None), w')
    /\ tbl_users (db w') = tbl_users (db w) ++ [row]
    /\ models.EmailVerifiedAt row = Some verifiedAt
    /\ verifiedAt <= models.CreatedAt row
    /\ models.CreatedAt row <= models.UpdatedAt row.
Proof.
  intros Hvalid Hmk Hfresh Hflag H1 H2.
  destruct (valid_signup_stores _ _ _ _ _ Hvalid Hfresh) as (Hu & _).
  destruct (signup_succeeds ctx gc params inputRoles w Hvalid Hmk) as (w' & Hrun & _).
  rewrite Hrun in Hu. cbn [snd] in Hu.
  exists (signup_response gc params inputRoles w), w', (signup_row params inputRoles w),
         (time.Unix (clock (ticks w))).
  split; [exact Hrun|]. split; [exact Hu|].
  unfold signup_row. rewrite Hflag.
  unfold AddUser_row. cbn [new_user models.ID String.eqb].
  match goal with |- context [String.eqb ?r ""] => destruct (String.eqb r "") end;
    cbn; auto using Unix_monotone.
Qed.

Lemma stamps_are_in_order_witness :
  exists resp w' row verifiedAt,
    @SignupResolver (Demo.run true false false 1700000900) tt Demo.scenario_input
      (Demo.world_of Demo.empty_db) = ((Some resp, None), w')
    /\ tbl_users (db w') = [row]
    /\ models.EmailVerifiedAt row = Some verifiedAt
    /\ verifiedAt <= models.CreatedAt row
    /\ models.CreatedAt row <= models.UpdatedAt row.
Proof.
  apply (@stamps_are_in_order (Demo.run true false false 1700000900) tt tt
           Demo.scenario_input ["user"] (Demo.world_of Demo.empty_db)).
  - repeat split; try reflexivity. left. split; [reflexivity|].
    exists "user". split; reflexivity.
  - repeat split.
  - reflexivity.
  - reflexivity.
  - vm_compute. discriminate.
  - vm_compute. discriminate.
Defined.

(** ** What a signup shows *)

Lemma append_length (a b : string) :
  String.length (a +:+ b) = (String.length a + String.length b)%nat.
Proof. induction a as [|c a IH]; cbn; [reflexivity | now rewrite IH]. Qed.

Lemma append_cancel_r (a b s : string) : a +:+ s = b +:+ s -> a = b.
Proof.
  revert b. induction a as [|c a IH]; intros [|d b] Heq; cbn in Heq.
  - reflexivity.
  - apply (f_equal String.length) in Heq. cbn in Heq. rewrite append_length in Heq. lia.
  - apply (f_equal String.length) in Heq. cbn in Heq. rewrite append_length in Heq. lia.
  - injection Heq as -> Heq. f_equal. now apply IH.
Qed.

Section Shows.

Context `{Collaborators}.

Lemma login_branch_shows gc params user roles userToReturn w :
  makers_succeed ->
  TokenTypeSessionToken <> TokenTypeAccessToken ->
  TokenTypeAccessToken <> TokenTypeRefreshToken ->
  TokenTypeSessionToken <> TokenTypeRefreshToken ->
  let authToken :=
    fst (CreateAuthToken gc user roles (scope_of params) AuthRecipeMethodBasicAuth (draws w)) in
  let w' := snd (login_branch gc params user roles userToReturn None w) in
  let sessionKey := AuthRecipeMethodBasicAuth +:+ ":" +:+ models.ID user in
  cookies w' = cookies w ++ [FingerPrintHash authToken]
  /\ spawned w'
     = spawned w ++ [[ RegisterEvent UserSignUpWebhookEvent AuthRecipeMethodBasicAuth user;
                       AddSession {| models.S_ID := "";
                                     models.S_UserID := models.ID user;
                                     models.S_UserAgent := GetUserAgent gc;
                                     models.S_IP := GetIP gc |} ]]
  /\ (exists m,
        user_sessions w' !! sessionKey = Some m
        /\ m !! (TokenTypeSessionToken +:+ "_" +:+ FingerPrint authToken)
           = Some (FingerPrintHash authToken)
        /\ m !! (TokenTypeAccessToken +:+ "_" +:+ FingerPrint authToken)
           = Some (JT_Token (AccessToken authToken))
        /\ match RefreshToken authToken with
           | Some rt =>
               m !! (TokenTypeRefreshToken +:+ "_" +:+ FingerPrint authToken)
               = Some (JT_Token rt)
           | None => True
           end)
  /\ (forall other, other <> sessionKey ->
        user_sessions w' !! other = user_sessions w !! other).
Proof.
  intros (_ & _ & Ha) Hsa Har Hsr. cbv zeta.
  unfold login_branch, scope_of.
  assert (Hscope : match model.SI_Scope params with
                   | Some s => if (0 <? length default_scope)%nat then s else default_scope
                   | None => default_scope end
                   = match model.SI_Scope params with Some s => s | None => default_scope end)
    by now destruct (model.SI_Scope params).
  rewrite Hscope. run_steps.
  match goal with |- context [CreateAuthToken ?a ?b ?c ?d ?e ?f] =>
    specialize (Ha a b c d e f); destruct (CreateAuthToken a b c d e f) as [tok o] end.
  cbn in Ha. subst o. cbn [fst].
  assert (K12 : TokenTypeSessionToken +:+ "_" +:+ FingerPrint tok
                <> TokenTypeAccessToken +:+ "_" +:+ FingerPrint tok)
    by (intros E; now apply append_cancel_r in E).
  assert (K23 : TokenTypeAccessToken +:+ "_" +:+ FingerPrint tok
                <> TokenTypeRefreshToken +:+ "_" +:+ FingerPrint tok)
    by (intros E; now apply append_cancel_r in E).
  assert (K13 : TokenTypeSessionToken +:+ "_" +:+ FingerPrint tok
                <> TokenTypeRefreshToken +:+ "_" +:+ FingerPrint tok)
    by (intros E; now apply append_cancel_r in E).
  cbn in K12, K23, K13.
  destruct (RefreshToken tok) as [rt|]; cbn;
    (split; [reflexivity|]); (split; [reflexivity|]); split.
  - eexists. split; [apply lookup_insert_eq|].
    repeat (rewrite ?lookup_insert_eq; rewrite ?lookup_insert_ne by congruence;
            cbn [default from_option id]).
    auto.
  - intros other Hother. now rewrite !lookup_insert_ne by congruence.
  - eexists. split; [apply lookup_insert_eq|].
    repeat (rewrite ?lookup_insert_eq; rewrite ?lookup_insert_ne by congruence;
            cbn [default from_option id]).
    auto.
  - intros other Hother. now rewrite !lookup_insert_ne by congruence.
Qed.

Lemma verification_branch_shows gc params user userToReturn w :
  faults (db w) = [] ->
  makers_succeed ->
  let vr := signup_request gc params (draws w) (clock (ticks w)) in
  let w' := snd (verification_branch gc params user userToReturn (GetHost gc) None w) in
  spawned w'
  = spawned w ++ [[ SendVerificationMail (model.SI_Email params) (models.VR_Token vr)
                      (GetHost gc);
                    RegisterEvent UserCreatedWebhookEvent AuthRecipeMethodBasicAuth user ]]
  /\ cookies w' = cookies w /\ user_sessions w' = user_sessions w.
Proof.
  intros Hf (Hn & Hv & _). cbv zeta.
  unfold verification_branch, signup_request, AddVerificationRequest. run_steps.
  specialize (Hn (draws w)).
  destruct (GenerateNonce (draws w)) as [[nonce nonceHash] o]. cbn in Hn. subst o.
  cbn [fst snd].
  match goal with |- context [CreateVerificationToken ?a ?b ?c ?d ?e] =>
    specialize (Hv a b c d e); destruct (CreateVerificationToken a b c d e) as [tok o] end.
  cbn in Hv. subst o. cbn. rewrite Hf. cbn. auto.
Qed.

End Shows.

Section Branches.

Context `{Collaborators}.

(** A valid signup comes down to one of the two branches, run after the
    insert of the row. *)
Lemma valid_signup_branches ctx gc params inputRoles w :
  valid_signup ctx gc params inputRoles w ->
  exists w1,
    SignupResolver ctx params w
    = (if flag_or_true EnvKeyDisableEmailVerification
       then login_branch gc (folded params) (signup_row params inputRoles w)
              (strings.Split (models.Roles (signup_row params inputRoles w)) ",")
              (AsAPIUser (signup_row params inputRoles w)) None w1
       else verification_branch gc (folded params) (signup_row params inputRoles w)
              (AsAPIUser (signup_row params inputRoles w)) (GetHost gc) None w1)
    /\ faults (db w1) = []
    /\ tbl_verification_requests (db w1) = tbl_verification_requests (db w)
    /\ draws w1 = S (draws w)
    /\ ticks w1 = (if flag_or_true EnvKeyDisableEmailVerification
                   then S (S (S (ticks w))) else S (S (ticks w)))
    /\ cookies w1 = cookies w /\ user_sessions w1 = user_sessions w
    /\ session_state w1 = session_state w /\ spawned w1 = spawned w.
Proof.
  intros Hvalid.
  rewrite (valid_signup_reaches_persist _ _ _ _ _ Hvalid).
  destruct Hvalid as (_ & _ & _ & Hd & Hf & _).
  unfold signup_row, persist_and_branch.
  destruct (flag_or_true EnvKeyDisableEmailVerification) eqn:Hevd;
    cbv beta iota zeta delta [bind ret time_Now tick];
    match goal with |- context [AddUser ?u ?w0] =>
      destruct (AddUser_quiet u w0 Hd Hf)
        as (w1 & -> & Hu & Hs & Hv & Hf1 & Ht & Hdr & Hc & Hus & Hss & Hsp)
    end;
    cbn [negb ticks draws db cookies user_sessions session_state spawned
         new_user models.ID String.eqb] in *;
    exists w1; repeat split; assumption || reflexivity.
Qed.

Lemma older_valid_signup_branches ctx gc params inputRoles w :
  older_valid_signup ctx gc params inputRoles w ->
  envstore_GetBoolStoreEnvVariable EnvKeyDisableEmailVerification = true ->
  exists w1,
    Older.SignupResolver ctx params w
    = Older.login_branch gc (folded params) (older_signup_row params inputRoles w)
        (strings.Split (models.Roles (older_signup_row params inputRoles w)) ",")
        (AsAPIUser (older_signup_row params inputRoles w)) None w1
    /\ draws w1 = S (draws w)
    /\ cookies w1 = cookies w /\ session_state w1 = session_state w
    /\ spawned w1 = spawned w.
Proof.
  intros Hvalid Hflag.
  rewrite (older_valid_signup_reaches_persist _ _ _ _ _ Hvalid).
  destruct Hvalid as (_ & _ & _ & _ & _ & _ & _ & Hd & Hf & _).
  unfold older_signup_row, Older.persist_and_branch. rewrite Hflag.
  cbv beta iota zeta delta [bind ret time_Now tick].
  match goal with |- context [AddUser ?u ?w0] =>
    destruct (AddUser_quiet u w0 Hd Hf)
      as (w1 & -> & Hu & Hs & Hv & Hf1 & Ht & Hdr & Hc & Hus & Hss & Hsp)
  end.
  cbn [negb ticks draws db cookies user_sessions session_state spawned
       new_user models.ID String.eqb] in *.
  exists w1. repeat split; assumption || reflexivity.
Qed.

Lemma older_login_branch_shows gc params user roles userToReturn w :
  older_makers_succeed ->
  let authToken :=
    fst (utils_CreateAuthToken gc user roles (scope_of params) (draws w)) in
  let out := Older.login_branch gc params user roles userToReturn None w in
  (exists resp, fst out = (Some resp, None) /\ model.RefreshToken resp = None
                /\ model.AccessToken resp = Some (JT_Token (AccessToken authToken)))
  /\ cookies (snd out) = cookies w ++ [FingerPrintHash authToken]
  /\ session_state (snd out)
     = <[FingerPrintHash authToken := FingerPrint authToken +:+ "@" +:+ models.ID user]>
         (session_state w)
  /\ spawned (snd out)
     = spawned w ++ [[ AddSession {| models.S_ID := "";
                                     models.S_UserID := models.ID user;
                                     models.S_UserAgent := GetUserAgent gc;
                                     models.S_IP := GetIP gc |} ]].
Proof.
  intros (_ & _ & Ha). cbv zeta.
  unfold Older.login_branch, scope_of.
  assert (Hscope : match model.SI_Scope params with
                   | Some s => if (0 <? length default_scope)%nat then s else default_scope
                   | None => default_scope end
                   = match model.SI_Scope params with Some s => s | None => default_scope end)
    by now destruct (model.SI_Scope params).
  rewrite Hscope. run_steps.
  match goal with |- context [utils_CreateAuthToken ?a ?b ?c ?d ?e] =>
    specialize (Ha a b c d e); destruct (utils_CreateAuthToken a b c d e) as [tok o] end.
  cbn in Ha. subst o. cbn. repeat split. eexists. repeat split.
Qed.

End Branches.

(** X22.  What the login leaves behind.  For a valid signup with the
    verification disabled, the three kinds of token entries having distinct
    names, the resolver sets the cookie to the hash of the fingerprint and
    caches, under the key of the method and the ID of the stored user, the
    hash as the session token and the very access token of the response (and
    the refresh token when there is one); the sessions cached under other
    keys are untouched, and the goroutine it starts adds a session for the
    stored user. *)
Theorem login_registers_the_session `{Collaborators}
    (ctx : context_Context) (gc : GinContext) (params : model.SignUpInput)
    (inputRoles : list string) (w : World) :
  valid_signup ctx gc params inputRoles w ->
  makers_succeed ->
  flag_or_true EnvKeyDisableEmailVerification = true ->
  TokenTypeSessionToken <> TokenTypeAccessToken ->
  TokenTypeAccessToken <> TokenTypeRefreshToken ->
  TokenTypeSessionToken <> TokenTypeRefreshToken ->
  let authToken := signup_token gc params inputRoles w in
  let row := signup_row params inputRoles w in
  let sessionKey := AuthRecipeMethodBasicAuth +:+ ":" +:+ models.ID row in
  exists resp w' m,
    SignupResolver ctx params w = ((Some resp, None), w')
    /\ cookies w' = cookies w ++ [FingerPrintHash authToken]
    /\ user_sessions w' !! sessionKey = Some m
    /\ m !! (TokenTypeSessionToken +:+ "_" +:+ FingerPrint authToken)
       = Some (FingerPrintHash authToken)
    /\ m !! (TokenTypeAccessToken +:+ "_" +:+ FingerPrint authToken)
       = model.AccessToken resp
    /\ match RefreshToken authToken with
       | Some rt =>
           m !! (TokenTypeRefreshToken +:+ "_" +:+ FingerPrint authToken)
           = Some (JT_Token rt)
           /\ model.RefreshToken resp = Some (JT_Token rt)
       | None => model.RefreshToken resp = None
       end
    /\ (forall other, other <> sessionKey ->
          user_sessions w' !! other = user_sessions w !! other)
    /\ spawned w'
       = spawned w ++ [[ RegisterEvent UserSignUpWebhookEvent AuthRecipeMethodBasicAuth row;
                         AddSession {| models.S_ID := "";
                                       models.S_UserID := models.ID row;
                                       models.S_UserAgent := GetUserAgent gc;
                                       models.S_IP := GetIP gc |} ]].
Proof.
  intros Hvalid Hmk Hflag Hsa Har Hsr. cbv zeta.
  destruct (signup_succeeds ctx gc params inputRoles w Hvalid Hmk) as (w' & Hrun & _).
  destruct (valid_signup_branches ctx gc params inputRoles w Hvalid)
    as (w1 & Hbranch & _ & _ & Hdr & _ & Hc & Hus & _ & Hsp).
  rewrite Hflag in Hbranch.
  pose proof (login_branch_shows gc (folded params) (signup_row params inputRoles w)
                (strings.Split (models.Roles (signup_row params inputRoles w)) ",")
                (AsAPIUser (signup_row params inputRoles w)) w1 Hmk Hsa Har Hsr) as Hshow.
  cbv zeta in Hshow. rewrite <- Hbranch, Hrun, Hdr, Hc, Hus, Hsp in Hshow. cbn [snd] in Hshow.
  change (scope_of (folded params)) with (scope_of params) in Hshow.
  fold (signup_token gc params inputRoles w) in Hshow.
  destruct Hshow as (Hcookie & Hspawn & (m & Hm & Hk1 & Hk2 & Hk3) & Hother).
  exists (signup_response gc params inputRoles w), w', m.
  split; [exact Hrun|]. split; [exact Hcookie|]. split; [exact Hm|].
  split; [exact Hk1|].
  unfold signup_response. rewrite Hflag. unfold login_response.
  cbn [model.AccessToken model.RefreshToken].
  split; [exact Hk2|]. split; [|split; [exact Hother | exact Hspawn]].
  destruct (RefreshToken (signup_token gc params inputRoles w)); cbn; auto.
Qed.

Lemma login_registers_the_session_witness :
  exists resp w' m,
    @SignupResolver (Demo.run true false false 1700000900) tt Demo.scenario_input
      (Demo.world_of Demo.empty_db) = ((Some resp, None), w')
    /\ cookies w' = ["fp-hash"]
    /\ user_sessions w' !! "basic_auth:uuid-0" = Some m
    /\ m !! "session_token_fp" = Some "fp-hash"
    /\ m !! "access_token_fp" = model.AccessToken resp.
Proof.
  destruct (@login_registers_the_session (Demo.run true false false 1700000900) tt tt
              Demo.scenario_input ["user"] (Demo.world_of Demo.empty_db))
    as (resp & w' & m & Hrun & Hc & Hm & Hk1 & Hk2 & _).
  - repeat split; try reflexivity. left. split; [reflexivity|].
    exists "user". split; reflexivity.
  - repeat split.
  - reflexivity.
  - vm_compute. discriminate.
  - vm_compute. discriminate.
  - vm_compute. discriminate.
  - exists resp, w', m. repeat split; assumption.
Defined.

(** X23.  The mail and the stored request.  For a valid signup with the
    verification enabled, the goroutine the resolver starts mails, to the
    lower-cased address, the very token of the request it has just stored
    as the last of the table, and registers the event for the stored user;
    the response carries no token, and no cookie is set and no session
    cached. *)
Theorem mail_carries_the_stored_token `{Collaborators}
    (ctx : context_Context) (gc : GinContext) (params : model.SignUpInput)
    (inputRoles : list string) (w : World) :
  valid_signup ctx gc params inputRoles w ->
  makers_succeed ->
  flag_or_true EnvKeyDisableEmailVerification = false ->
  exists resp w' earlier vr,
    SignupResolver ctx params w = ((Some resp, None), w')
    /\ model.AccessToken resp = None
    /\ tbl_verification_requests (db w') = earlier ++ [vr]
    /\ models.VR_Email vr = strings.ToLower (model.SI_Email params)
    /\ spawned w'
       = spawned w
         ++ [[ SendVerificationMail (strings.ToLower (model.SI_Email params))
                 (models.VR_Token vr) (GetHost gc);
               RegisterEvent UserCreatedWebhookEvent AuthRecipeMethodBasicAuth
                 (signup_row params inputRoles w) ]]
    /\ cookies w' = cookies w /\ user_sessions w' = user_sessions w.
Proof.
  intros Hvalid Hmk Hflag.
  destruct (signup_succeeds ctx gc params inputRoles w Hvalid Hmk) as (w' & Hrun & _ & Hv).
  destruct (valid_signup_branches ctx gc params inputRoles w Hvalid)
    as (w1 & Hbranch & Hf1 & _ & Hdr & Ht & Hc & Hus & _ & Hsp).
  rewrite Hflag in Hbranch, Hv, Ht.
  pose proof (verification_branch_shows gc (folded params) (signup_row params inputRoles w)
                (AsAPIUser (signup_row params inputRoles w)) w1 Hf1 Hmk) as Hshow.
  cbv zeta in Hshow. rewrite <- Hbranch, Hrun, Hdr, Ht, Hc, Hus, Hsp in Hshow.
  cbn [snd] in Hshow. destruct Hshow as (Hspawn & Hcookie & Hcache).
  exists (signup_response gc params inputRoles w), w'.
  eexists. exists (signup_verification gc params w).
  split; [exact Hrun|]. split.
  { unfold signup_response. now rewrite Hflag. }
  split; [exact Hv|]. split; [reflexivity|].
  split; [exact Hspawn|]. split; assumption.
Qed.

Lemma mail_carries_the_stored_token_witness :
  exists resp w' earlier vr,
    @SignupResolver plain_run tt Demo.scenario_input (Demo.world_of Demo.empty_db)
    = ((Some resp, None), w')
    /\ model.AccessToken resp = None
    /\ tbl_verification_requests (db w') = earlier ++ [vr]
    /\ models.VR_Email vr = "a@b.com"
    /\ exists event,
         spawned w' = [[SendVerificationMail "a@b.com" (models.VR_Token vr)
                          "https://auth.example"; event]].
Proof.
  destruct (@mail_carries_the_stored_token plain_run tt tt
              Demo.scenario_input ["user"] (Demo.world_of Demo.empty_db))
    as (resp & w' & earlier & vr & Hrun & Ha & Hv & He & Hs & _).
  - repeat split; try reflexivity. left. split; [reflexivity|].
    exists "user". split; reflexivity.
  - repeat split.
  - reflexivity.
  - exists resp, w', earlier, vr. repeat split; try assumption.
    eexists. exact Hs.
Defined.

(** X24.  The state the older resolver keeps.  For a valid signup through
    the older resolver with the verification disabled, the state store maps
    the hash of the fingerprint to the fingerprint, an at sign and the ID of
    the stored user; the cookie is that hash, the goroutine adds a session
    for the stored user, and the response has an access token and never a
    refresh token. *)
Theorem older_login_keeps_state `{Collaborators}
    (ctx : context_Context) (gc : GinContext) (params : model.SignUpInput)
    (inputRoles : list string) (w : World) :
  older_valid_signup ctx gc params inputRoles w ->
  older_makers_succeed ->
  envstore_GetBoolStoreEnvVariable EnvKeyDisableEmailVerification = true ->
  let authToken := older_signup_token gc params inputRoles w in
  let row := older_signup_row params inputRoles w in
  exists resp w',
    Older.SignupResolver ctx params w = ((Some resp, None), w')
    /\ model.AccessToken resp = Some (JT_Token (AccessToken authToken))
    /\ model.RefreshToken resp = None
    /\ session_state w' !! FingerPrintHash authToken
       = Some (FingerPrint authToken +:+ "@" +:+ models.ID row)
    /\ cookies w' = cookies w ++ [FingerPrintHash authToken]
    /\ spawned w'
       = spawned w ++ [[ AddSession {| models.S_ID := "";
                                       models.S_UserID := models.ID row;
                                       models.S_UserAgent := GetUserAgent gc;
                                       models.S_IP := GetIP gc |} ]].
Proof.
  intros Hvalid Hmk Hflag. cbv zeta.
  destruct (older_valid_signup_branches ctx gc params inputRoles w Hvalid Hflag)
    as (w1 & Hbranch & Hdr & Hc & Hss & Hsp).
  pose proof (older_login_branch_shows gc (folded params)
                (older_signup_row params inputRoles w)
                (strings.Split (models.Roles (older_signup_row params inputRoles w)) ",")
                (AsAPIUser (older_signup_row params inputRoles w)) w1 Hmk) as Hshow.
  cbv zeta in Hshow. rewrite <- Hbranch, Hdr, Hc, Hss, Hsp in Hshow.
  change (scope_of (folded params)) with (scope_of params) in Hshow.
  fold (older_signup_token gc params inputRoles w) in Hshow.
  destruct Hshow as ((resp & Hres & Hrt & Hat) & Hcookie & Hstate & Hspawn).
  exists resp, (snd (Older.SignupResolver ctx params w)).
  split.
  { destruct (Older.SignupResolver ctx params w) as [r w']. cbn in *. now subst r. }
  split; [exact Hat|]. split; [exact Hrt|].
  split; [rewrite Hstate; apply lookup_insert_eq|].
  split; assumption.
Qed.

Lemma older_login_keeps_state_witness :
  exists resp w',
    @Older.SignupResolver (Demo.run true false false 1700000900) tt Demo.scenario_input
      (Demo.world_of Demo.empty_db) = ((Some resp, None), w')
    /\ model.RefreshToken resp = None
    /\ session_state w' !! "fp-hash" = Some "fp@uuid-0"
    /\ cookies w' = ["fp-hash"].
Proof.
  destruct (@older_login_keeps_state (Demo.run true false false 1700000900) tt tt
              Demo.scenario_input ["user"] (Demo.world_of Demo.empty_db))
    as (resp & w' & Hrun & _ & Hrt & Hst & Hc & _).
  - repeat split; try reflexivity. left. split; reflexivity.
  - repeat split.
  - reflexivity.
  - exists resp, w'. repeat split; assumption.
Defined.

(** ** A lookup that fails *)

Section FailedLookup.

Context `{Collaborators}.



End FailedLookup.



(** ** More edges of the provider *)

Lemma filter_keeps_in {A} (f : A -> bool) (l : list A) :
  (forall x, In x l -> f x = true) -> List.filter f l = l.
Proof.
  induction l as [|x l IH]; intros Hall; cbn; [reflexivity|].
  rewrite (Hall x) by now left. f_equal. apply IH. intros y Hy. apply Hall. now right.
Qed.

Lemma filter_drops_in {A} (f : A -> bool) (l : list A) :
  (forall x, In x l -> f x = false) -> List.filter f l = [].
Proof.
  induction l as [|x l IH]; intros Hall; cbn; [reflexivity|].
  rewrite (Hall x) by now left. apply IH. intros y Hy. apply Hall. now right.
Qed.


(** X26.  Deleting what is not there.  [DeleteUser] does not ask whether
    the user exists: for an ID that no row of the users table and no session
    carries, the three statements succeeding, it returns [nil] and both
    tables are as they were. *)
Theorem DeleteUser_of_unknown_user_succeeds (user : models.User) (w : World) :
  faults (db w) = [] ->
  existsb (same_id (models.ID user)) (tbl_users (db w)) = false ->
  existsb (session_of (models.ID user)) (tbl_sessions (db w)) = false ->
  exists w',
    DeleteUser user w = (None, w')
    /\ tbl_users (db w') = tbl_users (db w)
    /\ tbl_sessions (db w') = tbl_sessions (db w).
Proof.
  intros Hf Hnone Hnos.
  destruct (DeleteUser_quiet user w Hf) as (w' & Hrun & _ & Hu & Hs).
  exists w'. split; [exact Hrun|]. split.
  - rewrite Hu. apply filter_keeps_in. intros u Hin.
    destruct (same_id (models.ID user) u) eqn:E; [|reflexivity].
    assert (existsb (same_id (models.ID user)) (tbl_users (db w)) = true)
      by (apply existsb_exists; eauto).
    congruence.
  - rewrite Hs.
    replace (List.filter (session_of (models.ID user)) (tbl_sessions (db w)))
      with (@nil models.Session).
    + now apply filter_keeps_all.
    + symmetry. apply filter_drops_in. intros s Hin.
      destruct (session_of (models.ID user) s) eqn:E; [|reflexivity].
      assert (existsb (session_of (models.ID user)) (tbl_sessions (db w)) = true)
        by (apply existsb_exists; eauto).
      congruence.
Qed.

Lemma DeleteUser_of_unknown_user_succeeds_witness :
  exists w',
    DeleteUser Demo.oneil (Demo.world_of (Demo.sessions_db [])) = (None, w')
    /\ tbl_users (db w') = [Demo.verified_row]
    /\ tbl_sessions (db w') = [Demo.session_1; Demo.session_2; Demo.session_3].
Proof.
  apply (DeleteUser_of_unknown_user_succeeds Demo.oneil
           (Demo.world_of (Demo.sessions_db []))); reflexivity.
Defined.

(** ** The claims about the email *)

(** C9.  The email is lower-cased first.  (1) Two inputs whose emails have
    the same lower-cased form run the same: the resolver returns the same
    result and leaves the same world.  (2) The format check is the one of
    the lower-cased email.  (3) The lookup is by the lower-cased email: a
    verified row with that email, the first the scan meets, refuses the
    signup.  (4) What is persisted
    is the lower-cased email: for a valid signup stored under a fresh ID,
    the strings of the row (and the keyspace name) holding no single quote,
    the INSERT spells the lower-cased email as one of its literals, whatever
    the order the map is visited in, the table then holds a row with that
    email, and the projection returned carries it.  (5) The scenario: for the
    input with email A@B.com and password Abc123!@, verification disabled and
    default roles "user", the projection has email a@b.com and roles [user],
    and the response carries an access token. *)
Theorem email_is_case_folded `{Collaborators}
    (ctx : context_Context) (gc : GinContext) (params : model.SignUpInput) (w : World) :
  (forall email',
     strings.ToLower email' = strings.ToLower (model.SI_Email params) ->
     SignupResolver ctx (model.set_Email params email') w
     = SignupResolver ctx params w)
  /\ (gates_open ctx gc ->
      model.SI_ConfirmPassword params = model.SI_Password params ->
      IsValidPassword (model.SI_Password params) = None ->
      IsValidEmail (strings.ToLower (model.SI_Email params)) = false ->
      SignupResolver ctx params w = ((None, Some ErrInvalidEmail), w))
  /\ (forall row,
      gates_open ctx gc -> well_formed params -> faults (db w) = [] ->
      find (fun u => String.eqb (models.Email u) (strings.ToLower (model.SI_Email params)))
        (scan_order (tbl_users (db w))) = Some row ->
      models.EmailVerifiedAt row <> None ->
      SignupResolver ctx params w
      = ((None, Some (ErrAlreadySignedUp (strings.ToLower (model.SI_Email params)))), w))
  /\ (forall inputRoles,
      valid_signup ctx gc params inputRoles w -> makers_succeed ->
      existsb (same_id (uuid_New (draws w))) (tbl_users (db w)) = false ->
      inert_user (signup_row params inputRoles w) = true ->
      quote_free KeySpace = true ->
      exists resp w' row u,
        SignupResolver ctx params w = ((Some resp, None), w')
        /\ In row (tbl_users (db w'))
        /\ models.Email row = strings.ToLower (model.SI_Email params)
        /\ (forall visit, range_of (userMap row) visit ->
              cql_lex (AddUser_query KeySpace visit)
              = Some (AddUser_tokens KeySpace visit)
              /\ In (TLit (strings.ToLower (model.SI_Email params)))
                    (AddUser_tokens KeySpace visit))
        /\ model.AR_User resp = Some u
        /\ model.Email u = strings.ToLower (model.SI_Email params))
  /\ (forall inputRoles,
      params = Demo.scenario_input ->
      valid_signup ctx gc params inputRoles w -> makers_succeed ->
      flag_or_true EnvKeyDisableEmailVerification = true ->
      GetStringStoreEnvVariable EnvKeyDefaultRoles = ("user", None) ->
      exists resp w' u accessToken,
        SignupResolver ctx params w = ((Some resp, None), w')
        /\ model.AR_User resp = Some u
        /\ model.Email u = "a@b.com"
        /\ model.Roles u = ["user"]
        /\ model.AccessToken resp = Some accessToken).
Proof.
  split; [|split; [|split; [|split]]].
  - intros email' Hlow. unfold SignupResolver.
    destruct params; cbn in *. rewrite Hlow. reflexivity.
  - intros (Hgc & Hs & Hb) Hc Hp He.
    unfold SignupResolver. rewrite Hgc, Hs, Hb, Hc, String.eqb_refl, Hp. cbn.
    now rewrite He.
  - intros row (Hgc & Hs & Hb) (Hc & Hp & He) Hf Hfind Hver.
    unfold SignupResolver. rewrite Hgc, Hs, Hb, Hc, String.eqb_refl, Hp. cbn.
    rewrite He. cbn. unfold bind at 1.
    unfold GetUserByEmail, bind, get_db, ret. rewrite (db_call_quiet _ Hf), Hfind. cbn.
    destruct (models.EmailVerifiedAt row); [reflexivity | congruence].
  - intros inputRoles Hvalid Hmk Hfresh Hinert Hks.
    destruct (signup_succeeds ctx gc params inputRoles w Hvalid Hmk) as (w' & Hrun & _).
    destruct (valid_signup_stores _ _ _ _ _ Hvalid Hfresh) as (Hu & _).
    rewrite Hrun in Hu. cbn [snd] in Hu.
    destruct (signup_row_facts params inputRoles w) as (He & _).
    exists (signup_response gc params inputRoles w), w',
      (signup_row params inputRoles w), (AsAPIUser (signup_row params inputRoles w)).
    split; [exact Hrun|]. split; [rewrite Hu; apply in_or_app; right; now left|].
    split; [exact He|]. split; [|split].
    + intros visit Hvisit.
      destruct (visit_facts _ visit Hinert Hvisit) as (Hclean & Hp & _).
      split; [now apply AddUser_query_lex|].
      unfold AddUser_tokens. cbn zeta.
      apply in_or_app. right. apply in_or_app. left.
      apply (value_tokens_In _ _ (VString (strings.ToLower (model.SI_Email params))));
        [|now left].
      apply (in_map snd _ ("email", VString (strings.ToLower (model.SI_Email params)))).
      apply filter_In. split; [|reflexivity].
      apply range_of_userMap in Hvisit.
      eapply Permutation_in; [exact Hvisit|].
      unfold user_entries. apply in_or_app. right. right. left. now rewrite He.
    + unfold signup_response. now destruct (flag_or_true _).
    + exact He.
  - intros inputRoles -> Hvalid Hmk Hevd Hdef.
    destruct (signup_succeeds ctx gc _ inputRoles w Hvalid Hmk) as (w' & Hrun & _).
    destruct Hvalid as (_ & _ & [(_ & s & Hs & ->) | (Hne & _)] & _);
      [|now cbn in Hne].
    rewrite Hdef in Hs. injection Hs as <-.
    unfold signup_response in Hrun. rewrite Hevd in Hrun.
    do 4 eexists. split; [exact Hrun|].
    cbn. repeat split.
Qed.

Lemma email_is_case_folded_witness :
  (exists resp w' row u,
     @SignupResolver (Demo.run true false false 1700000900) tt Demo.scenario_input
       (Demo.world_of Demo.empty_db) = ((Some resp, None), w')
     /\ In row (tbl_users (db w'))
     /\ models.Email row = "a@b.com"
     /\ model.AR_User resp = Some u
     /\ model.Email u = "a@b.com")
  /\ exists resp w' u accessToken,
       @SignupResolver (Demo.run true false false 1700000900) tt Demo.scenario_input
         (Demo.world_of Demo.empty_db) = ((Some resp, None), w')
       /\ model.AR_User resp = Some u
       /\ model.Email u = "a@b.com"
       /\ model.Roles u = ["user"]
       /\ model.AccessToken resp = Some accessToken.
Proof.
  destruct (@email_is_case_folded (Demo.run true false false 1700000900)
              tt tt Demo.scenario_input (Demo.world_of Demo.empty_db))
    as (_ & _ & _ & Hstored & Hscenario).
  split.
  - destruct (Hstored ["user"]) as (resp & w' & row & u & Hrun & Hin & He & _ & Hu & Hue).
    + repeat split; try reflexivity. left. split; [reflexivity|].
      exists "user". split; reflexivity.
    + repeat split.
    + reflexivity.
    + vm_compute. reflexivity.
    + reflexivity.
    + exists resp, w', row, u. repeat split; assumption.
  - apply (Hscenario ["user"]).
    + reflexivity.
    + repeat split; try reflexivity. left. split; [reflexivity|].
      exists "user". split; reflexivity.
    + repeat split.
    + reflexivity.
    + reflexivity.
Defined.

(** C1.  A duplicate is let in when the lookup fails.  The users table
    holds a verified row with the email a@b.com; a request for A@B.com comes
    in, the lookup by email fails (its error is only logged) and every later
    call succeeds.  The resolver does not return the already-signed-up
    error: it answers with a response that carries an access token, and the
    table has a second row with the same email. *)
Theorem duplicate_email_is_stored_when_lookup_fails :
  models.Email Demo.verified_row = "a@b.com"
  /\ models.EmailVerifiedAt Demo.verified_row = Some 1690000000
  /\ exists resp w' row,
       @SignupResolver (Demo.run true false false 1700000900) tt Demo.scenario_input
         (world_with [Demo.verified_row] [Some "read timeout"])
       = ((Some resp, None), w')
       /\ model.Message resp = MsgSignedUp
       /\ model.AccessToken resp = Some "access.jwt"
       /\ tbl_users (db w') = [Demo.verified_row; row]
       /\ models.Email row = "a@b.com"
       /\ models.ID row = "uuid-0".
Proof.
  split; [reflexivity|]. split; [reflexivity|].
  do 3 eexists. split; [vm_compute; reflexivity|].
  repeat split.
Qed.
